(** * Bollywood News Transformer: the content script and the background worker

    A shallow embedding of [content.js] (title and body extraction, page
    rewriting, the [transformArticle] routine) and of [background.js] (the
    message listener and [transformArticleWithGemini]), with the properties
    of the specification stated over it.

    - [JsString]: JavaScript strings as sequences of UTF-16 code units.
    - [Dom]: the part of the DOM the scripts read and write. What a
      template assigned to [innerHTML] becomes is worked out where the
      interpolated text is character data or ends in an open doctype or
      comment; for any other text it is left to the parser of the
      browser, the class [Browser].
    - [Content]: content.js.
    - [Background]: background.js. *)

From Stdlib Require Import String Ascii List NArith ZArith Bool Arith Lia.
Import ListNotations.

Set Implicit Arguments.
Open Scope string_scope.
Open Scope list_scope.
Open Scope nat_scope.
Set Warnings "-register-all".

(* ================================================================= *)
(** ** JavaScript strings *)

Module JsString.

(** A JavaScript string is a sequence of UTF-16 code units; [length],
    [substring], [split] and [trim] all work on code units. *)
Definition jsstring := list N.

(** A literal of the source made of ASCII characters. *)
Definition lit (s : string) : jsstring :=
  map N_of_ascii (list_ascii_of_string s).

Definition eqb (a b : jsstring) : bool :=
  if list_eq_dec N.eq_dec a b then true else false.

(** Truthiness of a string value: the empty string is falsy. *)
Definition nonempty (s : jsstring) : bool :=
  match s with [] => false | _ :: _ => true end.

(** WhiteSpace and LineTerminator code points of ECMAScript, the ones
    [String.prototype.trim] removes. *)
Definition is_space (c : N) : bool :=
  ((9 <=? c) && (c <=? 13) || (c =? 32) || (c =? 160) || (c =? 5760)
   || (8192 <=? c) && (c <=? 8202) || (c =? 8232) || (c =? 8233)
   || (c =? 8239) || (c =? 8287) || (c =? 12288) || (c =? 65279))%N.

Fixpoint trimStart (s : jsstring) : jsstring :=
  match s with
  | c :: s' => if is_space c then trimStart s' else s
  | [] => []
  end.

Definition trimEnd (s : jsstring) : jsstring := rev (trimStart (rev s)).

Definition trim (s : jsstring) : jsstring := trimEnd (trimStart s).

(** Cuts [s] at every code unit satisfying [is_sep]; the pieces between
    two cuts may be empty, and there is always at least one piece. *)
Fixpoint split_where (is_sep : N -> bool) (s : jsstring) : list jsstring :=
  match s with
  | [] => [[]]
  | c :: s' =>
      if is_sep c then [] :: split_where is_sep s'
      else match split_where is_sep s' with
           | piece :: pieces => (c :: piece) :: pieces
           | [] => [[c]]
           end
  end.

(** [s.split(sep)] for a separator of one code unit. *)
Definition split (sep : N) (s : jsstring) : list jsstring :=
  split_where (N.eqb sep) s.

(** [pieces.join(sep)]. *)
Fixpoint join (sep : jsstring) (pieces : list jsstring) : jsstring :=
  match pieces with
  | [] => []
  | [p] => p
  | p :: rest => p ++ sep ++ join sep rest
  end.

(** [s.substring(0, Math.min(s.length, n))]. *)
Definition substring0 (n : nat) (s : jsstring) : jsstring :=
  firstn (Nat.min (length s) n) s.

(** [s.startsWith(prefix)] and [s.includes(needle)]. *)
Fixpoint startsWith (prefix s : jsstring) : bool :=
  match prefix, s with
  | [], _ => true
  | c :: prefix', d :: s' => (c =? d)%N && startsWith prefix' s'
  | _ :: _, [] => false
  end.

Fixpoint includes (needle s : jsstring) : bool :=
  startsWith needle s
  || match s with
     | [] => false
     | _ :: s' => includes needle s'
     end.

(** [a || b] on strings that may be undefined. *)
Definition or_else (a : option jsstring) (b : jsstring) : jsstring :=
  match a with
  | Some (c :: s) => c :: s
  | _ => b
  end.

(** A value interpolated in a template literal. *)
Definition interpolate (a : option jsstring) : jsstring :=
  match a with
  | Some s => s
  | None => lit "undefined"
  end.

Definition LF : N := 10.
Definition SPACE : N := 32.

End JsString.

Import JsString.
Arguments lit s%_string.

(* ================================================================= *)
(** ** The DOM seen by the scripts *)

Module Dom.

(** The namespace of an element: an HTML element, or an element of
    inline SVG or MathML. *)
Inductive Namespace :=
| HTML
| SVG
| MathML.

(** What the scripts read of an element besides its children.
    [offsetParent] holds whether [el.offsetParent !== null], which the
    layout of the page decides. The inline style declarations are kept
    apart from the other attributes. *)
Record ElementData := mkElementData {
  localName : jsstring;
  namespace : Namespace;
  attributes : list (jsstring * jsstring);
  style : list (jsstring * jsstring);
  offsetParent : bool
}.

(** Text nodes and elements. Comment nodes are left out: nothing the
    scripts do reads one ([textContent], the selectors and the text of a
    [title] all pass over them). *)
Inductive Node :=
| Text (data : jsstring)
| Elem (e : ElementData) (children : list Node).

(** An HTML document as the parser builds it: an [html] root with a [head]
    and a [body]; the record holds the children of both. None of the
    selectors of the scripts matches [html], [head] or [body]. *)
Record Document := mkDocument {
  head : list Node;
  body : list Node
}.

(** A reference to a node: the child indices leading to it from [head]
    or from [body]. *)
Definition Path := list nat.

Inductive Ref :=
| InHead (p : Path)
| InBody (p : Path).

Definition mapi {A B : Type} (f : nat -> A -> B) : nat -> list A -> list B :=
  fix go (i : nat) (l : list A) : list B :=
    match l with
    | [] => []
    | x :: l' => f i x :: go (S i) l'
    end.

Definition under {A : Type} (i : nat) (pe : Path * A) : Path * A :=
  (i :: fst pe, snd pe).

(** The elements of a subtree in tree order (the node itself first), each
    with its path from the node. *)
Fixpoint walk (n : Node) : list (Path * Node) :=
  match n with
  | Text _ => []
  | Elem _ cs =>
      ([], n) :: concat (mapi (fun i c => map (under i) (walk c)) 0 cs)
  end.

Definition walk_forest (f : list Node) : list (Path * Node) :=
  concat (mapi (fun i c => map (under i) (walk c)) 0 f).

Definition at_ref {A : Type} (mk : Path -> Ref) (pe : Path * A) : Ref * A :=
  (mk (fst pe), snd pe).

(** All elements of the document in tree order. *)
Definition elements (d : Document) : list (Ref * Node) :=
  map (at_ref InHead) (walk_forest (head d))
  ++ map (at_ref InBody) (walk_forest (body d)).

Fixpoint get_forest (f : list Node) (p : Path) : option Node :=
  match p with
  | [] => None
  | i :: p' =>
      match nth_error f i with
      | Some n =>
          match p', n with
          | [], _ => Some n
          | _ :: _, Elem _ cs => get_forest cs p'
          | _ :: _, Text _ => None
          end
      | None => None
      end
  end.

Definition deref (d : Document) (r : Ref) : option Node :=
  match r with
  | InHead p => get_forest (head d) p
  | InBody p => get_forest (body d) p
  end.

Fixpoint update_nth {A : Type} (i : nat) (g : A -> A) (l : list A) : list A :=
  match l, i with
  | [], _ => []
  | x :: l', O => g x :: l'
  | x :: l', S i' => x :: update_nth i' g l'
  end.

(** Applies [g] to the node at path [p]; a path that leads nowhere
    changes nothing. *)
Fixpoint modify_forest (g : Node -> Node) (p : Path) (f : list Node)
  : list Node :=
  match p with
  | [] => f
  | i :: p' =>
      update_nth i
        (fun n =>
           match p', n with
           | [], _ => g n
           | _ :: _, Elem e cs => Elem e (modify_forest g p' cs)
           | _ :: _, Text _ => n
           end) f
  end.

Definition modify (g : Node -> Node) (r : Ref) (d : Document) : Document :=
  match r with
  | InHead p => mkDocument (modify_forest g p (head d)) (body d)
  | InBody p => mkDocument (head d) (modify_forest g p (body d))
  end.

(** *** Reading elements *)

Definition children (n : Node) : list Node :=
  match n with
  | Elem _ cs => cs
  | Text _ => []
  end.

(** The node a path leads to from a node, the empty path being the node
    itself. *)
Definition get_node (n : Node) (p : Path) : option Node :=
  match p with
  | [] => Some n
  | _ :: _ => get_forest (children n) p
  end.

(** The elements of a forest whose first tree has index [i]. *)
Definition walk_from (i : nat) (f : list Node) : list (Path * Node) :=
  concat (mapi (fun i c => map (under i) (walk c)) i f).

(** [node.textContent]. *)
Fixpoint textContent (n : Node) : jsstring :=
  match n with
  | Text d => d
  | Elem _ cs => concat (map textContent cs)
  end.

Fixpoint lookup (k : jsstring) (l : list (jsstring * jsstring))
  : option jsstring :=
  match l with
  | [] => None
  | (k', v) :: l' => if eqb k' k then Some v else lookup k l'
  end.

Definition getAttribute (k : jsstring) (n : Node) : option jsstring :=
  match n with
  | Elem e _ => lookup k (attributes e)
  | Text _ => None
  end.

(** A reflected string attribute such as [meta.content]: the empty string
    when the attribute is missing. *)
Definition reflected (k : jsstring) (n : Node) : jsstring :=
  match getAttribute k n with
  | Some v => v
  | None => []
  end.

Definition is_ascii_whitespace (c : N) : bool :=
  ((c =? 9) || (c =? 10) || (c =? 12) || (c =? 13) || (c =? 32))%N.

Definition tokens (s : jsstring) : list jsstring :=
  filter nonempty (split_where is_ascii_whitespace s).

Definition classList (n : Node) : list jsstring :=
  tokens (reflected (lit "class") n).

(** *** Selectors *)

(** The compound selectors the scripts use: a type selector alone or with
    one class, attribute or id condition. *)
Inductive Compound :=
| ByTag (t : string)
| ByClass (t c : string)
| ByAttr (t a : string)
| ByAttrValue (t a v : string)
| ById (t i : string).

(** A selector list, as in ['p, div.Normal']. *)
Definition Selector := list Compound.

Definition dquote : string := String (ascii_of_nat 34) EmptyString.

(** The text of the selector in the source. *)
Definition css (c : Compound) : string :=
  match c with
  | ByTag t => t
  | ByClass t k => t ++ "." ++ k
  | ByAttr t a => t ++ "[" ++ a ++ "]"
  | ByAttrValue t a v => t ++ "[" ++ a ++ "=" ++ dquote ++ v ++ dquote ++ "]"
  | ById t i => t ++ "#" ++ i
  end%string.

Definition has_tag (t : string) (n : Node) : bool :=
  match n with
  | Elem e _ => eqb (localName e) (lit t)
  | Text _ => false
  end.

Definition matches (c : Compound) (n : Node) : bool :=
  match c with
  | ByTag t => has_tag t n
  | ByClass t k => has_tag t n && existsb (eqb (lit k)) (classList n)
  | ByAttr t a =>
      has_tag t n
      && match getAttribute (lit a) n with Some _ => true | None => false end
  | ByAttrValue t a v =>
      has_tag t n
      && match getAttribute (lit a) n with
         | Some x => eqb x (lit v)
         | None => false
         end
  | ById t i =>
      has_tag t n
      && match getAttribute (lit "id") n with
         | Some x => eqb x (lit i)
         | None => false
         end
  end.

Definition matches_any (s : Selector) (n : Node) : bool :=
  existsb (fun c => matches c n) s.

(** [document.querySelectorAll(s)] and [document.querySelector(s)]: each
    result is a reference together with the node it points to. *)
Definition querySelectorAll (s : Selector) (d : Document)
  : list (Ref * Node) :=
  filter (fun rn => matches_any s (snd rn)) (elements d).

Definition querySelector (s : Selector) (d : Document)
  : option (Ref * Node) :=
  hd_error (querySelectorAll s d).

(** [el.querySelectorAll(s)] and [el.querySelector(s)]: the descendants of
    [el] only. *)
Definition querySelectorAll_in (s : Selector) (el : Node)
  : list (Path * Node) :=
  filter (fun pn => matches_any s (snd pn)) (walk_forest (children el)).

Definition querySelector_in (s : Selector) (el : Node)
  : option (Path * Node) :=
  hd_error (querySelectorAll_in s el).

(** *** Writing elements *)

(** [el.textContent = v]. *)
Definition set_textContent (v : jsstring) (n : Node) : Node :=
  match n with
  | Elem e _ => Elem e (if nonempty v then [Text v] else [])
  | Text _ => Text v
  end.

(** [el.innerHTML = ''] and other replacements of all children. *)
Definition set_children (cs : list Node) (n : Node) : Node :=
  match n with
  | Elem e _ => Elem e cs
  | Text d => Text d
  end.

Fixpoint assign (k v : jsstring) (l : list (jsstring * jsstring))
  : list (jsstring * jsstring) :=
  match l with
  | [] => [(k, v)]
  | (k', v') :: l' => if eqb k' k then (k, v) :: l' else (k', v') :: assign k v l'
  end.

(** [el.style.prop = v]. *)
Definition set_style (prop v : string) (n : Node) : Node :=
  match n with
  | Elem e cs =>
      Elem (mkElementData (localName e) (namespace e) (attributes e)
              (assign (lit prop) (lit v) (style e)) (offsetParent e)) cs
  | Text d => Text d
  end.

(** [document.createElement(t)] followed by the assignments of the
    attributes [attrs]: an HTML element, laid out once attached. *)
Definition createElement (t : string) (attrs : list (string * jsstring))
  : ElementData :=
  mkElementData (lit t) HTML (map (fun kv => (lit (fst kv), snd kv)) attrs)
    [] true.

Fixpoint remove_nth {A : Type} (i : nat) (l : list A) : list A :=
  match l, i with
  | [], _ => []
  | _ :: l', O => l'
  | x :: l', S i' => x :: remove_nth i' l'
  end.

(** Takes the node at path [p] out of the forest. *)
Fixpoint remove_forest (p : Path) (f : list Node) : list Node :=
  match p with
  | [] => f
  | i :: p' =>
      match p' with
      | [] => remove_nth i f
      | _ :: _ =>
          update_nth i
            (fun n =>
               match n with
               | Elem e cs => Elem e (remove_forest p' cs)
               | Text _ => n
               end) f
      end
  end.

(** [el.remove()] for the element at [r]. *)
Definition remove (r : Ref) (d : Document) : Document :=
  match r with
  | InHead p => mkDocument (remove_forest p (head d)) (body d)
  | InBody p => mkDocument (head d) (remove_forest p (body d))
  end.

Definition has_id (i : string) (n : Node) : bool :=
  match getAttribute (lit "id") n with
  | Some x => eqb x (lit i)
  | None => false
  end.

(** [document.getElementById(i)]: the first element in tree order with
    that id. *)
Definition getElementById (i : string) (d : Document)
  : option (Ref * Node) :=
  hd_error (filter (fun rn => has_id i (snd rn)) (elements d)).

(** The subtree of [n] without the nodes that satisfy [m], and the forest
    likewise. *)
Fixpoint without (m : Node -> bool) (n : Node) : Node :=
  match n with
  | Text d => Text d
  | Elem e cs =>
      Elem e (concat (map (fun c => if m c then [] else [without m c]) cs))
  end.

Definition forest_without (m : Node -> bool) (f : list Node) : list Node :=
  concat (map (fun c => if m c then [] else [without m c]) f).

(** *** Markup assigned to innerHTML *)

(** The HTML parser of the browser, as far as the scripts use it: the
    children an element has once [source] was assigned to its
    [innerHTML]. *)
Class Browser := {
  parseHTML : jsstring -> list Node
}.

Definition is_ascii_alpha (c : N) : bool :=
  ((65 <=? c) && (c <=? 90) || (97 <=? c) && (c <=? 122))%N.

Definition lower (c : N) : N :=
  if ((65 <=? c) && (c <=? 90))%N then (c + 32)%N else c.

(** What the tokenizer makes of a text that a template puts between a
    start tag and an end tag, for the texts where this is settled without
    the rest of the parser:
    - [CharacterData]: every code unit is a character of the text;
    - [Doctype before]: the characters [before], then a [<!doctype] that
      the text does not close; the token runs on to the next [>] of the
      template and is dropped;
    - [OpenComment before]: the characters [before], then a [<!--] that
      the text does not close; the comment runs on to the end of the
      template;
    - [OtherMarkup]: anything else (a tag, a character reference, a NUL,
      a carriage return), which is left to the parser of the browser. *)
Inductive Markup :=
| CharacterData
| Doctype (before : jsstring)
| OpenComment (before : jsstring)
| OtherMarkup.

Definition character (c : N) (m : Markup) : Markup :=
  match m with
  | CharacterData => CharacterData
  | Doctype before => Doctype (c :: before)
  | OpenComment before => OpenComment (c :: before)
  | OtherMarkup => OtherMarkup
  end.

(** The text [u] that follows [<!]. Every state of a comment and of a
    doctype leaves it only at a [>] or at the end of the input. *)
Definition declaration (u : jsstring) : Markup :=
  if existsb (N.eqb 62) u then OtherMarkup
  else
    match u with
    | 45%N :: 45%N :: _ => OpenComment []
    | _ =>
        if eqb (map lower (firstn 7 u)) (lit "doctype") then Doctype []
        else OtherMarkup
    end.

(** The data state of the tokenizer: [&] starts a character reference;
    [<] starts markup when a letter, [!], [/] or [?] follows, and is a
    character of the text otherwise, also when the text ends with it,
    since the [<] of the end tag follows. *)
Fixpoint scan (s : jsstring) : Markup :=
  match s with
  | [] => CharacterData
  | c :: rest =>
      if ((c =? 38) || (c =? 0) || (c =? 13))%N then OtherMarkup
      else if (c =? 60)%N then
        match rest with
        | [] => CharacterData
        | d :: u =>
            if (d =? 33)%N then declaration u
            else if is_ascii_alpha d || (d =? 47)%N || (d =? 63)%N
                 then OtherMarkup
                 else character c (scan rest)
        end
      else character c (scan rest)
  end.

(** The text nodes for the characters [s]: none when there are none. *)
Definition text_nodes (s : jsstring) : list Node :=
  if nonempty s then [Text s] else [].

(** A string between double quotes, as in the markup of the templates. *)
Definition quoted (s : string) : jsstring := [34%N] ++ lit s ++ [34%N].

(** *** The title of the document *)

Definition child_text (n : Node) : jsstring :=
  concat (map (fun c => match c with Text d => d | Elem _ _ => [] end)
            (children n)).

Definition strip_and_collapse (s : jsstring) : jsstring :=
  join [SPACE] (tokens s).

Definition is_html_title (n : Node) : bool :=
  match n with
  | Elem e _ =>
      eqb (localName e) (lit "title")
      && match namespace e with HTML => true | _ => false end
  | Text _ => false
  end.

(** The [title] element of the document: the first HTML element of that
    name in tree order; a [title] of inline SVG is not one. *)
Definition title_element (d : Document) : option (Ref * Node) :=
  hd_error (filter (fun rn => is_html_title (snd rn)) (elements d)).

(** [document.title]: the text of the [title] element, with its ASCII
    whitespace stripped and collapsed. *)
Definition title (d : Document) : jsstring :=
  match title_element d with
  | Some (_, n) => strip_and_collapse (child_text n)
  | None => []
  end.

(** [document.title = v]: the [title] element gets [v] as its text;
    without one an HTML [title] element is added to [head]. *)
Definition set_title (v : jsstring) (d : Document) : Document :=
  match title_element d with
  | Some (r, _) => modify (set_textContent v) r d
  | None =>
      mkDocument
        (head d ++ [set_textContent v (Elem (createElement "title" []) [])])
        (body d)
  end.

End Dom.

Import Dom.

(* ================================================================= *)
(** ** Messages between the two scripts, and exceptions *)

Module Message.

(** The message content.js sends with [chrome.runtime.sendMessage]. *)
Record TransformRequest := mkRequest {
  action : jsstring;
  articleTitle : jsstring;
  articleBody : jsstring
}.

(** The object passed to [sendResponse]; a field that is [None] is
    [undefined] on the object. *)
Record TransformResponse := mkResponse {
  success : bool;
  movieTitle : option jsstring;
  songLyrics : option jsstring;
  error : option jsstring
}.

(** A thrown [Error] object. *)
Record Exn := mkExn {
  name : string;
  message : jsstring
}.

(** The [TypeError] of V8 for a property read on [undefined] or [null]. *)
Definition cannot_read (value property : string) : Exn :=
  mkExn "TypeError"
    (lit "Cannot read properties of " ++ lit value ++ lit " (reading '"
     ++ lit property ++ lit "')").

End Message.

Import Message.

(* ================================================================= *)
(** ** content.js *)

Module Content.

(** *** getArticleTitle *)

Definition titleSelectors : list Compound :=
  [ ByClass "h1" "artTitle";
    ByAttrValue "h1" "itemprop" "headline";
    ByClass "h1" "story-title";
    ByClass "h1" "headline";
    ByTag "h1";
    ByAttrValue "meta" "property" "og:title";
    ByTag "title" ].

(** The [for] loop of [getArticleTitle]: [Some t] when the loop returns
    [t], [None] when it runs to its end. *)
Fixpoint title_loop (selectors : list Compound) (d : Document)
  : option jsstring :=
  match selectors with
  | [] => None
  | selector :: rest =>
      match querySelector [selector] d with
      | Some (_, element) =>
          if nonempty (textContent element) then
            if String.prefix "h1" (css selector)
            then Some (trim (textContent element))
            else title_loop rest d
          else title_loop rest d
      | None => title_loop rest d
      end
  end.

(** [getArticleTitle()]; [None] is [null]. *)
Definition getArticleTitle (d : Document) : option jsstring :=
  match title_loop titleSelectors d with
  | Some t => Some t
  | None =>
      let ogTitleMeta :=
        querySelector [ByAttrValue "meta" "property" "og:title"] d in
      let content :=
        match ogTitleMeta with
        | Some (_, m) => reflected (lit "content") m
        | None => []
        end in
      if nonempty content then Some (trim content)
      else if nonempty (title d) then Some (trim (title d))
      else None
  end.

(** *** getArticleBody *)

Definition articleBodySelectors : list Compound :=
  [ ByClass "div" "_3g2R-";
    ByAttrValue "div" "itemprop" "articleBody";
    ByTag "article";
    ByClass "div" "story-content";
    ByClass "div" "article-body";
    ByClass "div" "section-article-text";
    ByClass "div" "content-wrapper";
    ByClass "div" "article-detail";
    ByClass "div" "entry-content";
    ByClass "div" "td-post-content";
    ByClass "div" "primary-content";
    ByClass "div" "fl-post-content";
    ByClass "div" "inner-content";
    ByClass "div" "story-element-text";
    ByClass "div" "detail-content";
    ByClass "div" "_3MkB4";
    ByAttr "div" "data-story-id";
    ByClass "div" "article-content";
    ByClass "div" "full_story";
    ById "div" "content-area";
    ByClass "div" "story_content";
    ByClass "div" "Normal" ].

(** ['p, div.Normal'] *)
Definition paragraphSelector : Selector :=
  [ByTag "p"; ByClass "div" "Normal"].

(** The first selector of the list that matches some element, with the
    first element it matches. *)
Fixpoint first_match (selectors : list Compound) (d : Document)
  : option (Compound * (Ref * Node)) :=
  match selectors with
  | [] => None
  | selector :: rest =>
      match querySelector [selector] d with
      | Some element => Some (selector, element)
      | None => first_match rest d
      end
  end.

Definition mainArticleElement (d : Document) : option Node :=
  match first_match articleBodySelectors d with
  | Some (_, (_, element)) => Some element
  | None => None
  end.

Definition trimmed_text (n : Node) : jsstring := trim (textContent n).

(** The paragraphs kept when no container is found. *)
Definition page_paragraph_ok (text : jsstring) : bool :=
  (100 <? length text) && (10 <? length (split SPACE text)).

(** The paragraphs kept inside a container. *)
Definition paragraph_ok (text : jsstring) : bool :=
  50 <? length text.

Definition articleText (d : Document) : list jsstring :=
  match mainArticleElement d with
  | None =>
      filter page_paragraph_ok
        (map (fun p => trimmed_text (snd p))
           (querySelectorAll paragraphSelector d))
  | Some main =>
      let paragraphs := querySelectorAll_in paragraphSelector main in
      if 0 <? length paragraphs then
        filter paragraph_ok (map (fun p => trimmed_text (snd p)) paragraphs)
      else
        let directText := trimmed_text main in
        if 100 <? length directText then [directText] else []
  end.

(** [getArticleBody()]; [None] is [null]. *)
Definition getArticleBody (d : Document) : option jsstring :=
  let texts := articleText d in
  if 0 <? length texts then Some (join [LF; LF] texts) else None.

(** *** updateArticleTitle *)

(** ['h1.artTitle, h1[itemprop=headline], h1.story-title, h1.headline, h1'] *)
Definition headingSelector : Selector :=
  [ ByClass "h1" "artTitle";
    ByAttrValue "h1" "itemprop" "headline";
    ByClass "h1" "story-title";
    ByClass "h1" "headline";
    ByTag "h1" ].

(** [a || b] on references that may be [null]. *)
Definition or_ref {A : Type} (a b : option A) : option A :=
  match a with
  | Some _ => a
  | None => b
  end.

Definition clapper : jsstring := [0xD83C; 0xDFAC]%N.
Definition notes : jsstring := [0xD83C; 0xDFB6]%N.

Definition movie_heading (newTitle : option jsstring) : jsstring :=
  clapper ++ [SPACE] ++ interpolate newTitle ++ [SPACE] ++ notes.

Definition restyle_heading (n : Node) : Node :=
  set_style "marginTop" "20px"
    (set_style "marginBottom" "20px"
       (set_style "fontWeight" "bold"
          (set_style "textAlign" "center"
             (set_style "fontSize" "2.5rem"
                (set_style "color" "#8B0000" n))))).

(** [updateArticleTitle(newTitle)]; the argument is [None] when the caller
    passes [undefined]. *)
Definition updateArticleTitle (newTitle : option jsstring) (d : Document)
  : Document :=
  let h1Elements := querySelectorAll headingSelector d in
  let mainTitleElement :=
    if 0 <? length h1Elements then
      or_ref (querySelector [ByClass "h1" "artTitle"] d)
        (or_ref (querySelector [ByAttrValue "h1" "itemprop" "headline"] d)
           (or_ref (querySelector [ByClass "h1" "story-title"] d)
              (or_ref (querySelector [ByClass "h1" "headline"] d)
                 (hd_error h1Elements))))
    else None in
  match mainTitleElement with
  | Some (r, _) =>
      modify
        (fun n => restyle_heading (set_textContent (movie_heading newTitle) n))
        r d
  | None => set_title (interpolate newTitle) d
  end.

(** *** updateArticleBody *)

Definition articleBodyContainerSelectors : list Compound :=
  [ ByAttrValue "div" "data-articlebody" "1";
    ByClass "div" "vSlIC";
    ByClass "div" "_3g2R-";
    ByTag "article";
    ByClass "div" "story-content";
    ByClass "div" "article-body";
    ByClass "div" "Normal";
    ByClass "div" "section-article-text";
    ByClass "div" "content-wrapper";
    ByClass "div" "article-detail";
    ByClass "div" "entry-content";
    ByClass "div" "td-post-content";
    ByClass "div" "primary-content";
    ByClass "div" "fl-post-content";
    ByClass "div" "inner-content";
    ByClass "div" "story-element-text";
    ByClass "div" "detail-content";
    ByClass "div" "_3MkB4";
    ByAttr "div" "data-story-id";
    ByClass "div" "article-content";
    ByClass "div" "full_story";
    ById "div" "content-area";
    ByClass "div" "story_content" ].

Definition is_some {A : Type} (a : option A) : bool :=
  match a with
  | Some _ => true
  | None => false
  end.

Definition laid_out (n : Node) : bool :=
  match n with
  | Elem e _ => offsetParent e
  | Text _ => false
  end.

(** The two nested conditions on the element a container selector finds. *)
Definition qualifies (selector : Compound) (element : Node) : bool :=
  laid_out element
  && (is_some (querySelector_in [ByTag "p"] element)
      || is_some (querySelector_in [ByClass "div" "Normal"] element)
      || (200 <? length (trimmed_text element))
      || (String.eqb (css selector) "div.vSlIC"
          && (50 <? length (trimmed_text element)))).

(** The container loop of [updateArticleBody]. *)
Fixpoint container_loop (selectors : list Compound) (d : Document)
  : option (Ref * Node) :=
  match selectors with
  | [] => None
  | selector :: rest =>
      match querySelector [selector] d with
      | Some (r, element) =>
          if qualifies selector element then Some (r, element)
          else container_loop rest d
      | None => container_loop rest d
      end
  end.

(** [songLyrics.split(LF).filter(line => line.trim() !== empty)] *)
Definition lyric_lines (songLyrics : jsstring) : list jsstring :=
  filter (fun line => nonempty (trim line)) (split LF songLyrics).

Definition paragraph (line : jsstring) : Node :=
  set_textContent line (Elem (createElement "p" [("class", lit "my-2")]) []).

Definition signature_text : jsstring :=
  [0x2014; SPACE]%N ++ lit "Your Bollywood News Transformer".

Definition signature : Node :=
  set_textContent signature_text
    (Elem (createElement "p"
             [("class", lit "mt-6 italic text-gray-600 text-sm")]) []).

Definition lyricsContainer (songLyrics : jsstring) : Node :=
  set_style "width" "100%"
    (set_style "color" "#4A0033"
       (set_style "lineHeight" "1.8"
          (set_style "fontSize" "1.2rem"
             (set_style "fontFamily" "'Dancing Script', cursive"
                (Elem
                   (createElement "div"
                      [("class",
                        lit "bollywood-lyrics-container text-center py-8 px-4 bg-gradient-to-r from-purple-100 to-pink-100 rounded-lg shadow-lg my-8 mx-auto max-w-2xl")])
                   (map paragraph (lyric_lines songLyrics) ++ [signature])))))).

Definition fontLink : Node :=
  Elem
    (createElement "link"
       [("href",
         lit "https://fonts.googleapis.com/css2?family=Dancing+Script:wght@700&display=swap");
        ("rel", lit "stylesheet")]) [].

Definition indent (n : nat) : Node := Text (LF :: repeat SPACE n).

Definition extravaganza : jsstring :=
  [0xFFFD; SPACE]%N ++ lit "A Bollywood Extravaganza! " ++ notes.

(** The template assigned to [newSection.innerHTML], with the lyrics
    interpolated as they are. *)
Definition newSection_source (songLyrics : jsstring) : jsstring :=
  LF :: repeat SPACE 12
  ++ lit "<h2 class=" ++ quoted "text-2xl font-bold text-purple-700 mb-4"
  ++ lit ">" ++ extravaganza ++ lit "</h2>"
  ++ LF :: repeat SPACE 12
  ++ lit "<div class=" ++ quoted "text-lg text-gray-800 whitespace-pre-wrap"
  ++ lit ">" ++ songLyrics ++ lit "</div>"
  ++ LF :: repeat SPACE 12
  ++ lit "<p class=" ++ quoted "mt-6 italic text-gray-600 text-sm"
  ++ lit ">" ++ signature_text ++ lit "</p>"
  ++ LF :: repeat SPACE 8.

Section WithBrowser.

Context {browser : Browser}.

(** The block appended when no container qualifies. Its children come
    from the template assigned to [innerHTML]: lyrics that are character
    data make the text of the inner [div]; lyrics with markup give what
    the parser of the browser makes of the template. *)
Definition newSection (songLyrics : option jsstring) : Node :=
  Elem
    (createElement "div"
       [("class",
         lit "bollywood-content-appended text-center py-8 px-4 mt-8 bg-gradient-to-r from-blue-100 to-indigo-100 rounded-lg shadow-lg my-8 mx-auto max-w-2xl")])
    (match scan (interpolate songLyrics) with
     | CharacterData =>
         [ indent 12;
           Elem (createElement "h2"
                   [("class", lit "text-2xl font-bold text-purple-700 mb-4")])
             [Text extravaganza];
           indent 12;
           Elem (createElement "div"
                   [("class", lit "text-lg text-gray-800 whitespace-pre-wrap")])
             (text_nodes (interpolate songLyrics));
           indent 12;
           Elem (createElement "p"
                   [("class", lit "mt-6 italic text-gray-600 text-sm")])
             [Text signature_text];
           indent 8 ]
     | _ => parseHTML (newSection_source (interpolate songLyrics))
     end).

Definition appendChild (c : Node) (n : Node) : Node :=
  match n with
  | Elem e cs => Elem e (cs ++ [c])
  | Text d => Text d
  end.

(** [updateArticleBody(songLyrics)]: the document it leaves and the
    exception it throws, if any. With [songLyrics] undefined the call of
    [split] throws once the container has been emptied. *)
Definition updateArticleBody (songLyrics : option jsstring) (d : Document)
  : Document * option Exn :=
  match container_loop articleBodyContainerSelectors d with
  | Some (r, _) =>
      let cleared := modify (set_children []) r d in
      match songLyrics with
      | Some text =>
          let filled := modify (appendChild (lyricsContainer text)) r cleared in
          (mkDocument (head filled ++ [fontLink]) (body filled), None)
      | None => (cleared, Some (cannot_read "undefined" "split"))
      end
  | None => (mkDocument (head d) (body d ++ [newSection songLyrics]), None)
  end.

(** *** showMessageBox *)

Definition times : jsstring := [0xD7]%N.

(** The template assigned to [messageBox.innerHTML], with the message
    interpolated as it is. *)
Definition messageBox_source (message : jsstring) : jsstring :=
  LF :: repeat SPACE 8
  ++ lit "<div class=" ++ quoted "flex items-center justify-between"
  ++ lit ">"
  ++ LF :: repeat SPACE 12
  ++ lit "<span>" ++ message ++ lit "</span>"
  ++ LF :: repeat SPACE 12
  ++ lit "<button id=" ++ quoted "closeMessageBox" ++ lit " class="
  ++ quoted "ml-4 text-white hover:text-gray-200 font-bold text-xl leading-none"
  ++ lit ">&times;</button>"
  ++ LF :: repeat SPACE 8
  ++ lit "</div>"
  ++ LF :: repeat SPACE 4.

Definition closeMessageBox : Node :=
  Elem
    (createElement "button"
       [("id", lit "closeMessageBox");
        ("class",
         lit "ml-4 text-white hover:text-gray-200 font-bold text-xl leading-none")])
    [Text times].

Definition row (cs : list Node) : Node :=
  Elem (createElement "div" [("class", lit "flex items-center justify-between")])
    cs.

Definition span (cs : list Node) : Node := Elem (createElement "span" []) cs.

(** The children of the box once the template is assigned to its
    [innerHTML]. A message that is character data is the text of the
    [span]. After an open [<!doctype] the token swallows the end tag of
    the [span], so that the rest of the row, the button included, is
    parsed into the [span]; an open comment swallows the rest of the
    template, the button included. *)
Definition messageBox_children (message : jsstring) : list Node :=
  match scan message with
  | CharacterData =>
      [ indent 8;
        row [indent 12; span (text_nodes message); indent 12;
             closeMessageBox; indent 8];
        indent 4 ]
  | Doctype before =>
      [ indent 8;
        row [indent 12;
             span [Text (before ++ LF :: repeat SPACE 12); closeMessageBox;
                   indent 8]];
        indent 4 ]
  | OpenComment before =>
      [ indent 8; row [indent 12; span (text_nodes before)] ]
  | OtherMarkup => parseHTML (messageBox_source message)
  end.

(** The element [showMessageBox] builds before it attaches it. *)
Definition messageBox_element (message type : jsstring) : Node :=
  Elem
    (createElement "div"
       [("id", lit "extensionMessageBox");
        ("class",
         lit "fixed bottom-4 right-4 p-4 rounded-lg shadow-lg text-white z-[9999] transition-opacity duration-500"
         ++ (if eqb type (lit "success") then lit " bg-green-500"
             else lit " bg-red-500"))])
    (messageBox_children message).

(** *** The page and transformArticle *)

(** The calls that read or change something outside the function making
    them. *)
Inductive Call :=
| call_getArticleTitle
| call_getArticleBody
| call_showMessageBox (message type : jsstring)
| call_sendMessage (request : TransformRequest)
| call_updateArticleTitle (newTitle : option jsstring)
| call_updateArticleBody (songLyrics : option jsstring).

(** The state of one page load. [document] is the whole document, the
    notification box of [showMessageBox] included; [messageBox] holds the
    arguments of the latest call of [showMessageBox]. [awaiting] counts
    the runs of [transformArticle] suspended at their [await]; [calls]
    lists the calls made so far, the latest first. The timers and the
    button that take a box away again are not followed: a box stays until
    the next call of [showMessageBox] removes it. *)
Record Page := mkPage {
  document : Document;
  messageBox : option (jsstring * jsstring);
  isTransformed : bool;
  awaiting : nat;
  calls : list Call
}.

(** A page as the script finds it when it is loaded. *)
Definition loaded (d : Document) : Page := mkPage d None false 0 [].

Definition record (c : Call) (p : Page) : Page :=
  mkPage (document p) (messageBox p) (isTransformed p) (awaiting p)
    (c :: calls p).

Definition with_document (d : Document) (p : Page) : Page :=
  mkPage d (messageBox p) (isTransformed p) (awaiting p) (calls p).

(** [showMessageBox(message, type)]: the page it leaves and the exception
    it throws, if any. The first element with the id of the box is
    removed, the new box becomes the last child of [body], and the
    listener is added to the first element with the id of the button: a
    [TypeError] when there is none. *)
Definition showMessageBox (message type : jsstring) (p : Page)
  : Page * option Exn :=
  let d :=
    match getElementById "extensionMessageBox" (document p) with
    | Some (existingBox, _) => remove existingBox (document p)
    | None => document p
    end in
  let d := mkDocument (head d) (body d ++ [messageBox_element message type]) in
  let p :=
    mkPage d (Some (message, type)) (isTransformed p) (awaiting p)
      (call_showMessageBox message type :: calls p) in
  match getElementById "closeMessageBox" d with
  | Some _ => (p, None)
  | None => (p, Some (cannot_read "null" "addEventListener"))
  end.

(** The document apart from the notification boxes: without the elements
    that have the id of the box. *)
Definition apart_from_box (d : Document) : Document :=
  mkDocument (forest_without (has_id "extensionMessageBox") (head d))
    (forest_without (has_id "extensionMessageBox") (body d)).

(** The notification on display: the box that is the last child of
    [body]. *)
Definition notification (d : Document) : option Node :=
  match rev (body d) with
  | box :: _ => if has_id "extensionMessageBox" box then Some box else None
  | [] => None
  end.

(** The text on display: the text of the first [span] of the
    notification. *)
Definition displayed (d : Document) : option jsstring :=
  match notification d with
  | Some box =>
      match querySelector_in [ByTag "span"] box with
      | Some (_, s) => Some (textContent s)
      | None => None
      end
  | None => None
  end.

(** [transformArticle()] from its call to its [await] or to its return:
    the page it leaves, and the request it has sent if it is now
    suspended. An exception of [showMessageBox] would end the call before
    the request is sent. *)
Definition transformArticle_begin (p : Page)
  : Page * option TransformRequest :=
  if isTransformed p then (p, None)
  else
    let title := getArticleTitle (document p) in
    let body := getArticleBody (document p) in
    let p := record call_getArticleBody (record call_getArticleTitle p) in
    match title, body with
    | Some (c :: t), Some (c' :: b) =>
        match
          showMessageBox
            (lit "Transforming article... Please wait for the magic!")
            (lit "success") p
        with
        | (p, None) =>
            let request :=
              mkRequest (lit "transformArticle") (c :: t) (c' :: b) in
            (mkPage (document p) (messageBox p) (isTransformed p)
               (S (awaiting p)) (call_sendMessage request :: calls p),
             Some request)
        | (p, Some _) => (p, None)
        end
    | _, _ =>
        (fst
           (showMessageBox
              (lit "Could not find enough article content to transform. Try a different article or newspaper.")
              (lit "error") p),
         None)
    end.

(** [transformArticle()] from the moment its [await] yields [response]
    ([None] when the callback gets [undefined]) to its end: the page it
    leaves, and the exception that rejects its promise, if any. *)
Definition transformArticle_resume (response : option TransformResponse)
  (p : Page) : Page * option Exn :=
  match response with
  | Some r =>
      if success r then
        let p :=
          with_document (updateArticleTitle (movieTitle r) (document p))
            (record (call_updateArticleTitle (movieTitle r)) p) in
        let p := record (call_updateArticleBody (songLyrics r)) p in
        match updateArticleBody (songLyrics r) (document p) with
        | (d, Some exn) => (with_document d p, Some exn)
        | (d, None) =>
            match
              showMessageBox
                (lit "Article transformed into a Bollywood masterpiece!")
                (lit "success") (with_document d p)
            with
            | (p, None) =>
                (mkPage (document p) (messageBox p) true (awaiting p)
                   (calls p),
                 None)
            | (p, Some exn) => (p, Some exn)
            end
        end
      else
        showMessageBox
          (lit "Transformation failed: "
           ++ or_else (error r) (lit "Unknown error"))
          (lit "error") p
  | None => (p, Some (cannot_read "undefined" "error"))
  end.

(** What happens on the page, one run-to-completion step at a time:
    [transformArticle] is called, or the response to a request in flight
    arrives. *)
Inductive Event :=
| Invoke
| Reply (response : option TransformResponse).

Definition resumed (p : Page) : Page :=
  mkPage (document p) (messageBox p) (isTransformed p) (pred (awaiting p))
    (calls p).

Definition step (p : Page) (e : Event) : Page :=
  match e with
  | Invoke => fst (transformArticle_begin p)
  | Reply response =>
      match awaiting p with
      | O => p
      | S _ => fst (transformArticle_resume response (resumed p))
      end
  end.

Definition run (p : Page) (events : list Event) : Page :=
  fold_left step events p.

(** Calls of [transformArticle] one after the other, each one receiving
    its response before the next call. *)
Definition one_after_the_other (responses : list (option TransformResponse))
  : list Event :=
  flat_map (fun r => [Invoke; Reply r]) responses.

(** *** Counting calls *)

Definition is_extraction (c : Call) : bool :=
  match c with
  | call_getArticleTitle | call_getArticleBody => true
  | _ => false
  end.

Definition is_send (c : Call) : bool :=
  match c with
  | call_sendMessage _ => true
  | _ => false
  end.

Definition is_title_rewrite (c : Call) : bool :=
  match c with
  | call_updateArticleTitle _ => true
  | _ => false
  end.

Definition is_body_rewrite (c : Call) : bool :=
  match c with
  | call_updateArticleBody _ => true
  | _ => false
  end.

Definition count (f : Call -> bool) (p : Page) : nat :=
  length (filter f (calls p)).

(** A response as background.js builds it: a successful one carries the
    lyrics. *)
Definition carries_lyrics (response : option TransformResponse) : Prop :=
  match response with
  | Some r => success r = true -> songLyrics r <> None
  | None => True
  end.

(** The state of a page loaded with document [d] between two runs that
    do not overlap: nothing is awaited, and either the flag is down, no
    rewrite was made and the document is still [d] apart from the
    notification box, or the flag is up and the title and the body were
    rewritten once each. *)
Definition settled (d : Document) (p : Page) : Prop :=
  awaiting p = 0
  /\ (isTransformed p = false
      /\ count is_title_rewrite p = 0 /\ count is_body_rewrite p = 0
      /\ apart_from_box (document p) = apart_from_box d
      \/ isTransformed p = true
         /\ count is_title_rewrite p = 1 /\ count is_body_rewrite p = 1).

End WithBrowser.

End Content.

(* ================================================================= *)
(** ** background.js *)

Module Background.

(** *** Parsed response bodies *)

(** A value built by [response.json()]. Numbers are kept as integers, and
    an object lists each of its properties once. *)
Inductive Json :=
| JNull
| JBool (b : bool)
| JNumber (z : Z)
| JString (s : jsstring)
| JArray (items : list Json)
| JObject (fields : list (jsstring * Json)).

(** A value read from a parsed body: [None] is [undefined]. *)
Definition Value := option Json.

Fixpoint field (k : jsstring) (fields : list (jsstring * Json)) : Value :=
  match fields with
  | [] => None
  | (k', v) :: rest => if eqb k' k then Some v else field k rest
  end.

(** [v.k] for the property names the script reads ([error], [candidates],
    [content], [parts], [text]); [length] and index 0 come below. *)
Definition get (k : string) (v : Value) : Exn + Value :=
  match v with
  | None => inl (cannot_read "undefined" k)
  | Some JNull => inl (cannot_read "null" k)
  | Some (JObject fields) => inr (field (lit k) fields)
  | Some _ => inr None
  end.

(** [v.length] *)
Definition get_length (v : Value) : Exn + Value :=
  match v with
  | None => inl (cannot_read "undefined" "length")
  | Some JNull => inl (cannot_read "null" "length")
  | Some (JArray items) => inr (Some (JNumber (Z.of_nat (length items))))
  | Some (JString s) => inr (Some (JNumber (Z.of_nat (length s))))
  | Some (JObject fields) => inr (field (lit "length") fields)
  | Some _ => inr None
  end.

(** [v[0]] *)
Definition get_first (v : Value) : Exn + Value :=
  match v with
  | None => inl (cannot_read "undefined" "0")
  | Some JNull => inl (cannot_read "null" "0")
  | Some (JArray items) => inr (hd_error items)
  | Some (JString s) =>
      inr (match s with c :: _ => Some (JString [c]) | [] => None end)
  | Some (JObject fields) => inr (field (lit "0") fields)
  | Some _ => inr None
  end.

(** Truthiness. *)
Definition truthy (v : Value) : bool :=
  match v with
  | None | Some JNull => false
  | Some (JBool b) => b
  | Some (JNumber z) => negb (z =? 0)%Z
  | Some (JString s) => nonempty s
  | Some (JArray _) | Some (JObject _) => true
  end.

(** [v.trim()] on the value read from [text]: only a string has the
    method. *)
Definition call_trim (path : string) (v : Value) : Exn + jsstring :=
  match v with
  | None => inl (cannot_read "undefined" "trim")
  | Some JNull => inl (cannot_read "null" "trim")
  | Some (JString s) => inr (trim s)
  | Some _ => inl (mkExn "TypeError" (lit path ++ lit ".trim is not a function"))
  end.

(** A body that is an object without candidates: the property is
    missing, or it is an empty array. *)
Definition no_candidates (result : Json) : Prop :=
  exists fields,
    result = JObject fields
    /\ (field (lit "candidates") fields = None
        \/ field (lit "candidates") fields = Some (JArray [])).

(** *** The network *)

(** What one [fetch] followed by [response.json()] comes to: [fetch]
    rejects, or it resolves and [json()] rejects, or the body is parsed. *)
Inductive Fetched :=
| NetworkFailure (e : Exn)
| ParseFailure (e : Exn)
| Parsed (result : Json).

(** The outcome of each [fetch] of one run, by its position (0 or 1). *)
Definition Network := nat -> Fetched.

Record GenerationConfig := mkConfig {
  temperature : Z * Z;  (* numerator, denominator *)
  maxOutputTokens : nat
}.

(** The body posted to the API: the prompt of the one user part, and the
    generation parameters. *)
Record Payload := mkPayload {
  prompt : jsstring;
  generationConfig : GenerationConfig
}.

Definition QUOTE : N := 34.

Definition article_part (articleTitle articleBody : jsstring) (budget : nat)
  : jsstring :=
  [LF; LF] ++ repeat SPACE 8 ++ lit "Article Title: "
  ++ [QUOTE] ++ articleTitle ++ [QUOTE]
  ++ [LF] ++ repeat SPACE 8 ++ lit "Article Content: "
  ++ [QUOTE] ++ substring0 budget articleBody ++ lit "..." ++ [QUOTE].

Definition moviePayload (articleTitle articleBody : jsstring) : Payload :=
  mkPayload
    (lit "Given the following news article title and content, suggest a catchy and dramatic Bollywood movie title (Hindi or English, but Bollywood-themed) that captures its essence. Provide only the title, nothing else."
     ++ article_part articleTitle articleBody 500)
    (mkConfig (7, 10)%Z 50).

Definition songPayload (articleTitle articleBody : jsstring) : Payload :=
  mkPayload
    (lit "Based on the following news article, write a short, fictional Bollywood song (2-3 stanzas with a chorus) that captures its main theme, emotions, or narrative. Use Bollywood song conventions (e.g., mix of Hindi/English, dramatic themes, relatable emotions). Focus on the core message."
     ++ article_part articleTitle articleBody 1000)
    (mkConfig (9, 10)%Z 500).

(** *** transformArticleWithGemini *)

(** A computation of the [try] block: the payloads posted so far come in
    and go out, next to an exception or a value. *)
Definition Try (A : Type) : Type := list Payload -> list Payload * (Exn + A).

Definition ret {A : Type} (a : A) : Try A := fun posted => (posted, inr a).

Definition throw {A : Type} (e : Exn) : Try A := fun posted => (posted, inl e).

Definition bind {A B : Type} (m : Try A) (k : A -> Try B) : Try B :=
  fun posted =>
    match m posted with
    | (posted', inr a) => k a posted'
    | (posted', inl e) => (posted', inl e)
    end.

Definition lift {A : Type} (r : Exn + A) : Try A :=
  match r with
  | inr a => ret a
  | inl e => throw e
  end.

Notation "x <- m ;; k" := (bind m (fun x => k))
  (at level 61, m at next level, right associativity).

(** [await fetch(apiUrl, ...)] then [await response.json()]. *)
Definition fetch_json (net : Network) (payload : Payload) : Try Json :=
  fun posted =>
    let posted' := posted ++ [payload] in
    match net (length posted) with
    | NetworkFailure e => (posted', inl e)
    | ParseFailure e => (posted', inl e)
    | Parsed result => (posted', inr result)
    end.

Section Reading.

(** [v > 0] for a string, an array or an object, which the engine first
    converts to a number; it is reached only for an object carrying a
    [length] of its own. *)
Variable converted_is_positive : Json -> bool.

(** [v > 0] *)
Definition greater_than_zero (v : Value) : bool :=
  match v with
  | None | Some JNull => false
  | Some (JBool b) => b
  | Some (JNumber z) => (0 <? z)%Z
  | Some j => converted_is_positive j
  end.

(** From the read of [result.error] to the end of the [if]: the text
    taken from the first part of the first candidate, or [default] when
    the chain of conditions fails. [path] is how the script spells the
    text it trims. *)
Definition generated (path : string) (default : jsstring) (result : Json)
  : Exn + jsstring :=
  match get "error" (Some result) with
  | inl e => inl e
  | inr _ =>
  match get "candidates" (Some result) with
  | inl e => inl e
  | inr candidates =>
  if negb (truthy candidates) then inr default else
  match get_length candidates with
  | inl e => inl e
  | inr n =>
  if negb (greater_than_zero n) then inr default else
  match get_first candidates with
  | inl e => inl e
  | inr first =>
  match get "content" first with
  | inl e => inl e
  | inr content =>
  if negb (truthy content) then inr default else
  match get "parts" content with
  | inl e => inl e
  | inr parts =>
  if negb (truthy parts) then inr default else
  match get_length parts with
  | inl e => inl e
  | inr m =>
  if negb (greater_than_zero m) then inr default else
  match get_first parts with
  | inl e => inl e
  | inr part =>
  match get "text" part with
  | inl e => inl e
  | inr text => call_trim path text
  end end end end end end end end end.

(** One generation call from its [fetch] to its generated text: the
    exception it raises, or the text. *)
Definition generation (path : string) (default : jsstring) (f : Fetched)
  : Exn + jsstring :=
  match f with
  | NetworkFailure e => inl e
  | ParseFailure e => inl e
  | Parsed result => generated path default result
  end.

Definition movie_path : string :=
  "movieResult.candidates[0].content.parts[0].text".

Definition song_path : string :=
  "songResult.candidates[0].content.parts[0].text".

Definition default_title : jsstring := lit "A Filmy Twist".

Definition default_lyrics : jsstring := lit "A melodious tale awaits...".

(** The [try] block. *)
Definition try_block (net : Network) (articleTitle articleBody : jsstring)
  : Try TransformResponse :=
  movieResult <- fetch_json net (moviePayload articleTitle articleBody) ;;
  generatedMovieTitle <-
    lift (generated movie_path default_title movieResult) ;;
  songResult <- fetch_json net (songPayload articleTitle articleBody) ;;
  generatedSongLyrics <-
    lift (generated song_path default_lyrics songResult) ;;
  ret (mkResponse true (Some generatedMovieTitle) (Some generatedSongLyrics)
         None).

Definition failed (e : Exn) (fallback : jsstring) : TransformResponse :=
  mkResponse false None None (Some (or_else (Some (message e)) fallback)).

(** How the promise of an [async] function settles. *)
Inductive Settled :=
| Fulfilled (response : TransformResponse)
| Rejected (e : Exn).

(** [transformArticleWithGemini(articleTitle, articleBody)]: the payloads
    it posts, and how its promise settles. *)
Definition transformArticleWithGemini (net : Network)
  (articleTitle articleBody : jsstring) : list Payload * Settled :=
  match try_block net articleTitle articleBody [] with
  | (posted, inr response) => (posted, Fulfilled response)
  | (posted, inl e) =>
      (posted,
       Fulfilled (failed e (lit "Network or API response parsing error.")))
  end.

(** What a call of the [onMessage] listener comes to: the value it
    returns, the payloads posted, and the responses handed to
    [sendResponse]. *)
Record Handled := mkHandled {
  returned_true : bool;
  posted : list Payload;
  responses : list TransformResponse
}.

Definition listener (net : Network) (request : TransformRequest) : Handled :=
  if eqb (action request) (lit "transformArticle") then
    match
      transformArticleWithGemini net (articleTitle request)
        (articleBody request)
    with
    | (posted, Fulfilled response) => mkHandled true posted [response]
    | (posted, Rejected e) =>
        mkHandled true posted
          [failed e (lit "An unexpected error occurred during API call.")]
    end
  else mkHandled false [] [].

End Reading.

End Background.

(* ================================================================= *)
(** ** The title as the specification words it *)

Module Specified.

Import Content.

(** The first non-empty trimmed text found through the heading selectors,
    taken in order. *)
Fixpoint heading_text (selectors : list Compound) (d : Document)
  : option jsstring :=
  match selectors with
  | [] => None
  | selector :: rest =>
      if String.prefix "h1" (css selector) then
        match querySelector [selector] d with
        | Some (_, element) =>
            if nonempty (trimmed_text element)
            then Some (trimmed_text element)
            else heading_text rest d
        | None => heading_text rest d
        end
      else heading_text rest d
  end.

Definition og_title (d : Document) : jsstring :=
  match querySelector [ByAttrValue "meta" "property" "og:title"] d with
  | Some (_, m) => reflected (lit "content") m
  | None => []
  end.

(** The heading text, else the trimmed [og:title], else the trimmed
    [document.title], each taken only when it is not empty. *)
Definition extractTitle (d : Document) : option jsstring :=
  match heading_text titleSelectors d with
  | Some t => Some t
  | None =>
      if nonempty (trim (og_title d)) then Some (trim (og_title d))
      else if nonempty (trim (title d)) then Some (trim (title d))
      else None
  end.

End Specified.

(* ================================================================= *)
(** ** Pages, responses and networks used as concrete inputs *)

Module Examples.

Import Content Background.

(** The browser of the examples. Its parser is never asked: every text
    the examples put in a template is character data, or ends in an open
    doctype or comment. *)
Definition example_browser : Browser := {| parseHTML := fun _ => [] |}.

#[local] Existing Instance example_browser.

(** An element as the parser builds it from markup without inline style,
    laid out on the page. *)
Definition tag (t : string) (attrs : list (string * jsstring))
  (cs : list Node) : Node :=
  Elem (createElement t attrs) cs.

Definition headline : jsstring :=
  lit "Breaking News: Local Dog Wins National Dog Show".

Definition dog_story : jsstring :=
  lit "The local dog, a golden retriever named Buddy, won the national dog show on Sunday after a flawless final round.".

Definition caption : jsstring := lit "Buddy with his trophy (photo).".

(** A news page: a heading, and an [article] holding a paragraph and a
    caption of 30 characters. *)
Definition news_page : Document :=
  mkDocument
    [tag "title" [] [Text (lit "Dog News")]]
    [tag "h1" [] [Text headline];
     tag "article" []
       [tag "p" [] [Text dog_story];
        tag "p" [] [Text caption]]].

Definition news_article : Node :=
  tag "article" []
    [tag "p" [] [Text dog_story];
     tag "p" [] [Text caption]].

(** A page whose most specific heading holds only blanks. *)
Definition blank_heading_page : Document :=
  mkDocument
    [tag "meta" [("property", lit "og:title"); ("content", headline)] [];
     tag "title" [] [Text (lit "Dog News")]]
    [tag "h1" [("class", lit "artTitle")] [Text (lit "   ")];
     tag "h1" [("class", lit "headline")] [Text headline];
     tag "article" [] [tag "p" [] [Text dog_story]]].

(** A page whose container holds its text without paragraph markup. *)
Definition plain_container_page : Document :=
  mkDocument []
    [tag "h1" [] [Text headline];
     tag "div" [("class", lit "story-content")] [Text dog_story]].

(** A page with a heading and nothing else. *)
Definition bare_page : Document :=
  mkDocument [] [tag "h1" [] [Text headline]].

Definition lyrics : jsstring :=
  lit "Buddy, oh Buddy" ++ [LF] ++ [SPACE; SPACE] ++ [LF]
  ++ lit "Dil ka champion" ++ [LF].

Definition ok_response : TransformResponse :=
  mkResponse true (Some (lit "Buddy: The Golden Heart")) (Some lyrics) None.

Definition failure_response : TransformResponse :=
  mkResponse false None None (Some (lit "Failed to fetch")).

Definition silent_failure_response : TransformResponse :=
  mkResponse false None None None.

(** Bodies of the API. *)
Definition candidate (text : jsstring) : Json :=
  JObject
    [(lit "candidates",
      JArray
        [JObject
           [(lit "content",
             JObject
               [(lit "parts", JArray [JObject [(lit "text", JString text)]])])]])].

Definition api_error : Json :=
  JObject
    [(lit "error",
      JObject
        [(lit "code", JNumber 400);
         (lit "message", JString (lit "API key not valid."));
         (lit "status", JString (lit "INVALID_ARGUMENT"))])].

Definition syntax_error : Exn :=
  mkExn "SyntaxError" (lit "Unexpected token < in JSON at position 0").

Definition failed_to_fetch : Exn := mkExn "TypeError" (lit "Failed to fetch").

(** Networks: the first answer, then the second. *)
Definition answers (first second : Fetched) : Network :=
  fun k => match k with O => first | S _ => second end.

Definition no_conversion : Json -> bool := fun _ => false.

(** The news page once a run has rendered a successful response. *)
Definition transformed_news_page : Page :=
  run (loaded news_page) [Invoke; Reply (Some ok_response)].

Definition request : TransformRequest :=
  mkRequest (lit "transformArticle") headline dog_story.

End Examples.

(* ================================================================= *)
(** ** Paths that part, the two scripts together, and more inputs *)

Module Paths.

(** Two paths that part ways: at some depth they take different
    children, so that neither node is the other or one of its ancestors. *)
Fixpoint diverge (p q : Path) : bool :=
  match p, q with
  | i :: p', j :: q' => if i =? j then diverge p' q' else true
  | _, _ => false
  end.

(** What [modify_forest] does to the tree its path enters. *)
Definition modify_node (g : Node -> Node) (q : Path) (n : Node) : Node :=
  match q, n with
  | [], _ => g n
  | _ :: _, Elem e cs => Elem e (modify_forest g q cs)
  | _ :: _, Text _ => n
  end.

End Paths.

Import Paths.

Module Exchange.

Import Content Background.

Section Host.

Context {browser : Browser}.
Variable converted_is_positive : Json -> bool.

(** What the callback of [chrome.runtime.sendMessage] receives: the
    response the listener hands to [sendResponse], or [undefined] when it
    hands none. *)
Definition answer (net : Network) (request : TransformRequest)
  : option TransformResponse :=
  hd_error (responses (listener converted_is_positive net request)).

(** One call of [transformArticle] with the background worker answering
    the request it sends: the page it leaves and the exception that
    rejects its promise, if any. *)
Definition transform (net : Network) (p : Page) : Page * option Exn :=
  match transformArticle_begin p with
  | (p', Some request) =>
      transformArticle_resume (answer net request) (resumed p')
  | (p', None) => (p', None)
  end.

(** Calls of [transformArticle] one after the other, each answered by the
    background worker over its own network. *)
Definition transforms (nets : list Network) (p : Page) : Page :=
  fold_left (fun p net => fst (transform net p)) nets p.

End Host.

End Exchange.

Module Accounts.

Import Content.

(** What the calls recorded on a page loaded with document [d] add up to:
    the document is [d], apart from the notification box, until a title
    is rewritten; a body is rewritten only after a title; every rewrite
    made and every run still suspended has its request; every request has
    its two extraction calls; and the flag is up only after a body was
    rewritten. *)
Definition accounted (d : Document) (p : Page) : Prop :=
  (count is_title_rewrite p = 0 ->
   apart_from_box (document p) = apart_from_box d)
  /\ count is_body_rewrite p <= count is_title_rewrite p
  /\ count is_title_rewrite p + awaiting p <= count is_send p
  /\ 2 * count is_send p <= count is_extraction p
  /\ (isTransformed p = true -> 1 <= count is_body_rewrite p).

End Accounts.

Import Accounts.

Module MoreExamples.

Import Content Background Examples.

#[local] Existing Instance example_browser.

Definition long_link : jsstring :=
  lit "https://example.org/news/2024/local-dog-wins-national-dog-show-after-a-flawless-final-round-on-sunday-evening".

(** A page without any container: its paragraphs lie directly in [body]. *)
Definition loose_page : Document :=
  mkDocument []
    [tag "h1" [] [Text headline];
     tag "p" [] [Text dog_story];
     tag "p" [] [Text long_link];
     tag "p" [] [Text caption]].

(** A page without heading, with a title. *)
Definition untitled_page : Document :=
  mkDocument
    [tag "title" [] [Text (lit "Dog News")]]
    [tag "article" [] [tag "p" [] [Text dog_story]]].

(** A successful response that lacks its lyrics. *)
Definition lyricless_response : TransformResponse :=
  mkResponse true (Some (lit "Buddy: The Golden Heart")) None None.

(** A body with two candidates and more properties than the script
    reads, piece by piece. *)
Definition rich_part : list (jsstring * Json) :=
  [(lit "text", JString (lit " Buddy: The Golden Heart "))].

Definition rich_content : list (jsstring * Json) :=
  [(lit "role", JString (lit "model"));
   (lit "parts",
    JArray
      [JObject rich_part;
       JObject [(lit "text", JString (lit "second part"))]])].

Definition rich_candidate : list (jsstring * Json) :=
  [(lit "finishReason", JString (lit "STOP"));
   (lit "content", JObject rich_content)].

Definition rich_fields : list (jsstring * Json) :=
  [(lit "usageMetadata", JObject [(lit "totalTokenCount", JNumber 42)]);
   (lit "candidates",
    JArray [JObject rich_candidate; JObject [(lit "content", JNull)]])].

(** A candidate cut short, without content. *)
Definition blocked_candidate : list (jsstring * Json) :=
  [(lit "finishReason", JString (lit "SAFETY"))].

Definition blocked_fields : list (jsstring * Json) :=
  [(lit "candidates", JArray [JObject blocked_candidate])].

Definition other_request : TransformRequest :=
  mkRequest (lit "ping") headline dog_story.

(** The message of the [SyntaxError] of V8 when [response.json()] meets
    an HTML error page, and when the page starts with a comment. *)
Definition html_error : jsstring :=
  lit "Unexpected token '<', " ++ quoted "<!DOCTYPE "
  ++ lit "... is not valid JSON".

Definition comment_error : jsstring :=
  lit "Unexpected token '<', " ++ quoted "<!-- saved"
  ++ lit "... is not valid JSON".

Definition html_failure_response : TransformResponse :=
  mkResponse false None None (Some html_error).

Definition comment_failure_response : TransformResponse :=
  mkResponse false None None (Some comment_error).

(** The part of both messages in front of the markup. *)
Definition cut_text : jsstring :=
  lit "Transformation failed: Unexpected token '<', " ++ [34%N].

(** A page whose [title] element lies in an inline SVG drawing. *)
Definition drawing_page : Document :=
  mkDocument []
    [Elem (mkElementData (lit "svg") SVG [] [] true)
       [Elem (mkElementData (lit "title") SVG [] [] true)
          [Text (lit "Chart")]];
     tag "article" [] [tag "p" [] [Text dog_story]]].

End MoreExamples.

(* ================================================================= *)
(** ** Facts about strings and the DOM *)

Section JsStringFacts.

Lemma eqb_eq (a b : jsstring) : eqb a b = true <-> a = b.
Proof.
  unfold eqb. destruct (list_eq_dec N.eq_dec a b); split; congruence.
Qed.

Lemma eqb_refl (a : jsstring) : eqb a a = true.
Proof. now apply eqb_eq. Qed.

Lemma nonempty_true (s : jsstring) : nonempty s = true <-> s <> [].
Proof. destruct s; simpl; split; congruence. Qed.

Lemma or_else_present (s fallback : jsstring) :
  s <> [] -> or_else (Some s) fallback = s.
Proof. destruct s; simpl; congruence. Qed.

Lemma or_else_nonempty (a : option jsstring) (fallback : jsstring) :
  fallback <> [] -> or_else a fallback <> [].
Proof. destruct a as [[|c s]|]; simpl; congruence. Qed.

End JsStringFacts.

Section DomFacts.

(** Induction on a node with the hypothesis available for every child. *)
Lemma Node_induction (P : Node -> Prop) :
  (forall data, P (Text data)) ->
  (forall e cs, Forall P cs -> P (Elem e cs)) ->
  forall n, P n.
Proof.
  intros HText HElem.
  fix IH 1.
  intros [data | e cs].
  - apply HText.
  - apply HElem.
    induction cs as [|c cs IHcs]; constructor.
    + apply IH.
    + apply IHcs.
Qed.

Lemma get_forest_cons (f : list Node) (i : nat) (p : Path) (c : Node) :
  nth_error f i = Some c -> get_forest f (i :: p) = get_node c p.
Proof.
  intros H. simpl. rewrite H.
  destruct p as [|j p]; [reflexivity|].
  destruct c; simpl; [|reflexivity].
  now destruct j.
Qed.

Lemma walk_from_In (f : list Node) :
  forall i p n,
    In (p, n) (walk_from i f) ->
    exists j q c,
      p = (i + j) :: q /\ nth_error f j = Some c /\ In (q, n) (walk c).
Proof.
  induction f as [|c f IH]; intros i p n Hin; [contradiction|].
  unfold walk_from in Hin. simpl in Hin.
  apply in_app_or in Hin. destruct Hin as [Hin | Hin].
  - apply in_map_iff in Hin. destruct Hin as [[q m] [Heq Hin]].
    unfold under in Heq. simpl in Heq. inversion Heq; subst.
    exists 0, q, c. rewrite Nat.add_0_r. auto.
  - apply IH in Hin. destruct Hin as (j & q & c' & -> & Hnth & Hin).
    exists (S j), q, c'. rewrite Nat.add_succ_r. auto.
Qed.

Lemma walk_get (n : Node) :
  forall p m, In (p, m) (walk n) -> get_node n p = Some m.
Proof.
  induction n as [data | e cs IH] using Node_induction; intros p m Hin.
  - contradiction.
  - simpl in Hin. destruct Hin as [Heq | Hin].
    + now inversion Heq.
    + apply (walk_from_In cs 0) in Hin.
      destruct Hin as (j & q & c & -> & Hnth & Hin).
      rewrite Forall_forall in IH.
      simpl. change (get_forest cs (j :: q) = Some m).
      erewrite get_forest_cons by eassumption.
      apply IH; [|assumption].
      eapply nth_error_In; eassumption.
Qed.

Lemma walk_forest_get (f : list Node) (p : Path) (n : Node) :
  In (p, n) (walk_forest f) -> get_forest f p = Some n.
Proof.
  intros Hin. apply (walk_from_In f 0) in Hin.
  destruct Hin as (j & q & c & -> & Hnth & Hin).
  simpl. change (get_forest f (j :: q) = Some n).
  erewrite get_forest_cons by eassumption. now apply walk_get.
Qed.

Lemma walk_is_element (n : Node) :
  forall p m, In (p, m) (walk n) -> exists e cs, m = Elem e cs.
Proof.
  induction n as [data | e cs IH] using Node_induction; intros p m Hin.
  - contradiction.
  - simpl in Hin. destruct Hin as [Heq | Hin].
    + inversion Heq. eauto.
    + apply (walk_from_In cs 0) in Hin.
      destruct Hin as (j & q & c & _ & Hnth & Hin).
      rewrite Forall_forall in IH.
      eapply IH; [|eassumption].
      eapply nth_error_In; eassumption.
Qed.

(** Every listed element is the node its reference leads to. *)
Lemma elements_deref (d : Document) (r : Ref) (n : Node) :
  In (r, n) (elements d) -> deref d r = Some n.
Proof.
  unfold elements. intros Hin. apply in_app_or in Hin.
  destruct Hin as [Hin | Hin];
    apply in_map_iff in Hin; destruct Hin as [[p m] [Heq Hin]];
    unfold at_ref in Heq; simpl in Heq; inversion Heq; subst; simpl;
    now apply walk_forest_get.
Qed.

Lemma hd_error_In {A : Type} (l : list A) (a : A) :
  hd_error l = Some a -> In a l.
Proof. destruct l; simpl; intros H; inversion H; auto. Qed.

(** [querySelector] returns a reference to the element it returns. *)
Lemma querySelector_deref (s : Selector) (d : Document) (r : Ref) (n : Node) :
  querySelector s d = Some (r, n) -> deref d r = Some n.
Proof.
  unfold querySelector, querySelectorAll. intros H.
  apply hd_error_In, filter_In in H. now apply elements_deref.
Qed.

Lemma nth_error_update_nth {A : Type} (g : A -> A) (l : list A) :
  forall i, nth_error (update_nth i g l) i = option_map g (nth_error l i).
Proof.
  induction l as [|x l IH]; intros [|i]; simpl; auto.
Qed.

(** Reading back the node that was modified. *)
Lemma get_modify_forest (g : Node -> Node) (p : Path) :
  forall f n,
    get_forest f p = Some n ->
    get_forest (modify_forest g p f) p = Some (g n).
Proof.
  induction p as [|i p IH]; intros f n H; [discriminate|].
  simpl in *. rewrite nth_error_update_nth.
  destruct (nth_error f i) as [c|]; [|discriminate]. simpl.
  destruct p as [|j p].
  - now inversion H.
  - destruct c as [data | e cs]; [discriminate|].
    now apply IH.
Qed.

Lemma deref_modify (g : Node -> Node) (r : Ref) (d : Document) (n : Node) :
  deref d r = Some n -> deref (modify g r d) r = Some (g n).
Proof. destruct r; simpl; apply get_modify_forest. Qed.

(** Appending after the last child keeps every reference. *)
Lemma get_forest_app (p : Path) (f extra : list Node) (n : Node) :
  get_forest f p = Some n -> get_forest (f ++ extra) p = Some n.
Proof.
  destruct p as [|i p]; [discriminate|]. simpl.
  destruct (nth_error f i) as [c|] eqn:Hnth; [|discriminate].
  rewrite nth_error_app1 by (apply nth_error_Some; congruence).
  now rewrite Hnth.
Qed.

End DomFacts.

Section FindFacts.

Lemma hd_filter_find {A : Type} (f : A -> bool) (l : list A) :
  hd_error (filter f l) = find f l.
Proof.
  induction l as [|x l IH]; simpl; [reflexivity|].
  now destruct (f x).
Qed.

Lemma find_app {A : Type} (f : A -> bool) (l1 l2 : list A) :
  find f (l1 ++ l2)
  = match find f l1 with
    | Some x => Some x
    | None => find f l2
    end.
Proof.
  induction l1 as [|x l1 IH]; simpl; [reflexivity|].
  now destruct (f x).
Qed.

Lemma find_map_snd {A B : Type} (m : Node -> bool) (h : A * Node -> B * Node)
  (l : list (A * Node)) :
  (forall x, snd (h x) = snd x) ->
  find (fun y => m (snd y)) (map h l)
  = option_map h (find (fun x => m (snd x)) l).
Proof.
  intros Hh. induction l as [|x l IH]; simpl; [reflexivity|].
  rewrite Hh. now destruct (m (snd x)).
Qed.

Lemma walk_from_cons (k : nat) (c : Node) (f : list Node) :
  walk_from k (c :: f) = map (under k) (walk c) ++ walk_from (S k) f.
Proof. reflexivity. Qed.

Lemma walk_elem (e : ElementData) (cs : list Node) :
  walk (Elem e cs) = ([], Elem e cs) :: walk_from 0 cs.
Proof. reflexivity. Qed.

Lemma walk_from_app (f f2 : list Node) :
  forall k, walk_from k (f ++ f2)
            = walk_from k f ++ walk_from (k + length f) f2.
Proof.
  induction f as [|c f IH]; intros k; simpl.
  - now rewrite Nat.add_0_r.
  - rewrite !walk_from_cons, IH, <- app_assoc.
    now rewrite Nat.add_succ_r.
Qed.

Lemma modify_forest_cons (g : Node -> Node) (i : nat) (q : Path)
  (f : list Node) :
  modify_forest g (i :: q) f = update_nth i (modify_node g q) f.
Proof. reflexivity. Qed.

Lemma matches_any_element (s : Selector) (n : Node) :
  matches_any s n = true -> exists e cs, n = Elem e cs.
Proof.
  destruct n as [data | e cs]; [|eauto].
  intros H. exfalso. induction s as [|c s IH]; simpl in H; [discriminate|].
  apply orb_prop in H. destruct H as [H | H]; [|auto].
  destruct c; discriminate.
Qed.

(** A selector looks at the name and the attributes of an element only. *)
Lemma matches_any_data (s : Selector) (e e' : ElementData)
  (cs cs' : list Node) :
  localName e' = localName e ->
  attributes e' = attributes e ->
  matches_any s (Elem e' cs') = matches_any s (Elem e cs).
Proof.
  intros Hn Ha. unfold matches_any.
  induction s as [|c s IH]; simpl; [reflexivity|].
  rewrite IH. f_equal.
  destruct c; unfold matches, has_tag, classList, reflected, getAttribute;
    rewrite ?Hn, ?Ha; reflexivity.
Qed.

End FindFacts.

Section BoxFacts.

Lemma forest_without_cons (m : Node -> bool) (c : Node) (f : list Node) :
  forest_without m (c :: f)
  = (if m c then [] else [without m c]) ++ forest_without m f.
Proof. reflexivity. Qed.

Lemma forest_without_app (m : Node -> bool) (f f2 : list Node) :
  forest_without m (f ++ f2) = forest_without m f ++ forest_without m f2.
Proof. unfold forest_without. now rewrite map_app, concat_app. Qed.

Lemma forest_without_remove_nth (m : Node -> bool) (f : list Node) :
  forall i n,
    nth_error f i = Some n -> m n = true ->
    forest_without m (remove_nth i f) = forest_without m f.
Proof.
  induction f as [|c f IH]; intros [|i] n H Hm; simpl in H; try discriminate.
  - inversion H; subst. simpl. rewrite forest_without_cons, Hm. reflexivity.
  - simpl. rewrite !forest_without_cons. f_equal. eapply IH; eassumption.
Qed.

Lemma forest_without_update_nth (m : Node -> bool) (g : Node -> Node)
  (f : list Node) :
  forall i,
    (forall c, nth_error f i = Some c ->
               (if m (g c) then [] else [without m (g c)])
               = (if m c then [] else [without m c])) ->
    forest_without m (update_nth i g f) = forest_without m f.
Proof.
  induction f as [|c f IH]; intros [|i] H; simpl; try reflexivity.
  - rewrite !forest_without_cons. f_equal. now apply H.
  - rewrite !forest_without_cons. f_equal. apply IH. intros c' Hc. now apply H.
Qed.

(** Taking out an element that has the id leaves the forest without the
    elements of that id as it was. *)
Lemma forest_without_remove (i : string) (p : Path) :
  forall f n,
    get_forest f p = Some n -> has_id i n = true ->
    forest_without (has_id i) (remove_forest p f)
    = forest_without (has_id i) f.
Proof.
  induction p as [|j p IH]; intros f n H Hm; [discriminate|].
  simpl in H. destruct (nth_error f j) as [c|] eqn:Hnth; [|discriminate].
  destruct p as [|k p].
  - inversion H; subst. simpl. eapply forest_without_remove_nth; eassumption.
  - destruct c as [data | e cs]; [discriminate|].
    change (remove_forest (j :: k :: p) f)
      with (update_nth j
              (fun n => match n with
                        | Elem e cs => Elem e (remove_forest (k :: p) cs)
                        | Text _ => n
                        end) f).
    apply forest_without_update_nth. intros c Hc.
    rewrite Hnth in Hc. inversion Hc; subst.
    change (has_id i (Elem e (remove_forest (k :: p) cs)))
      with (has_id i (Elem e cs)).
    destruct (has_id i (Elem e cs)); [reflexivity|].
    simpl. do 2 f_equal. exact (IH cs n H Hm).
Qed.

Lemma getElementById_found (i : string) (d : Document) (r : Ref) (n : Node) :
  getElementById i d = Some (r, n) ->
  deref d r = Some n /\ has_id i n = true.
Proof.
  unfold getElementById. intros H.
  apply hd_error_In, filter_In in H. destruct H as [Hin Hid].
  split; [now apply elements_deref | assumption].
Qed.

(** An element below the last child of [body] that has the id is found,
    or an element before it is. *)
Lemma getElementById_last (i : string) (d : Document) (box : Node)
  (q : Path) (n : Node) :
  In (q, n) (walk box) -> has_id i n = true ->
  getElementById i (mkDocument (head d) (body d ++ [box])) <> None.
Proof.
  intros Hin Hid Hnone. unfold getElementById in Hnone.
  assert (Huse : In (InBody ((0 + length (body d)) :: q), n)
                   (filter (fun rn => has_id i (snd rn))
                      (elements (mkDocument (head d) (body d ++ [box]))))).
  { apply filter_In. split; [|assumption].
    unfold elements. apply in_or_app. right. cbn [body].
    change (InBody ((0 + length (body d)) :: q), n)
      with (at_ref InBody ((0 + length (body d)) :: q, n)).
    apply in_map.
    change (walk_forest (body d ++ [box]))
      with (walk_from 0 (body d ++ [box])).
    rewrite walk_from_app. apply in_or_app. right.
    rewrite walk_from_cons. apply in_or_app. left.
    change ((0 + length (body d)) :: q, n)
      with (under (0 + length (body d)) (q, n)).
    now apply in_map. }
  destruct (filter _ _); [contradiction | discriminate].
Qed.

End BoxFacts.

(* ================================================================= *)
(** ** content.js: transformArticle and its guard *)

Import Content Background Examples Exchange MoreExamples.

Section GuardFacts.

Context {browser : Browser}.

Lemma apart_from_box_shown (d : Document) (message type : jsstring) :
  apart_from_box
    (mkDocument (head d) (body d ++ [messageBox_element message type]))
  = apart_from_box d.
Proof.
  unfold apart_from_box. cbn [head body].
  rewrite forest_without_app.
  change (forest_without (has_id "extensionMessageBox")
            [messageBox_element message type]) with (@nil Node).
  now rewrite app_nil_r.
Qed.

Lemma apart_from_box_removed (d : Document) (r : Ref) (n : Node) :
  getElementById "extensionMessageBox" d = Some (r, n) ->
  apart_from_box (remove r d) = apart_from_box d.
Proof.
  intros H. apply getElementById_found in H. destruct H as [Hd Hid].
  unfold apart_from_box.
  destruct r as [p | p]; cbn [remove head body deref] in *; f_equal;
    eapply forest_without_remove; eassumption.
Qed.

(** What [showMessageBox] leaves, whether it throws or not. *)
Lemma showMessageBox_page (message type : jsstring) (p : Page) :
  let p' := fst (showMessageBox message type p) in
  messageBox p' = Some (message, type)
  /\ isTransformed p' = isTransformed p
  /\ awaiting p' = awaiting p
  /\ calls p' = call_showMessageBox message type :: calls p
  /\ apart_from_box (document p') = apart_from_box (document p)
  /\ exists front,
       body (document p') = front ++ [messageBox_element message type].
Proof.
  unfold showMessageBox. cbv zeta.
  match goal with
  | |- context [match getElementById "closeMessageBox" ?d with _ => _ end] =>
      destruct (getElementById "closeMessageBox" d)
  end;
    cbn [fst messageBox isTransformed awaiting calls document];
    (repeat split;
     [ rewrite apart_from_box_shown;
       destruct (getElementById "extensionMessageBox" (document p))
         as [[r n]|] eqn:Hbox;
       [ now apply (apart_from_box_removed _ Hbox) | reflexivity ]
     | eexists; reflexivity ]).
Qed.

Lemma button_in_box (message type : jsstring) :
  match scan message with
  | CharacterData | Doctype _ => True
  | _ => False
  end ->
  exists q, In (q, closeMessageBox) (walk (messageBox_element message type)).
Proof.
  unfold messageBox_element, messageBox_children.
  destruct (scan message) as [|before|before|]; intros H; try contradiction.
  - exists [1; 3]. destruct message; cbn; auto 8.
  - exists [1; 1; 1]. cbn. auto 8.
Qed.

(** A message that is character data, or that ends in an open doctype,
    leaves the button in the box: [showMessageBox] returns. *)
Lemma showMessageBox_returns (message type : jsstring) (p : Page) :
  match scan message with
  | CharacterData | Doctype _ => True
  | _ => False
  end ->
  snd (showMessageBox message type p) = None.
Proof.
  intros H. destruct (button_in_box message type H) as [q Hq].
  unfold showMessageBox. cbv zeta.
  match goal with
  | |- context [mkDocument (head ?d1) (body ?d1 ++ _)] =>
      pose proof (@getElementById_last "closeMessageBox" d1
                    (messageBox_element message type) q closeMessageBox
                    Hq eq_refl) as Hfound
  end.
  match goal with
  | |- context [match getElementById "closeMessageBox" ?d with _ => _ end] =>
      destruct (getElementById "closeMessageBox" d)
  end; [reflexivity | contradiction].
Qed.

(** The document [showMessageBox] leaves: the one before without the
    first element that had the id of the box, and with the new box as the
    last child of [body]. *)
Lemma showMessageBox_document (message type : jsstring) (p : Page) :
  document (fst (showMessageBox message type p))
  = let before :=
      match getElementById "extensionMessageBox" (document p) with
      | Some (existingBox, _) => remove existingBox (document p)
      | None => document p
      end in
    mkDocument (head before)
      (body before ++ [messageBox_element message type]).
Proof.
  unfold showMessageBox. cbv zeta.
  match goal with
  | |- context [match getElementById "closeMessageBox" ?d with _ => _ end] =>
      destruct (getElementById "closeMessageBox" d)
  end; reflexivity.
Qed.

(** The only exception of [showMessageBox]. *)
Lemma showMessageBox_outcome (message type : jsstring) (p : Page) :
  snd (showMessageBox message type p) = None
  \/ snd (showMessageBox message type p)
     = Some (cannot_read "null" "addEventListener").
Proof.
  unfold showMessageBox. cbv zeta.
  match goal with
  | |- context [match getElementById "closeMessageBox" ?d with _ => _ end] =>
      destruct (getElementById "closeMessageBox" d)
  end; auto.
Qed.

Lemma showMessageBox_split (message type : jsstring) (p : Page) :
  showMessageBox message type p
  = (fst (showMessageBox message type p), snd (showMessageBox message type p)).
Proof. now destruct (showMessageBox message type p). Qed.

Lemma begin_when_transformed (p : Page) :
  isTransformed p = true -> transformArticle_begin p = (p, None).
Proof. unfold transformArticle_begin. now intros ->. Qed.

(** The first part of a run in full: what it leaves when it sends a
    request, and what it leaves when it sends none. *)
Lemma begin_fields (p : Page) :
  isTransformed p = false ->
  let p' := fst (transformArticle_begin p) in
  isTransformed p' = false
  /\ apart_from_box (document p') = apart_from_box (document p)
  /\ match snd (transformArticle_begin p) with
     | Some request =>
         action request = lit "transformArticle"
         /\ getArticleTitle (document p) = Some (articleTitle request)
         /\ getArticleBody (document p) = Some (articleBody request)
         /\ articleTitle request <> []
         /\ awaiting p' = S (awaiting p)
         /\ calls p'
            = call_sendMessage request
              :: call_showMessageBox
                   (lit "Transforming article... Please wait for the magic!")
                   (lit "success")
              :: call_getArticleBody :: call_getArticleTitle :: calls p
     | None =>
         awaiting p' = awaiting p
         /\ p'
            = fst (showMessageBox
                     (lit "Could not find enough article content to transform. Try a different article or newspaper.")
                     (lit "error")
                     (record call_getArticleBody
                        (record call_getArticleTitle p)))
         /\ (getArticleTitle (document p) = None
             \/ getArticleTitle (document p) = Some []
             \/ getArticleBody (document p) = None
             \/ getArticleBody (document p) = Some [])
     end.
Proof.
  intros Hflag. unfold transformArticle_begin. rewrite Hflag.
  set (p0 := record call_getArticleBody (record call_getArticleTitle p)).
  set (missing := lit "Could not find enough article content to transform. Try a different article or newspaper.").
  assert (Hmissing :
            let p' := fst (showMessageBox missing (lit "error") p0) in
            isTransformed p' = false
            /\ apart_from_box (document p') = apart_from_box (document p)
            /\ awaiting p' = awaiting p).
  { destruct (showMessageBox_page missing (lit "error") p0)
      as (_ & Hf & Hw & _ & Hd & _).
    cbn zeta. rewrite Hf, Hw, Hd. subst p0. cbn. auto. }
  destruct Hmissing as (Hf & Hd & Hw).
  destruct (getArticleTitle (document p)) as [[|c t]|] eqn:Ht;
    [ cbn [fst snd]; repeat split; auto
    | | cbn [fst snd]; repeat split; auto ].
  destruct (getArticleBody (document p)) as [[|c' b]|] eqn:Hb;
    [ cbn [fst snd]; repeat split; auto 6
    | | cbn [fst snd]; repeat split; auto 6 ].
  set (waiting := lit "Transforming article... Please wait for the magic!").
  rewrite (showMessageBox_split waiting (lit "success") p0).
  rewrite (@showMessageBox_returns waiting (lit "success") p0 I).
  destruct (showMessageBox_page waiting (lit "success") p0)
    as (_ & Hf1 & Hw1 & Hc1 & Hd1 & _).
  cbn [fst snd isTransformed document awaiting calls articleTitle
       articleBody action].
  rewrite Hf1, Hw1, Hc1, Hd1. subst p0. cbn.
  repeat split; auto. discriminate.
Qed.

(** What the first part of a run leaves untouched. *)
Lemma begin_keeps (p : Page) :
  let p' := fst (transformArticle_begin p) in
  apart_from_box (document p') = apart_from_box (document p)
  /\ isTransformed p' = isTransformed p
  /\ count is_title_rewrite p' = count is_title_rewrite p
  /\ count is_body_rewrite p' = count is_body_rewrite p.
Proof.
  destruct (isTransformed p) eqn:Hflag.
  - rewrite (begin_when_transformed _ Hflag). cbn. auto.
  - destruct (begin_fields p Hflag) as (Hf & Hd & H).
    cbn zeta. rewrite Hf, Hd. split; [reflexivity|]. split; [reflexivity|].
    unfold count.
    destruct (snd (transformArticle_begin p)) as [request|].
    + destruct H as (_ & _ & _ & _ & _ & ->). cbn. auto.
    + destruct H as (_ & -> & _).
      destruct (showMessageBox_page
                  (lit "Could not find enough article content to transform. Try a different article or newspaper.")
                  (lit "error")
                  (record call_getArticleBody (record call_getArticleTitle p)))
        as (_ & _ & _ & -> & _).
      cbn. auto.
Qed.

(** A call made with the flag down extracts the title and the body. *)
Lemma begin_extracts (p : Page) :
  isTransformed p = false ->
  count is_extraction (fst (transformArticle_begin p))
  = 2 + count is_extraction p.
Proof.
  intros Hflag. destruct (begin_fields p Hflag) as (_ & _ & H).
  unfold count.
  destruct (snd (transformArticle_begin p)) as [request|].
  - destruct H as (_ & _ & _ & _ & _ & ->). reflexivity.
  - destruct H as (_ & -> & _).
    destruct (showMessageBox_page
                (lit "Could not find enough article content to transform. Try a different article or newspaper.")
                (lit "error")
                (record call_getArticleBody (record call_getArticleTitle p)))
      as (_ & _ & _ & -> & _).
    reflexivity.
Qed.

(** The requests the first part of a run sends: one when it suspends,
    none otherwise. *)
Lemma begin_sends (p : Page) :
  let p' := fst (transformArticle_begin p) in
  match snd (transformArticle_begin p) with
  | Some _ =>
      count is_send p' = S (count is_send p)
      /\ count is_extraction p' = 2 + count is_extraction p
      /\ awaiting p' = S (awaiting p)
  | None =>
      count is_send p' = count is_send p /\ awaiting p' = awaiting p
  end.
Proof.
  destruct (isTransformed p) eqn:Hflag.
  - rewrite (begin_when_transformed _ Hflag). cbn. auto.
  - destruct (begin_fields p Hflag) as (_ & _ & H).
    cbn zeta. unfold count.
    destruct (snd (transformArticle_begin p)) as [request|].
    + destruct H as (_ & _ & _ & _ & Hw & ->). cbn. auto.
    + destruct H as (Hw & -> & _).
      destruct (showMessageBox_page
                  (lit "Could not find enough article content to transform. Try a different article or newspaper.")
                  (lit "error")
                  (record call_getArticleBody (record call_getArticleTitle p)))
        as (_ & _ & Hw' & -> & _).
      cbn. auto.
Qed.

(** The first part of a run suspends at most one more call. *)
Lemma begin_awaiting (p : Page) :
  awaiting p = 0 -> awaiting (fst (transformArticle_begin p)) <= 1.
Proof.
  intros H0. pose proof (begin_sends p) as H.
  destruct (snd (transformArticle_begin p)); cbn zeta in H; lia.
Qed.

(** The second part of a run in full, for a response that is not a
    success: only the notification is new. *)
Lemma resume_failure_fields (r : TransformResponse) (p : Page) :
  success r = false ->
  transformArticle_resume (Some r) p
  = showMessageBox
      (lit "Transformation failed: "
       ++ or_else (error r) (lit "Unknown error"))
      (lit "error") p.
Proof. unfold transformArticle_resume. now intros ->. Qed.

(** The second part of a run neither extracts nor sends, and never clears
    the flag. *)
Lemma resume_keeps (response : option TransformResponse) (p : Page) :
  let p' := fst (transformArticle_resume response p) in
  count is_extraction p' = count is_extraction p
  /\ count is_send p' = count is_send p
  /\ awaiting p' = awaiting p
  /\ (isTransformed p = true -> isTransformed p' = true).
Proof.
  unfold transformArticle_resume.
  destruct response as [r|]; [|cbn; auto].
  destruct (success r).
  - destruct (updateArticleBody _ _) as [d [exn|]]; [cbn; auto|].
    match goal with
    | |- context [showMessageBox ?m ?t ?q] =>
        destruct (showMessageBox_page m t q) as (_ & Hf & Hw & Hc & _);
        destruct (showMessageBox m t q) as [p1 [exn|]]
    end; cbn [fst] in *; unfold count; cbn [calls awaiting isTransformed];
      rewrite ?Hc, ?Hw, ?Hf; cbn; auto.
  - match goal with
    | |- context [showMessageBox ?m ?t ?q] =>
        destruct (showMessageBox_page m t q) as (_ & Hf & Hw & Hc & _)
    end.
    cbn zeta. unfold count. rewrite Hc, Hw, Hf. cbn. auto.
Qed.

Lemma step_when_transformed (p : Page) (e : Event) :
  isTransformed p = true ->
  isTransformed (step p e) = true
  /\ count is_extraction (step p e) = count is_extraction p
  /\ count is_send (step p e) = count is_send p.
Proof.
  intros Hflag. destruct e as [|response]; simpl.
  - rewrite begin_when_transformed by assumption. auto.
  - destruct (awaiting p) eqn:Hn; [auto|].
    destruct (resume_keeps response (resumed p)) as (He & Hs & _ & Hf).
    rewrite He, Hs. auto.
Qed.

(** A successful response that carries its lyrics is rendered to the end:
    one rewrite of the title, one of the body, and the flag is set. *)
Lemma resume_success (r : TransformResponse) (p : Page) :
  success r = true ->
  songLyrics r <> None ->
  let p' := fst (transformArticle_resume (Some r) p) in
  snd (transformArticle_resume (Some r) p) = None
  /\ isTransformed p' = true
  /\ awaiting p' = awaiting p
  /\ count is_title_rewrite p' = S (count is_title_rewrite p)
  /\ count is_body_rewrite p' = S (count is_body_rewrite p)
  /\ messageBox p'
     = Some (lit "Article transformed into a Bollywood masterpiece!",
             lit "success").
Proof.
  intros Hs Hl. unfold transformArticle_resume. rewrite Hs.
  destruct (songLyrics r) as [text|] eqn:Hsl; [|congruence].
  assert (Hnone : forall d,
             snd (updateArticleBody (Some text) d) = None).
  { intros d. unfold updateArticleBody.
    now destruct (container_loop _ _) as [[ref el]|]. }
  match goal with
  | |- context [updateArticleBody (Some text) ?d] =>
      specialize (Hnone d);
      destruct (updateArticleBody (Some text) d) as [d' exn]
  end.
  cbn [snd] in Hnone. subst exn.
  match goal with
  | |- context [showMessageBox ?m ?t ?q] =>
      destruct (showMessageBox_page m t q) as (Hm & Hf & Hw & Hc & _);
      pose proof (@showMessageBox_returns m t q I) as Hret;
      destruct (showMessageBox m t q) as [p1 exn]
  end.
  cbn [fst snd] in *. subst exn.
  cbn [fst snd isTransformed awaiting messageBox]. unfold count.
  cbn [calls]. rewrite Hc, Hw, Hm. cbn. auto 6.
Qed.

(** Any other response leaves the flag and the rewrites as they were. *)
Lemma resume_failure (response : option TransformResponse) (p : Page) :
  match response with Some r => success r = false | None => True end ->
  let p' := fst (transformArticle_resume response p) in
  isTransformed p' = isTransformed p
  /\ awaiting p' = awaiting p
  /\ apart_from_box (document p') = apart_from_box (document p)
  /\ count is_title_rewrite p' = count is_title_rewrite p
  /\ count is_body_rewrite p' = count is_body_rewrite p.
Proof.
  destruct response as [r|]; [|cbn; auto].
  intros Hs. rewrite (resume_failure_fields r p Hs).
  match goal with
  | |- context [showMessageBox ?m ?t ?q] =>
      destruct (showMessageBox_page m t q) as (_ & Hf & Hw & Hc & Hd & _)
  end.
  cbn zeta. unfold count. rewrite Hf, Hw, Hc, Hd. cbn. auto.
Qed.

(** The second part of a run either leaves the flag, the rewrites and the
    document apart from the box as they were, or has rewritten the title
    and the body once more. *)
Lemma resume_counts (response : option TransformResponse) (p : Page) :
  let p' := fst (transformArticle_resume response p) in
  isTransformed p' = isTransformed p
  /\ apart_from_box (document p') = apart_from_box (document p)
  /\ count is_title_rewrite p' = count is_title_rewrite p
  /\ count is_body_rewrite p' = count is_body_rewrite p
  \/ count is_title_rewrite p' = S (count is_title_rewrite p)
     /\ count is_body_rewrite p' = S (count is_body_rewrite p).
Proof.
  destruct response as [r|]; [|left; cbn; auto].
  destruct (success r) eqn:Hs.
  - right. unfold transformArticle_resume. rewrite Hs.
    destruct (updateArticleBody _ _) as [d [exn|]]; [cbn; auto|].
    match goal with
    | |- context [showMessageBox ?m ?t ?q] =>
        destruct (showMessageBox_page m t q) as (_ & _ & _ & Hc & _);
        destruct (showMessageBox m t q) as [p1 [exn|]]
    end; cbn [fst] in *; unfold count; cbn [calls]; rewrite Hc; cbn; auto.
  - left. destruct (@resume_failure (Some r) p Hs) as (Hf & _ & Hd & Ht & Hb).
    auto.
Qed.

Lemma settled_run_once (d : Document) (p : Page)
  (response : option TransformResponse) :
  carries_lyrics response ->
  settled d p ->
  settled d (step (step p Invoke) (Reply response)).
Proof.
  intros Hwf [H0 Hinv].
  destruct Hinv as [(Hflag & Ht & Hb & Hd) | (Hflag & Ht & Hb)].
  - pose proof (begin_keeps p) as (Hd1 & Hf1 & Ht1 & Hb1).
    pose proof (begin_awaiting p H0) as Ha1.
    change (step p Invoke) with (fst (transformArticle_begin p)).
    set (p1 := fst (transformArticle_begin p)) in *.
    unfold step. destruct (awaiting p1) as [|n] eqn:Hn.
    + split; [assumption|]. left. repeat split; congruence.
    + assert (Hr0 : awaiting (resumed p1) = 0) by (simpl; rewrite Hn; lia).
      assert (Htr : count is_title_rewrite (resumed p1) = 0)
        by (unfold count in *; simpl; congruence).
      assert (Hbr : count is_body_rewrite (resumed p1) = 0)
        by (unfold count in *; simpl; congruence).
      assert (Hfr : isTransformed (resumed p1) = false)
        by (simpl; congruence).
      assert (Hdr : apart_from_box (document (resumed p1)) = apart_from_box d)
        by (simpl; congruence).
      destruct response as [r|].
      * destruct (success r) eqn:Hs.
        -- destruct (@resume_success r (resumed p1) Hs (Hwf Hs))
             as (_ & Hf2 & Ha2 & Ht2 & Hb2 & _).
           split; [congruence|]. right.
           repeat split; congruence.
        -- destruct (@resume_failure (Some r) (resumed p1) Hs)
             as (Hf2 & Ha2 & Hd2 & Ht2 & Hb2).
           split; [congruence|]. left.
           repeat split; congruence.
      * destruct (@resume_failure None (resumed p1) I)
          as (Hf2 & Ha2 & Hd2 & Ht2 & Hb2).
        split; [congruence|]. left.
        repeat split; congruence.
  - change (step p Invoke) with (fst (transformArticle_begin p)).
    rewrite begin_when_transformed by assumption.
    simpl. rewrite H0. split; [assumption|]. right. auto.
Qed.

Lemma settled_runs (d : Document)
  (responses : list (option TransformResponse)) :
  forall p,
    Forall carries_lyrics responses ->
    settled d p ->
    settled d (run p (one_after_the_other responses)).
Proof.
  induction responses as [|r rs IH]; intros p Hwf Hp; [assumption|].
  inversion Hwf; subst. simpl.
  apply IH; [assumption|].
  now apply settled_run_once.
Qed.

Lemma run_when_transformed (events : list Event) :
  forall p,
    isTransformed p = true ->
    isTransformed (run p events) = true
    /\ count is_extraction (run p events) = count is_extraction p
    /\ count is_send (run p events) = count is_send p.
Proof.
  induction events as [|e events IH]; intros p Hflag; [auto|].
  destruct (step_when_transformed p e Hflag) as (Hf & He & Hs).
  simpl. destruct (IH (step p e) Hf) as (Hf' & He' & Hs').
  repeat split; congruence.
Qed.

(** The arrival of a response that is not a success leaves the flag
    down. *)
Lemma reply_failure_keeps_flag (response : option TransformResponse)
  (p : Page) :
  match response with Some r => success r = false | None => True end ->
  isTransformed p = false ->
  isTransformed (step p (Reply response)) = false.
Proof.
  intros Hfail Hflag. cbn [step].
  destruct (awaiting p); [assumption|].
  destruct (@resume_failure response (resumed p) Hfail) as (Hf & _).
  now rewrite Hf.
Qed.

(** The text on display once [showMessageBox] was called with a message
    that is character data. *)
Lemma displayed_shown (message type : jsstring) (p : Page) :
  scan message = CharacterData ->
  displayed (document (fst (showMessageBox message type p))) = Some message.
Proof.
  intros Hscan.
  destruct (showMessageBox_page message type p)
    as (_ & _ & _ & _ & _ & front & Hbody).
  unfold displayed, notification. rewrite Hbody, rev_app_distr. cbn [rev app].
  unfold messageBox_element, messageBox_children. rewrite Hscan.
  destruct message as [|c m]; cbn; [reflexivity|].
  now rewrite app_nil_r.
Qed.

End GuardFacts.

Section GuardClaims.

Context {browser : Browser}.

(** C1, as amended. Once a run of [transformArticle] has rendered a
    response and set [isTransformed], a call of [transformArticle] returns
    at once and leaves the page as it is; and whatever calls and responses
    follow, the flag stays set, neither the title nor the body is extracted
    again, and no request is sent again. After an attempt that failed, the
    flag is still down and the next call extracts the title and the body
    again: so it is after a call that sent no request for want of a title
    or a body, and after a call followed by a response that is not a
    success. *)
Theorem transformed_page_is_not_extracted_again :
  forall (p : Page) (events : list Event),
    (isTransformed p = true ->
     transformArticle_begin p = (p, None)
     /\ isTransformed (run p events) = true
     /\ count is_extraction (run p events) = count is_extraction p
     /\ count is_send (run p events) = count is_send p)
    /\ (isTransformed p = false ->
        (snd (transformArticle_begin p) = None ->
         let failed := step p Invoke in
         isTransformed failed = false
         /\ count is_extraction (step failed Invoke)
            = 2 + count is_extraction failed)
        /\ (forall response,
              match response with
              | Some r => success r = false
              | None => True
              end ->
              let failed := run p [Invoke; Reply response] in
              isTransformed failed = false
              /\ count is_extraction (step failed Invoke)
                 = 2 + count is_extraction failed)).
Proof.
  intros p events. split; intros Hflag.
  - split.
    + now apply begin_when_transformed.
    + now apply run_when_transformed.
  - assert (Hdown : isTransformed (step p Invoke) = false).
    { cbn [step]. destruct (begin_keeps p) as (_ & Hf & _). congruence. }
    split.
    + intros _. split; [exact Hdown|]. now apply begin_extracts.
    + intros response Hfail.
      assert (Hfailed : isTransformed (run p [Invoke; Reply response]) = false)
        by now apply reply_failure_keeps_flag.
      split; [exact Hfailed|]. now apply begin_extracts.
Qed.

(** Calls that do not overlap. When [transformArticle] is called any
    number of times on a loaded page, each call being answered before the
    next one is made and each successful response carrying its lyrics, the
    title is rewritten at most once and the body at most once; the flag is
    set exactly when both were rewritten, and until then the document is
    the one that was loaded, apart from the notification box. *)
Lemma runs_one_after_the_other_rewrite_once :
  forall (d : Document) (responses : list (option TransformResponse)),
    Forall carries_lyrics responses ->
    let p := run (loaded d) (one_after_the_other responses) in
    count is_title_rewrite p <= 1
    /\ count is_body_rewrite p <= 1
    /\ (isTransformed p = true <->
        count is_title_rewrite p = 1 /\ count is_body_rewrite p = 1)
    /\ (isTransformed p = false ->
        apart_from_box (document p) = apart_from_box d).
Proof.
  intros d responses Hwf p.
  assert (Hs : settled d p).
  { apply settled_runs; [assumption|].
    split; [reflexivity|]. left. repeat split. }
  destruct Hs as [_ [(Hf & Ht & Hb & Hd) | (Hf & Ht & Hb)]].
  - rewrite Ht, Hb, Hf. repeat split; try lia; congruence.
  - rewrite Ht, Hb, Hf. repeat split; try lia; congruence.
Qed.

(** C2. The code fails it. Two calls of which the second is made while
    the first awaits its response both pass the test of the flag, which is
    set only after the [await]; both are answered, and each answer
    rewrites the title and the body: two rewrites of each, the second one
    made with the flag already set. *)
Theorem overlapping_runs_rewrite_twice :
  let first :=
    run (loaded news_page) [Invoke; Invoke; Reply (Some ok_response)] in
  let second := step first (Reply (Some ok_response)) in
  isTransformed first = true
  /\ count is_title_rewrite first = 1
  /\ count is_body_rewrite first = 1
  /\ count is_title_rewrite second = 2
  /\ count is_body_rewrite second = 2.
Proof. vm_compute. repeat split. Qed.

(** A response with [success] false whose error text is character data:
    the document is left as it is apart from the notification box, no
    rewrite of the title or of the body follows, and the notification
    reads "Transformation failed: " followed by the error text of the
    response, or by "Unknown error" when the response has no error text
    or an empty one. *)
Theorem failed_response_leaves_the_page :
  forall (p : Page) (r : TransformResponse),
    success r = false ->
    scan (lit "Transformation failed: "
          ++ or_else (error r) (lit "Unknown error")) = CharacterData ->
    let p' := fst (transformArticle_resume (Some r) p) in
    apart_from_box (document p') = apart_from_box (document p)
    /\ count is_title_rewrite p' = count is_title_rewrite p
    /\ count is_body_rewrite p' = count is_body_rewrite p
    /\ isTransformed p' = isTransformed p
    /\ snd (transformArticle_resume (Some r) p) = None
    /\ exists text,
         displayed (document p') = Some (lit "Transformation failed: " ++ text)
         /\ (forall e, error r = Some e -> e <> [] -> text = e)
         /\ (error r = None \/ error r = Some [] ->
             text = lit "Unknown error").
Proof.
  intros p r Hs Hscan p'.
  destruct (@resume_failure _ (Some r) p Hs) as (Hf & _ & Hd & Ht & Hb).
  repeat split; try assumption.
  - rewrite (resume_failure_fields r p Hs).
    apply showMessageBox_returns. now rewrite Hscan.
  - exists (or_else (error r) (lit "Unknown error")). repeat split.
    + subst p'. rewrite (resume_failure_fields r p Hs).
      now apply displayed_shown.
    + intros e -> He. now apply or_else_present.
    + intros [-> | ->]; reflexivity.
Qed.

(** C4. The code fails it on an error text with markup. The message of
    the [SyntaxError] that [response.json()] raises on an HTML error page
    holds a [<!DOCTYPE]; written into the notification through
    [innerHTML] it is cut there, and the notification does not contain the
    error text. When the error page starts with a comment, the message
    holds a [<!--] that swallows the button of the notification, and
    [showMessageBox] throws in the middle of [transformArticle]. In both
    cases the page is otherwise left as it was. *)
Theorem failure_text_with_markup_is_cut :
  let waiting := step (loaded news_page) Invoke in
  let cut := step waiting (Reply (Some html_failure_response)) in
  let thrown := step waiting (Reply (Some comment_failure_response)) in
  success html_failure_response = false
  /\ error html_failure_response = Some html_error
  /\ displayed (document cut)
     = Some (cut_text ++ LF :: repeat SPACE 12 ++ times
             ++ LF :: repeat SPACE 8)
  /\ option_map (fun box => includes html_error (textContent box))
       (notification (document cut)) = Some false
  /\ apart_from_box (document cut) = news_page
  /\ snd (transformArticle_resume (Some comment_failure_response)
            (resumed waiting))
     = Some (cannot_read "null" "addEventListener")
  /\ displayed (document thrown) = Some cut_text
  /\ option_map (fun box => includes comment_error (textContent box))
       (notification (document thrown)) = Some false
  /\ apart_from_box (document thrown) = news_page.
Proof. vm_compute. repeat split. Qed.

(** C7. When the extraction of the title or of the body yields nothing, a
    call of [transformArticle] sends no request and awaits nothing, and
    the document is left as it is apart from the notification box; and
    when the guard lets the call through, it puts up the error
    notification about missing article content: the document is the one
    before, without the first element that had the id of the box and
    with a new box as last child of [body], which displays that text. *)
Theorem extraction_failure_is_not_sent :
  forall (p : Page),
    getArticleTitle (document p) = None
    \/ getArticleBody (document p) = None ->
    let p' := fst (transformArticle_begin p) in
    snd (transformArticle_begin p) = None
    /\ count is_send p' = count is_send p
    /\ awaiting p' = awaiting p
    /\ apart_from_box (document p') = apart_from_box (document p)
    /\ (isTransformed p = false ->
        messageBox p'
        = Some
            (lit "Could not find enough article content to transform. Try a different article or newspaper.",
             lit "error")
        /\ displayed (document p')
           = Some
               (lit "Could not find enough article content to transform. Try a different article or newspaper.")
        /\ exists box,
             document p'
             = (let before :=
                  match
                    getElementById "extensionMessageBox" (document p)
                  with
                  | Some (existingBox, _) => remove existingBox (document p)
                  | None => document p
                  end in
                mkDocument (head before) (body before ++ [box]))
             /\ getAttribute (lit "id") box
                = Some (lit "extensionMessageBox")).
Proof.
  intros p H p'. subst p'.
  destruct (isTransformed p) eqn:Hflag.
  - rewrite (begin_when_transformed _ Hflag). cbn.
    repeat split; discriminate.
  - destruct (begin_keeps p) as (Hd & _).
    pose proof (begin_sends p) as Hsends.
    destruct (begin_fields p Hflag) as (_ & _ & Hfields).
    destruct (snd (transformArticle_begin p)) as [request|].
    + exfalso. destruct Hfields as (_ & Ht & Hb & _).
      destruct H as [H | H]; congruence.
    + destruct Hsends as [Hs Hw]. destruct Hfields as (_ & Hp & _).
      repeat split; try assumption.
      * rewrite Hp. apply showMessageBox_page.
      * rewrite Hp. now apply displayed_shown.
      * rewrite Hp, showMessageBox_document. eexists.
        split; reflexivity.
Qed.

End GuardClaims.

Section GuardExamples.

#[local] Existing Instance example_browser.

(** On the news page after a rendered response two more calls change
    nothing; on the page that has a heading and no body text a call sends
    nothing and the next call extracts again; and on the news page a call
    answered with a failure is followed by a call that extracts again. *)
Lemma transformed_page_is_not_extracted_again_witness :
  isTransformed transformed_news_page = true
  /\ isTransformed (loaded bare_page) = false
  /\ snd (transformArticle_begin (loaded bare_page)) = None
  /\ isTransformed (loaded news_page) = false
  /\ success failure_response = false
  /\ (transformArticle_begin transformed_news_page
      = (transformed_news_page, None)
      /\ isTransformed (run transformed_news_page [Invoke; Invoke]) = true
      /\ count is_extraction (run transformed_news_page [Invoke; Invoke])
         = count is_extraction transformed_news_page
      /\ count is_send (run transformed_news_page [Invoke; Invoke])
         = count is_send transformed_news_page)
  /\ (let failed := step (loaded bare_page) Invoke in
      isTransformed failed = false
      /\ count is_extraction (step failed Invoke)
         = 2 + count is_extraction failed)
  /\ (let failed :=
        run (loaded news_page) [Invoke; Reply (Some failure_response)] in
      isTransformed failed = false
      /\ count is_extraction (step failed Invoke)
         = 2 + count is_extraction failed).
Proof.
  assert (Hup : isTransformed transformed_news_page = true)
    by (vm_compute; reflexivity).
  assert (Hbare : isTransformed (loaded bare_page) = false) by reflexivity.
  assert (Hnone : snd (transformArticle_begin (loaded bare_page)) = None)
    by (vm_compute; reflexivity).
  assert (Hdown : isTransformed (loaded news_page) = false) by reflexivity.
  assert (Hfail : success failure_response = false) by reflexivity.
  split; [exact Hup|].
  split; [exact Hbare|].
  split; [exact Hnone|].
  split; [exact Hdown|].
  split; [exact Hfail|].
  split; [|split].
  - exact (proj1 (@transformed_page_is_not_extracted_again example_browser
                    transformed_news_page [Invoke; Invoke]) Hup).
  - exact (proj1 (proj2 (@transformed_page_is_not_extracted_again
                           example_browser (loaded bare_page) []) Hbare)
             Hnone).
  - exact (proj2 (proj2 (@transformed_page_is_not_extracted_again
                           example_browser (loaded news_page) []) Hdown)
             (Some failure_response) Hfail).
Defined.

(** C1 as stated fails. On the news page one call extracts the title and
    the body (two calls) and sends one request; a second call made while
    the first awaits its response extracts and sends again, and so does a
    second call made after the first one was answered with a failure. *)
Lemma second_run_extracts_again :
  count is_extraction (run (loaded news_page) [Invoke]) = 2
  /\ count is_send (run (loaded news_page) [Invoke]) = 1
  /\ awaiting (run (loaded news_page) [Invoke]) = 1
  /\ count is_extraction (run (loaded news_page) [Invoke; Invoke]) = 4
  /\ count is_send (run (loaded news_page) [Invoke; Invoke]) = 2
  /\ count is_extraction
       (run (loaded news_page)
          [Invoke; Reply (Some failure_response); Invoke]) = 4
  /\ count is_send
       (run (loaded news_page)
          [Invoke; Reply (Some failure_response); Invoke]) = 2.
Proof. vm_compute. repeat split. Qed.

(** On the page that has a heading and no body text. *)
Lemma extraction_failure_is_not_sent_witness :
  (getArticleTitle (document (loaded bare_page)) = None
   \/ getArticleBody (document (loaded bare_page)) = None)
  /\ (let p' := fst (transformArticle_begin (loaded bare_page)) in
      snd (transformArticle_begin (loaded bare_page)) = None
      /\ count is_send p' = count is_send (loaded bare_page)
      /\ awaiting p' = awaiting (loaded bare_page)
      /\ apart_from_box (document p')
         = apart_from_box (document (loaded bare_page))
      /\ (isTransformed (loaded bare_page) = false ->
          messageBox p'
          = Some
              (lit "Could not find enough article content to transform. Try a different article or newspaper.",
               lit "error")
          /\ displayed (document p')
             = Some
                 (lit "Could not find enough article content to transform. Try a different article or newspaper.")
          /\ exists box,
               document p'
               = (let before :=
                    match
                      getElementById "extensionMessageBox"
                        (document (loaded bare_page))
                    with
                    | Some (existingBox, _) =>
                        remove existingBox (document (loaded bare_page))
                    | None => document (loaded bare_page)
                    end in
                  mkDocument (head before) (body before ++ [box]))
               /\ getAttribute (lit "id") box
                  = Some (lit "extensionMessageBox"))).
Proof.
  assert (H : getArticleTitle (document (loaded bare_page)) = None
              \/ getArticleBody (document (loaded bare_page)) = None)
    by (right; vm_compute; reflexivity).
  split.
  - exact H.
  - exact (@extraction_failure_is_not_sent example_browser
             (loaded bare_page) H).
Defined.

(** On the news page, with a failure response that has no error text. *)
Lemma failed_response_leaves_the_page_witness :
  success silent_failure_response = false
  /\ scan (lit "Transformation failed: "
           ++ or_else (error silent_failure_response) (lit "Unknown error"))
     = CharacterData
  /\ (let p' :=
        fst (transformArticle_resume (Some silent_failure_response)
               (loaded news_page)) in
      apart_from_box (document p') = apart_from_box (document (loaded news_page))
      /\ count is_title_rewrite p' = count is_title_rewrite (loaded news_page)
      /\ count is_body_rewrite p' = count is_body_rewrite (loaded news_page)
      /\ isTransformed p' = isTransformed (loaded news_page)
      /\ snd (transformArticle_resume (Some silent_failure_response)
                (loaded news_page)) = None
      /\ exists text,
           displayed (document p')
           = Some (lit "Transformation failed: " ++ text)
           /\ (forall e,
                  error silent_failure_response = Some e -> e <> [] ->
                  text = e)
           /\ (error silent_failure_response = None
               \/ error silent_failure_response = Some [] ->
               text = lit "Unknown error")).
Proof.
  assert (Hscan : scan (lit "Transformation failed: "
                        ++ or_else (error silent_failure_response)
                             (lit "Unknown error"))
                  = CharacterData)
    by (vm_compute; reflexivity).
  split; [reflexivity|].
  split; [exact Hscan|].
  exact (@failed_response_leaves_the_page example_browser (loaded news_page)
           silent_failure_response eq_refl Hscan).
Defined.

End GuardExamples.

(* ================================================================= *)
(** ** content.js: extraction and rendering *)

Section ExtractionFacts.

Lemma first_match_deref (selectors : list Compound) (d : Document) :
  forall s r n,
    first_match selectors d = Some (s, (r, n)) -> deref d r = Some n.
Proof.
  induction selectors as [|selector rest IH]; intros s r n H; [discriminate|].
  simpl in H.
  destruct (querySelector [selector] d) as [[r' n']|] eqn:Hq.
  - inversion H; subst. eapply querySelector_deref; eassumption.
  - eapply IH; eassumption.
Qed.

Lemma container_loop_deref (selectors : list Compound) (d : Document) :
  forall r n,
    container_loop selectors d = Some (r, n) -> deref d r = Some n.
Proof.
  induction selectors as [|selector rest IH]; intros r n H; [discriminate|].
  simpl in H.
  destruct (querySelector [selector] d) as [[r' n']|] eqn:Hq.
  - destruct (qualifies selector n').
    + inversion H; subst. eapply querySelector_deref; eassumption.
    + now apply IH.
  - now apply IH.
Qed.

Lemma deref_append_head (d : Document) (r : Ref) (n : Node)
  (extra : list Node) :
  deref d r = Some n ->
  deref (mkDocument (head d ++ extra) (body d)) r = Some n.
Proof.
  destruct r as [p | p]; simpl; [|auto].
  apply get_forest_app.
Qed.

Lemma append_to_emptied (c n : Node) :
  appendChild c (set_children [] n) = set_children [c] n.
Proof. now destruct n. Qed.

Lemma textContent_paragraph (line : jsstring) :
  textContent (paragraph line) = line.
Proof.
  unfold paragraph. destruct line as [|c line]; simpl; [reflexivity|].
  now rewrite app_nil_r.
Qed.

Lemma textContent_paragraphs (lines : list jsstring) :
  map textContent (map paragraph lines) = lines.
Proof.
  induction lines as [|line lines IH]; simpl; [reflexivity|].
  rewrite IH. f_equal. apply textContent_paragraph.
Qed.

(** Where no heading text and no title is made of blanks only, the title
    extracted is the one the specification words. *)
Lemma title_loop_as_specified (selectors : list Compound) (d : Document) :
  (forall s r n,
      In s selectors -> querySelector [s] d = Some (r, n) ->
      nonempty (textContent n) = true -> nonempty (trimmed_text n) = true) ->
  title_loop selectors d = Specified.heading_text selectors d.
Proof.
  induction selectors as [|selector rest IH]; intros Hblank; [reflexivity|].
  simpl.
  assert (IH' : title_loop rest d = Specified.heading_text rest d)
    by (apply IH; intros s r n Hin; apply Hblank; now right).
  destruct (String.prefix "h1" (css selector)) eqn:Hh1.
  - destruct (querySelector [selector] d) as [[r n]|] eqn:Hq; [|assumption].
    destruct (nonempty (textContent n)) eqn:Hn.
    + rewrite (Hblank selector r n (or_introl eq_refl) Hq Hn). reflexivity.
    + assert (Ht : trimmed_text n = []).
      { unfold trimmed_text. destruct (textContent n); [reflexivity|].
        discriminate. }
      rewrite Ht. simpl. assumption.
  - destruct (querySelector [selector] d) as [[r n]|]; [|assumption].
    destruct (nonempty (textContent n)); assumption.
Qed.

Lemma getArticleTitle_as_specified (d : Document) :
  (forall s r n,
      In s titleSelectors -> querySelector [s] d = Some (r, n) ->
      nonempty (textContent n) = true -> nonempty (trimmed_text n) = true) ->
  (nonempty (Specified.og_title d) = true ->
   nonempty (trim (Specified.og_title d)) = true) ->
  (nonempty (title d) = true -> nonempty (trim (title d)) = true) ->
  getArticleTitle d = Specified.extractTitle d.
Proof.
  intros Hheading Hog Htitle.
  unfold getArticleTitle, Specified.extractTitle.
  rewrite (title_loop_as_specified _ _ Hheading).
  destruct (Specified.heading_text titleSelectors d); [reflexivity|].
  fold (Specified.og_title d).
  destruct (nonempty (Specified.og_title d)) eqn:Ho.
  - now rewrite Hog.
  - assert (Hoe : Specified.og_title d = [])
      by (destruct (Specified.og_title d); [reflexivity | discriminate]).
    rewrite Hoe. simpl.
    destruct (nonempty (title d)) eqn:Ht.
    + now rewrite Htitle.
    + assert (Hte : title d = [])
        by (destruct (title d); [reflexivity | discriminate]).
      rewrite Hte. reflexivity.
Qed.

Lemma querySelector_element (s : Selector) (d : Document) (r : Ref)
  (n : Node) :
  querySelector s d = Some (r, n) -> exists e cs, n = Elem e cs.
Proof.
  unfold querySelector, querySelectorAll. intros H.
  apply hd_error_In, filter_In in H. destruct H as [_ H].
  eapply matches_any_element; eassumption.
Qed.

Lemma container_loop_found (selectors : list Compound) (d : Document) :
  forall r c,
    container_loop selectors d = Some (r, c) ->
    exists s,
      In s selectors
      /\ querySelector [s] d = Some (r, c)
      /\ qualifies s c = true.
Proof.
  induction selectors as [|selector rest IH]; intros r c H; [discriminate|].
  simpl in H.
  destruct (querySelector [selector] d) as [[r' c']|] eqn:Hq.
  - destruct (qualifies selector c') eqn:Hok.
    + inversion H; subst. exists selector. simpl. auto.
    + destruct (IH _ _ H) as (s & Hin & Hs). exists s. simpl. auto.
  - destruct (IH _ _ H) as (s & Hin & Hs). exists s. simpl. auto.
Qed.

End ExtractionFacts.

Section ExtractionClaims.

Context {browser : Browser}.

(** C5 fails on a heading made of blanks. On the page whose [h1.artTitle]
    holds three spaces, [getArticleTitle] returns the empty string: it gets
    neither to the [h1.headline] that holds the headline nor to the
    [og:title], and it does not return [null]. The title as the
    specification words it is the headline. *)
Theorem blank_heading_gives_empty_title :
  getArticleTitle blank_heading_page = Some []
  /\ Specified.extractTitle blank_heading_page = Some headline.
Proof. vm_compute. split; reflexivity. Qed.

(** C6, as amended. When a container is found that holds at least one
    [p] or [div.Normal] element, the trimmed texts of these elements are
    the fragments; the fragments longer than 50 characters are kept, in
    order, and every other one is dropped; the body is the kept fragments
    joined by a blank line, or [null] when none is kept. When the
    container holds no such element, the body is the trimmed text of the
    container if that text is longer than 100 characters, and [null]
    otherwise. *)
Theorem container_paragraphs_over_50 :
  forall (d : Document) (main : Node),
    mainArticleElement d = Some main ->
    let fragments :=
      map (fun p => trim (textContent (snd p)))
        (querySelectorAll_in [ByTag "p"; ByClass "div" "Normal"] main) in
    let kept := filter (fun text => 50 <? length text) fragments in
    (fragments <> [] ->
     getArticleBody d
     = match kept with
       | [] => None
       | _ :: _ => Some (join [LF; LF] kept)
       end)
    /\ (fragments = [] ->
        getArticleBody d
        = if 100 <? length (trim (textContent main))
          then Some (trim (textContent main))
          else None).
Proof.
  intros d main Hmain. cbv zeta.
  unfold getArticleBody, articleText. rewrite Hmain. cbv zeta.
  unfold paragraphSelector, trimmed_text, paragraph_ok.
  destruct (querySelectorAll_in [ByTag "p"; ByClass "div" "Normal"] main)
    as [|p ps].
  - split; [intros H; now contradiction H|]. intros _.
    change (0 <? length (@nil (Path * Node))) with false. cbv iota.
    destruct (100 <? length (trim (textContent main))); reflexivity.
  - split; [|intros H; discriminate]. intros _.
    change (0 <? length (p :: ps)) with true. cbv iota.
    assert (E : forall kept : list jsstring,
               (if 0 <? length kept then Some (join [LF; LF] kept) else None)
               = match kept with
                 | [] => None
                 | _ :: _ => Some (join [LF; LF] kept)
                 end)
      by (intros [|x xs]; reflexivity).
    apply E.
Qed.

(** C10. When a container is found that holds no [p] and no [div.Normal]
    element, the body is the trimmed text of the container itself if that
    text is longer than 100 characters, and [null] otherwise. *)
Theorem container_without_paragraphs :
  forall (d : Document) (main : Node),
    mainArticleElement d = Some main ->
    querySelectorAll_in paragraphSelector main = [] ->
    (100 < length (trimmed_text main) ->
     getArticleBody d = Some (trimmed_text main))
    /\ (length (trimmed_text main) <= 100 -> getArticleBody d = None).
Proof.
  intros d main Hmain Hnone.
  unfold getArticleBody, articleText. rewrite Hmain, Hnone. simpl.
  split; intros Hlen.
  - apply Nat.ltb_lt in Hlen. rewrite Hlen. reflexivity.
  - apply Nat.ltb_ge in Hlen. rewrite Hlen. reflexivity.
Qed.

Lemma styled_block (kids : list Node) :
  set_style "width" "100%"
    (set_style "color" "#4A0033"
       (set_style "lineHeight" "1.8"
          (set_style "fontSize" "1.2rem"
             (set_style "fontFamily" "'Dancing Script', cursive"
                (Elem
                   (createElement "div"
                      [("class",
                        lit "bollywood-lyrics-container text-center py-8 px-4 bg-gradient-to-r from-purple-100 to-pink-100 rounded-lg shadow-lg my-8 mx-auto max-w-2xl")])
                   kids)))))
  = Elem
      (mkElementData (lit "div") HTML
         [(lit "class",
           lit "bollywood-lyrics-container text-center py-8 px-4 bg-gradient-to-r from-purple-100 to-pink-100 rounded-lg shadow-lg my-8 mx-auto max-w-2xl")]
         [(lit "fontFamily", lit "'Dancing Script', cursive");
          (lit "fontSize", lit "1.2rem");
          (lit "lineHeight", lit "1.8");
          (lit "color", lit "#4A0033");
          (lit "width", lit "100%")] true)
      kids.
Proof. vm_compute. reflexivity. Qed.

(** The block of the lyrics as an element with its children. *)
Lemma lyricsContainer_block (songLyrics : jsstring) :
  lyricsContainer songLyrics
  = Elem
      (mkElementData (lit "div") HTML
         [(lit "class",
           lit "bollywood-lyrics-container text-center py-8 px-4 bg-gradient-to-r from-purple-100 to-pink-100 rounded-lg shadow-lg my-8 mx-auto max-w-2xl")]
         [(lit "fontFamily", lit "'Dancing Script', cursive");
          (lit "fontSize", lit "1.2rem");
          (lit "lineHeight", lit "1.8");
          (lit "color", lit "#4A0033");
          (lit "width", lit "100%")] true)
      (map paragraph (lyric_lines songLyrics)
       ++ [Elem (createElement "p"
                   [("class", lit "mt-6 italic text-gray-600 text-sm")])
             [Text ([0x2014; SPACE]%N
                    ++ lit "Your Bollywood News Transformer")]]).
Proof. unfold lyricsContainer. now rewrite styled_block. Qed.

(** C9. When the container loop of [updateArticleBody] finds a
    container, nothing is thrown and the container is left with one child:
    a [div] of class [bollywood-lyrics-container] whose children are one
    [p] holding the line for each line of the lyrics that is not blank,
    in the order of the lyrics, and then the [p] of the signature. When
    the loop finds none, [head] and the children of [body] are left as
    they were and one [div] of class [bollywood-content-appended] is added
    after the last child of [body]; it holds the heading, the lyrics and
    the signature when the lyrics are character data, and what the parser
    makes of the template otherwise. *)
Theorem updateArticleBody_replaces_or_appends :
  forall (songLyrics : jsstring) (d : Document),
    let lines :=
      filter (fun line => nonempty (trim line)) (split LF songLyrics) in
    let line_p (line : jsstring) :=
      Elem (createElement "p" [("class", lit "my-2")]) [Text line] in
    let signature_p :=
      Elem (createElement "p"
              [("class", lit "mt-6 italic text-gray-600 text-sm")])
        [Text ([0x2014; SPACE]%N ++ lit "Your Bollywood News Transformer")] in
    (forall r container,
        container_loop articleBodyContainerSelectors d = Some (r, container) ->
        snd (updateArticleBody (Some songLyrics) d) = None
        /\ exists e old b,
             container = Elem e old
             /\ deref (fst (updateArticleBody (Some songLyrics) d)) r
                = Some (Elem e [Elem b (map line_p lines ++ [signature_p])])
             /\ localName b = lit "div"
             /\ attributes b
                = [(lit "class",
                    lit "bollywood-lyrics-container text-center py-8 px-4 bg-gradient-to-r from-purple-100 to-pink-100 rounded-lg shadow-lg my-8 mx-auto max-w-2xl")]
             /\ style b
                = [(lit "fontFamily", lit "'Dancing Script', cursive");
                   (lit "fontSize", lit "1.2rem");
                   (lit "lineHeight", lit "1.8");
                   (lit "color", lit "#4A0033");
                   (lit "width", lit "100%")])
    /\ (container_loop articleBodyContainerSelectors d = None ->
        exists e kids,
          updateArticleBody (Some songLyrics) d
          = (mkDocument (head d) (body d ++ [Elem e kids]), None)
          /\ localName e = lit "div"
          /\ attributes e
             = [(lit "class",
                 lit "bollywood-content-appended text-center py-8 px-4 mt-8 bg-gradient-to-r from-blue-100 to-indigo-100 rounded-lg shadow-lg my-8 mx-auto max-w-2xl")]
          /\ (scan songLyrics = CharacterData ->
              kids
              = [ Text (LF :: repeat SPACE 12);
                  Elem (createElement "h2"
                          [("class",
                            lit "text-2xl font-bold text-purple-700 mb-4")])
                    [Text ([0xFFFD; SPACE]%N
                           ++ lit "A Bollywood Extravaganza! "
                           ++ [0xD83C; 0xDFB6]%N)];
                  Text (LF :: repeat SPACE 12);
                  Elem (createElement "div"
                          [("class",
                            lit "text-lg text-gray-800 whitespace-pre-wrap")])
                    (if nonempty songLyrics then [Text songLyrics] else []);
                  Text (LF :: repeat SPACE 12);
                  signature_p;
                  Text (LF :: repeat SPACE 8) ])
          /\ (scan songLyrics <> CharacterData ->
              kids = parseHTML (newSection_source songLyrics))).
Proof.
  intros songLyrics d lines line_p signature_p. split.
  - intros r container Hloop.
    unfold updateArticleBody. rewrite Hloop. cbn [fst snd].
    split; [reflexivity|].
    pose proof (container_loop_deref _ _ Hloop) as Hd.
    destruct (container_loop_found _ _ Hloop) as (s & _ & Hq & _).
    destruct (querySelector_element _ _ Hq) as (e & old & ->).
    exists e, old,
      (mkElementData (lit "div") HTML
         [(lit "class",
           lit "bollywood-lyrics-container text-center py-8 px-4 bg-gradient-to-r from-purple-100 to-pink-100 rounded-lg shadow-lg my-8 mx-auto max-w-2xl")]
         [(lit "fontFamily", lit "'Dancing Script', cursive");
          (lit "fontSize", lit "1.2rem");
          (lit "lineHeight", lit "1.8");
          (lit "color", lit "#4A0033");
          (lit "width", lit "100%")] true).
    assert (Hkids : map paragraph (lyric_lines songLyrics) = map line_p lines).
    { unfold lyric_lines. fold lines. apply map_ext_in.
      intros line Hin. unfold lines in Hin. apply filter_In in Hin.
      destruct Hin as [_ Hne]. unfold paragraph, line_p.
      destruct line as [|c line]; [discriminate | reflexivity]. }
    split; [reflexivity|].
    split; [|split; [reflexivity | split; reflexivity]].
    apply (deref_append_head
             (modify (appendChild (lyricsContainer songLyrics)) r
                (modify (set_children []) r d))).
    erewrite deref_modify;
      [|erewrite deref_modify; [reflexivity | exact Hd]].
    cbn [set_children appendChild app].
    rewrite lyricsContainer_block, Hkids. reflexivity.
  - intros Hloop. unfold updateArticleBody. rewrite Hloop.
    unfold newSection. cbn [interpolate].
    do 2 eexists. split; [reflexivity|].
    split; [reflexivity|]. split; [reflexivity|].
    split; intros Hscan.
    + rewrite Hscan. reflexivity.
    + destruct (scan songLyrics); [contradiction | reflexivity..].
Qed.

End ExtractionClaims.

Section ExtractionExamples.

#[local] Existing Instance example_browser.

(** On the news page the story is kept and the caption of 30 characters
    is dropped; on the page whose container holds its text directly, the
    text of the container is the body. *)
Lemma container_paragraphs_over_50_witness :
  mainArticleElement news_page = Some news_article
  /\ mainArticleElement plain_container_page
     = Some (tag "div" [("class", lit "story-content")] [Text dog_story])
  /\ getArticleBody news_page = Some dog_story
  /\ getArticleBody plain_container_page = Some dog_story.
Proof.
  assert (Hmain : mainArticleElement news_page = Some news_article)
    by (vm_compute; reflexivity).
  assert (Hplain : mainArticleElement plain_container_page
                   = Some (tag "div" [("class", lit "story-content")]
                             [Text dog_story]))
    by (vm_compute; reflexivity).
  assert (Hsome : map (fun p => trim (textContent (snd p)))
                    (querySelectorAll_in [ByTag "p"; ByClass "div" "Normal"]
                       news_article) <> [])
    by (vm_compute; discriminate).
  assert (Hnone : map (fun p => trim (textContent (snd p)))
                    (querySelectorAll_in [ByTag "p"; ByClass "div" "Normal"]
                       (tag "div" [("class", lit "story-content")]
                          [Text dog_story])) = [])
    by (vm_compute; reflexivity).
  split; [exact Hmain|].
  split; [exact Hplain|].
  split.
  - exact (proj1 (@container_paragraphs_over_50 news_page _ Hmain) Hsome).
  - exact (proj2 (@container_paragraphs_over_50 plain_container_page _ Hplain)
             Hnone).
Defined.

(** C6 as stated fails. On the page whose container holds its text
    without any [p] or [div.Normal] element, a container is found and no
    fragment is collected, let alone one of more than 50 characters; yet
    the body is not [null]: it is the text of the container. *)
Lemma container_without_fragments_has_a_body :
  mainArticleElement plain_container_page
  = Some (tag "div" [("class", lit "story-content")] [Text dog_story])
  /\ map (fun p => trim (textContent (snd p)))
       (querySelectorAll_in [ByTag "p"; ByClass "div" "Normal"]
          (tag "div" [("class", lit "story-content")] [Text dog_story])) = []
  /\ getArticleBody plain_container_page = Some dog_story
  /\ getArticleBody plain_container_page <> None.
Proof. vm_compute. repeat split. discriminate. Qed.

(** On the page whose container holds its 112 characters of text
    directly. *)
Lemma container_without_paragraphs_witness :
  mainArticleElement plain_container_page
  = Some (tag "div" [("class", lit "story-content")] [Text dog_story])
  /\ querySelectorAll_in paragraphSelector
       (tag "div" [("class", lit "story-content")] [Text dog_story]) = []
  /\ 100 < length dog_story
  /\ getArticleBody plain_container_page = Some dog_story.
Proof.
  assert (Hmain : mainArticleElement plain_container_page
                  = Some (tag "div" [("class", lit "story-content")]
                            [Text dog_story]))
    by (vm_compute; reflexivity).
  assert (Hnone : querySelectorAll_in paragraphSelector
                    (tag "div" [("class", lit "story-content")]
                       [Text dog_story]) = [])
    by (vm_compute; reflexivity).
  assert (Hlen : 100 < length (trimmed_text
                                 (tag "div" [("class", lit "story-content")]
                                    [Text dog_story])))
    by (vm_compute; lia).
  split; [exact Hmain|].
  split; [exact Hnone|].
  split; [vm_compute; lia|].
  exact (proj1 (@container_without_paragraphs plain_container_page _
                  Hmain Hnone) Hlen).
Defined.

(** On the news page the [article] is the container; the bare page has
    none. *)
Lemma updateArticleBody_replaces_or_appends_witness :
  container_loop articleBodyContainerSelectors news_page
  = Some (InBody [1], news_article)
  /\ container_loop articleBodyContainerSelectors bare_page = None
  /\ scan lyrics = CharacterData
  /\ snd (updateArticleBody (Some lyrics) news_page) = None
  /\ deref (fst (updateArticleBody (Some lyrics) news_page)) (InBody [1])
     = Some
         (tag "article" []
            [set_style "width" "100%"
               (set_style "color" "#4A0033"
                  (set_style "lineHeight" "1.8"
                     (set_style "fontSize" "1.2rem"
                        (set_style "fontFamily" "'Dancing Script', cursive"
                           (tag "div"
                              [("class",
                                lit "bollywood-lyrics-container text-center py-8 px-4 bg-gradient-to-r from-purple-100 to-pink-100 rounded-lg shadow-lg my-8 mx-auto max-w-2xl")]
                              [tag "p" [("class", lit "my-2")]
                                 [Text (lit "Buddy, oh Buddy")];
                               tag "p" [("class", lit "my-2")]
                                 [Text (lit "Dil ka champion")];
                               tag "p"
                                 [("class",
                                   lit "mt-6 italic text-gray-600 text-sm")]
                                 [Text signature_text]])))))])
  /\ exists block,
       fst (updateArticleBody (Some lyrics) bare_page)
       = mkDocument [] [tag "h1" [] [Text headline]; block]
       /\ textContent block
          = LF :: repeat SPACE 12 ++ extravaganza
            ++ LF :: repeat SPACE 12 ++ lyrics
            ++ LF :: repeat SPACE 12 ++ signature_text
            ++ LF :: repeat SPACE 8.
Proof.
  assert (Hfound : container_loop articleBodyContainerSelectors news_page
                   = Some (InBody [1], news_article))
    by (vm_compute; reflexivity).
  assert (Hnone : container_loop articleBodyContainerSelectors bare_page = None)
    by (vm_compute; reflexivity).
  assert (Hscan : scan lyrics = CharacterData) by (vm_compute; reflexivity).
  split; [exact Hfound|].
  split; [exact Hnone|].
  split; [exact Hscan|].
  destruct (proj1 (@updateArticleBody_replaces_or_appends example_browser
                     lyrics news_page) (InBody [1]) news_article Hfound)
    as (Hthrown & e & old & b & Hcontainer & Hderef & Hname & Hattrs & Hstyle).
  destruct (proj2 (@updateArticleBody_replaces_or_appends example_browser
                     lyrics bare_page) Hnone)
    as (e' & kids & Hdoc & Hname' & Hattrs' & Hkids & _).
  split; [exact Hthrown|].
  split.
  - rewrite Hderef. inversion Hcontainer; subst e old. clear Hcontainer.
    destruct b as [name ns attrs st laid]. cbn in Hname, Hattrs, Hstyle.
    subst name attrs st.
    vm_compute in Hderef. vm_compute.
    injection Hderef as Hns Hlaid. now subst ns laid.
  - exists (Elem e' kids). split.
    + rewrite Hdoc. reflexivity.
    + rewrite (Hkids Hscan). vm_compute. reflexivity.
Defined.

End ExtractionExamples.

(* ================================================================= *)
(** ** background.js *)

Section BackgroundFacts.

Variable conv : Json -> bool.

(** A body without candidates yields the default text. *)
Lemma generated_default (path : string) (default : jsstring) (result : Json) :
  no_candidates result -> generated conv path default result = inr default.
Proof.
  intros (fields & -> & [H | H]); unfold generated; simpl; rewrite H;
    reflexivity.
Qed.

Lemma failed_error (e : Exn) (fallback : jsstring) :
  failed e fallback
  = mkResponse false None None
      (Some (if nonempty (message e) then message e else fallback)).
Proof. unfold failed. now destruct (message e). Qed.

(** The run of [transformArticleWithGemini] in terms of its two
    generation calls. *)
Lemma run_by_generations (net : Network) (articleTitle articleBody : jsstring) :
  transformArticleWithGemini conv net articleTitle articleBody
  = match generation conv movie_path default_title (net 0) with
    | inl e =>
        ([moviePayload articleTitle articleBody],
         Fulfilled (failed e (lit "Network or API response parsing error.")))
    | inr t =>
        match generation conv song_path default_lyrics (net 1) with
        | inl e =>
            ([moviePayload articleTitle articleBody;
              songPayload articleTitle articleBody],
             Fulfilled
               (failed e (lit "Network or API response parsing error.")))
        | inr l =>
            ([moviePayload articleTitle articleBody;
              songPayload articleTitle articleBody],
             Fulfilled (mkResponse true (Some t) (Some l) None))
        end
    end.
Proof.
  unfold transformArticleWithGemini, try_block, bind, fetch_json, generation.
  simpl.
  destruct (net 0) as [e | e | v1]; simpl; try reflexivity.
  destruct (generated conv movie_path default_title v1) as [e | t]; simpl;
    [reflexivity|].
  destruct (net 1) as [e | e | v2]; simpl; try reflexivity.
  destruct (generated conv song_path default_lyrics v2) as [e | l];
    reflexivity.
Qed.

(** The promise of [transformArticleWithGemini] is never rejected. *)
Lemma run_is_fulfilled (net : Network) (articleTitle articleBody : jsstring) :
  exists response,
    snd (transformArticleWithGemini conv net articleTitle articleBody)
    = Fulfilled response.
Proof.
  unfold transformArticleWithGemini.
  destruct (try_block conv net articleTitle articleBody [])
    as [posted [e | response]]; simpl; eauto.
Qed.

(** Every response [transformArticleWithGemini] builds carries its lyrics
    when it is a successful one. *)
Lemma built_responses_carry_lyrics (net : Network)
  (articleTitle articleBody : jsstring) (response : TransformResponse) :
  snd (transformArticleWithGemini conv net articleTitle articleBody)
  = Fulfilled response ->
  carries_lyrics (Some response).
Proof.
  rewrite run_by_generations.
  destruct (generation conv movie_path default_title (net 0)) as [e | t].
  - simpl. intros H. inversion H. simpl. discriminate.
  - destruct (generation conv song_path default_lyrics (net 1)) as [e | l];
      simpl; intros H; inversion H; simpl; discriminate.
Qed.

End BackgroundFacts.

Section BackgroundClaims.

Variable conv : Json -> bool.

(** C3, as amended. A generation call whose body is an object without
    candidates gives the default text of its field, and the run still
    succeeds when the other call completes. A fetch that is rejected or a
    body that does not parse, in the first call, ends the run: the second
    request is not posted, and the response is a failure that carries the
    message of the exception, or the fallback text when the message is
    empty. The same in the second call ends the run in the same way,
    after both requests were posted. *)
Theorem generation_calls :
  forall (net : Network) (articleTitle articleBody : jsstring),
    let run := transformArticleWithGemini conv net articleTitle articleBody in
    let movie := moviePayload articleTitle articleBody in
    let song := songPayload articleTitle articleBody in
    let first := generation conv movie_path default_title (net 0) in
    let second := generation conv song_path default_lyrics (net 1) in
    let failure (e : Exn) :=
      mkResponse false None None
        (Some (if nonempty (message e) then message e
               else lit "Network or API response parsing error.")) in
    (forall result l,
        net 0 = Parsed result -> no_candidates result -> second = inr l ->
        run = ([movie; song],
               Fulfilled (mkResponse true (Some default_title) (Some l) None)))
    /\ (forall t result,
          first = inr t -> net 1 = Parsed result -> no_candidates result ->
          run = ([movie; song],
                 Fulfilled
                   (mkResponse true (Some t) (Some default_lyrics) None)))
    /\ (forall e,
          net 0 = NetworkFailure e \/ net 0 = ParseFailure e ->
          run = ([movie], Fulfilled (failure e)))
    /\ (forall t e,
          first = inr t ->
          net 1 = NetworkFailure e \/ net 1 = ParseFailure e ->
          run = ([movie; song], Fulfilled (failure e))).
Proof.
  intros net articleTitle articleBody run movie song first second failure.
  subst run. rewrite run_by_generations. fold first second movie song.
  repeat split.
  - intros result l H0 Hnone Hsecond.
    assert (Hfirst : first = inr default_title).
    { subst first. rewrite H0. simpl. now apply generated_default. }
    now rewrite Hfirst, Hsecond.
  - intros t result Hfirst H1 Hnone.
    assert (Hsecond : second = inr default_lyrics).
    { subst second. rewrite H1. simpl. now apply generated_default. }
    now rewrite Hfirst, Hsecond.
  - intros e H.
    assert (Hfirst : first = inl e).
    { subst first. destruct H as [-> | ->]; reflexivity. }
    rewrite Hfirst, failed_error. reflexivity.
  - intros t e Hfirst H.
    assert (Hsecond : second = inl e).
    { subst second. destruct H as [-> | ->]; reflexivity. }
    rewrite Hfirst, Hsecond, failed_error. reflexivity.
Qed.

(** C8. For a request whose action is transformArticle the listener
    returns true and hands exactly one response to [sendResponse],
    whatever the network does. When the [try] block raises an exception,
    that response has [success] false and carries the message of the
    exception, or the fallback text when the message is empty, so that its
    error text is never empty; otherwise it is the response the block
    built. *)
Theorem listener_always_responds :
  forall (net : Network) (request : TransformRequest),
    action request = lit "transformArticle" ->
    exists response,
      responses (listener conv net request) = [response]
      /\ returned_true (listener conv net request) = true
      /\ match
           snd (try_block conv net (articleTitle request)
                  (articleBody request) [])
         with
         | inr built => response = built
         | inl e =>
             response
             = mkResponse false None None
                 (Some (if nonempty (message e) then message e
                        else lit "Network or API response parsing error."))
             /\ exists text, error response = Some text /\ text <> []
         end.
Proof.
  intros net request Haction.
  unfold listener, transformArticleWithGemini.
  rewrite Haction, eqb_refl.
  destruct (try_block conv net (articleTitle request) (articleBody request) [])
    as [posted [e | built]]; simpl.
  - exists (failed e (lit "Network or API response parsing error.")).
    split; [reflexivity|]. split; [reflexivity|].
    split; [apply failed_error|].
    rewrite failed_error. simpl.
    eexists. split; [reflexivity|].
    destruct (message e); simpl; discriminate.
  - exists built. repeat split.
Qed.

End BackgroundClaims.

Section BackgroundExamples.

(** With an API error object as the first body, and with a first body
    that does not parse. *)
Lemma generation_calls_witness :
  let net := answers (Parsed api_error) (Parsed (candidate lyrics)) in
  let cut := answers (ParseFailure syntax_error) (Parsed (candidate lyrics)) in
  (net 0 = Parsed api_error
   /\ no_candidates api_error
   /\ generation no_conversion song_path default_lyrics (net 1)
      = inr (trim lyrics))
  /\ transformArticleWithGemini no_conversion net headline dog_story
     = ([moviePayload headline dog_story; songPayload headline dog_story],
        Fulfilled
          (mkResponse true (Some default_title) (Some (trim lyrics)) None))
  /\ (cut 0 = NetworkFailure syntax_error
      \/ cut 0 = ParseFailure syntax_error)
  /\ transformArticleWithGemini no_conversion cut headline dog_story
     = ([moviePayload headline dog_story],
        Fulfilled
          (mkResponse false None None (Some (message syntax_error)))).
Proof.
  intros net cut.
  assert (H0 : net 0 = Parsed api_error) by reflexivity.
  assert (Hnone : no_candidates api_error).
  { eexists. split; [reflexivity|]. left. vm_compute. reflexivity. }
  assert (Hsecond : generation no_conversion song_path default_lyrics (net 1)
                    = inr (trim lyrics))
    by (vm_compute; reflexivity).
  assert (Hcut : cut 0 = NetworkFailure syntax_error
                 \/ cut 0 = ParseFailure syntax_error)
    by (right; reflexivity).
  split; [repeat split; assumption|].
  split.
  - exact (proj1 (generation_calls no_conversion net headline dog_story)
             api_error (trim lyrics) H0 Hnone Hsecond).
  - split; [exact Hcut|].
    exact (proj1 (proj2 (proj2
             (generation_calls no_conversion cut headline dog_story)))
             syntax_error Hcut).
Defined.

(** C3 as stated fails. When the body of the first call does not parse,
    the run ends with a failure that carries the message of the parse
    error: the default title is not used, and the second request is never
    posted although the network would have answered it. *)
Lemma parse_failure_ends_the_run :
  transformArticleWithGemini no_conversion
    (answers (ParseFailure syntax_error) (Parsed (candidate lyrics)))
    headline dog_story
  = ([moviePayload headline dog_story],
     Fulfilled (mkResponse false None None (Some (message syntax_error)))).
Proof. vm_compute. reflexivity. Qed.

(** The run of the specification: the API answers the title call with
    one candidate and the lyrics call with another. *)
Example end_to_end :
  responses
    (listener no_conversion
       (answers (Parsed (candidate (lit "Buddy: The Golden Heart")))
          (Parsed (candidate lyrics)))
       request)
  = [mkResponse true (Some (lit "Buddy: The Golden Heart"))
       (Some (trim lyrics)) None].
Proof. vm_compute. reflexivity. Qed.

(** With a first fetch that is rejected. *)
Lemma listener_always_responds_witness :
  action request = lit "transformArticle"
  /\ exists response,
       responses
         (listener no_conversion
            (answers (NetworkFailure failed_to_fetch) (Parsed api_error))
            request)
       = [response]
       /\ returned_true
            (listener no_conversion
               (answers (NetworkFailure failed_to_fetch) (Parsed api_error))
               request) = true
       /\ match
            snd (try_block no_conversion
                   (answers (NetworkFailure failed_to_fetch) (Parsed api_error))
                   (articleTitle request) (articleBody request) [])
          with
          | inr built => response = built
          | inl e =>
              response
              = mkResponse false None None
                  (Some (if nonempty (message e) then message e
                         else lit "Network or API response parsing error."))
              /\ exists text, error response = Some text /\ text <> []
          end.
Proof.
  split.
  - reflexivity.
  - apply (listener_always_responds no_conversion
             (answers (NetworkFailure failed_to_fetch) (Parsed api_error))
             request).
    reflexivity.
Defined.

End BackgroundExamples.

(* ================================================================= *)
(** ** More on strings *)

Section TrimFacts.

Lemma trimStart_clean (s : jsstring) (c : N) :
  hd_error (trimStart s) = Some c -> is_space c = false.
Proof.
  induction s as [|a s IH]; simpl; [discriminate|].
  destruct (is_space a) eqn:Ha; [assumption|].
  simpl. intros H. inversion H. congruence.
Qed.

Lemma trimStart_fixed (s : jsstring) :
  (forall c, hd_error s = Some c -> is_space c = false) -> trimStart s = s.
Proof.
  destruct s as [|a s]; simpl; [reflexivity|].
  intros H. now rewrite (H a eq_refl).
Qed.

(** The blanks [trimStart] removes, then what it returns. *)
Lemma trimStart_split (s : jsstring) :
  exists blanks, s = blanks ++ trimStart s.
Proof.
  induction s as [|a s [blanks IH]]; simpl.
  - now exists [].
  - destruct (is_space a).
    + exists (a :: blanks). simpl. now f_equal.
    + now exists [].
Qed.

Lemma trimEnd_prefix (s : jsstring) :
  exists blanks, s = trimEnd s ++ blanks.
Proof.
  unfold trimEnd. destruct (trimStart_split (rev s)) as [blanks H].
  exists (rev blanks). rewrite <- rev_app_distr, <- H. now rewrite rev_involutive.
Qed.

Lemma trim_starts_clean (s : jsstring) (c : N) :
  hd_error (trim s) = Some c -> is_space c = false.
Proof.
  unfold trim. intros H.
  destruct (trimEnd_prefix (trimStart s)) as [blanks Hx].
  apply (@trimStart_clean s). rewrite Hx.
  destruct (trimEnd (trimStart s)); [discriminate|exact H].
Qed.

Lemma trim_ends_clean (s : jsstring) (c : N) :
  hd_error (rev (trim s)) = Some c -> is_space c = false.
Proof.
  unfold trim, trimEnd. rewrite rev_involutive. apply trimStart_clean.
Qed.

(** A string that neither starts nor ends with a blank is left as it is. *)
Lemma trim_fixed (s : jsstring) :
  (forall c, hd_error s = Some c -> is_space c = false) ->
  (forall c, hd_error (rev s) = Some c -> is_space c = false) ->
  trim s = s.
Proof.
  intros Hstart Hend. unfold trim, trimEnd.
  rewrite (@trimStart_fixed s Hstart), (@trimStart_fixed (rev s) Hend).
  apply rev_involutive.
Qed.

Lemma trim_trim (s : jsstring) : trim (trim s) = trim s.
Proof.
  apply trim_fixed; [apply trim_starts_clean | apply trim_ends_clean].
Qed.

Lemma length_split_where (is_sep : N -> bool) (s : jsstring) :
  length (split_where is_sep s) = S (length (filter is_sep s)).
Proof.
  induction s as [|c s IH]; simpl; [reflexivity|].
  destruct (is_sep c); simpl; [now rewrite IH|].
  destruct (split_where is_sep s); simpl in *; congruence.
Qed.

Lemma split_where_pieces (is_sep : N -> bool) (s : jsstring) :
  Forall (fun piece => filter is_sep piece = []) (split_where is_sep s).
Proof.
  induction s as [|c s IH]; simpl.
  - repeat constructor.
  - destruct (is_sep c) eqn:Hc.
    + constructor; [reflexivity | assumption].
    + destruct (split_where is_sep s) as [|piece pieces].
      * repeat constructor. simpl. now rewrite Hc.
      * inversion IH; subst. constructor; [|assumption].
        simpl. now rewrite Hc.
Qed.

Lemma join_head (sep p : jsstring) (ps : list jsstring) :
  exists rest, join sep (p :: ps) = p ++ rest.
Proof.
  destruct ps as [|q ps]; simpl.
  - exists []. now rewrite app_nil_r.
  - eauto.
Qed.

Lemma join_last (sep : jsstring) (ps : list jsstring) (p : jsstring) :
  exists rest, join sep (ps ++ [p]) = rest ++ p.
Proof.
  induction ps as [|q ps [rest IH]].
  - now exists [].
  - simpl. destruct (ps ++ [p]) as [|x l] eqn:Hl.
    + now destruct ps.
    + exists (q ++ sep ++ rest). rewrite IH. now rewrite <- !app_assoc.
Qed.

End TrimFacts.

(* ================================================================= *)
(** ** More on extraction *)

Section ExtractionExtras.

Lemma title_loop_trimmed (selectors : list Compound) (d : Document)
  (t : jsstring) :
  title_loop selectors d = Some t -> exists x, t = trim x.
Proof.
  induction selectors as [|selector rest IH]; simpl; [discriminate|].
  destruct (querySelector [selector] d) as [[r n]|]; [|assumption].
  destruct (nonempty (textContent n)); [|assumption].
  destruct (String.prefix "h1" (css selector)); [|assumption].
  intros H. inversion H. eauto.
Qed.

Lemma getArticleTitle_is_trim (d : Document) (t : jsstring) :
  getArticleTitle d = Some t -> exists x, t = trim x.
Proof.
  intros H. unfold getArticleTitle in H.
  destruct (title_loop titleSelectors d) as [t'|] eqn:Hloop.
  - inversion H; subst. eapply title_loop_trimmed; eassumption.
  - destruct (nonempty _); [inversion H; eauto|].
    destruct (nonempty (title d)); [inversion H; eauto | discriminate].
Qed.

(** The title handed to the caller never starts or ends with a blank:
    trimming it again changes nothing. *)
Theorem extracted_title_is_trimmed :
  forall (d : Document) (t : jsstring),
    getArticleTitle d = Some t ->
    trim t = t
    /\ (forall c, hd_error t = Some c -> is_space c = false)
    /\ (forall c, hd_error (rev t) = Some c -> is_space c = false).
Proof.
  intros d t H.
  destruct (getArticleTitle_is_trim _ H) as [x ->].
  split; [|split].
  - apply trim_trim.
  - apply trim_starts_clean.
  - apply trim_ends_clean.
Qed.

Lemma extracted_title_is_trimmed_witness :
  getArticleTitle news_page = Some headline
  /\ trim headline = headline
  /\ (forall c, hd_error headline = Some c -> is_space c = false)
  /\ (forall c, hd_error (rev headline) = Some c -> is_space c = false).
Proof.
  assert (H : getArticleTitle news_page = Some headline)
    by (vm_compute; reflexivity).
  split; [exact H|].
  exact (@extracted_title_is_trimmed news_page headline H).
Defined.

(** When the first [h1] of the page has text, the title is the trimmed
    text of the element found by one of the heading selectors: the
    [og:title] and the document title are not consulted, and the result is
    not [null]. *)
Theorem heading_text_wins :
  forall (d : Document) (r : Ref) (n : Node),
    querySelector [ByTag "h1"] d = Some (r, n) ->
    textContent n <> [] ->
    exists s r' n',
      In s headingSelector
      /\ querySelector [s] d = Some (r', n')
      /\ textContent n' <> []
      /\ getArticleTitle d = Some (trimmed_text n').
Proof.
  intros d r n Hh1 Htext.
  apply nonempty_true in Htext.
  unfold getArticleTitle, titleSelectors, headingSelector.
  cbn [title_loop].
  repeat
    match goal with
    | |- context [querySelector [ByTag "h1"] d] => rewrite Hh1, Htext
    | |- context [match querySelector [?s] d with _ => _ end] =>
        let q := fresh "q" in
        let Hq := fresh "Hq" in
        let Hn := fresh "Hn" in
        destruct (querySelector [s] d) as [[? q]|] eqn:Hq;
        [destruct (nonempty (textContent q)) eqn:Hn;
         [exists s; do 2 eexists;
          split; [simpl; tauto|];
          split; [exact Hq|];
          split; [now apply nonempty_true | reflexivity]
         |]
        |]
    end.
  all: exists (ByTag "h1"), r, n;
    split; [simpl; tauto|];
    split; [exact Hh1|];
    split; [now apply nonempty_true | reflexivity].
Qed.

Lemma heading_text_wins_witness :
  querySelector [ByTag "h1"] blank_heading_page
  = Some (InBody [0], tag "h1" [("class", lit "artTitle")] [Text (lit "   ")])
  /\ lit "   " <> []
  /\ exists s r' n',
       In s headingSelector
       /\ querySelector [s] blank_heading_page = Some (r', n')
       /\ textContent n' <> []
       /\ getArticleTitle blank_heading_page = Some (trimmed_text n').
Proof.
  assert (H : querySelector [ByTag "h1"] blank_heading_page
              = Some (InBody [0],
                      tag "h1" [("class", lit "artTitle")] [Text (lit "   ")]))
    by (vm_compute; reflexivity).
  assert (Ht : textContent
                 (tag "h1" [("class", lit "artTitle")] [Text (lit "   ")])
               <> [])
    by (vm_compute; discriminate).
  split; [exact H|].
  split; [discriminate|].
  exact (@heading_text_wins blank_heading_page _ _ H Ht).
Defined.

Lemma trimmed_text_fixed (n : Node) : trim (trimmed_text n) = trimmed_text n.
Proof. apply trim_trim. Qed.

(** Every fragment of the body is trimmed and longer than 50 characters,
    whichever branch collects it. *)
Lemma articleText_fragments (d : Document) :
  Forall (fun text => 50 < length text /\ trim text = text) (articleText d).
Proof.
  unfold articleText.
  destruct (mainArticleElement d) as [main|].
  - destruct (0 <? length (querySelectorAll_in paragraphSelector main)).
    + apply Forall_forall. intros text Hin.
      apply filter_In in Hin. destruct Hin as [Hin Hok].
      apply in_map_iff in Hin. destruct Hin as [p [<- _]].
      unfold paragraph_ok in Hok. apply Nat.ltb_lt in Hok.
      split; [assumption | apply trimmed_text_fixed].
    + destruct (100 <? length (trimmed_text main)) eqn:Hlen; constructor;
        [|constructor].
      apply Nat.ltb_lt in Hlen. split; [lia | apply trimmed_text_fixed].
  - apply Forall_forall. intros text Hin.
    apply filter_In in Hin. destruct Hin as [Hin Hok].
    apply in_map_iff in Hin. destruct Hin as [p [<- _]].
    unfold page_paragraph_ok in Hok. apply andb_prop in Hok.
    destruct Hok as [Hok _]. apply Nat.ltb_lt in Hok.
    split; [lia | apply trimmed_text_fixed].
Qed.

(** Fragments that are trimmed and longer than 50 characters join into a
    text that is trimmed and longer than 50 characters. *)
Lemma join_fragments (p : jsstring) (ps : list jsstring) :
  Forall (fun text => 50 < length text /\ trim text = text) (p :: ps) ->
  50 < length (join [LF; LF] (p :: ps))
  /\ trim (join [LF; LF] (p :: ps)) = join [LF; LF] (p :: ps).
Proof.
  intros Hall.
  assert (Hp : 50 < length p /\ trim p = p) by now inversion Hall.
  destruct (@exists_last _ (p :: ps)) as (front & last & Hlast);
    [discriminate|].
  assert (Hl : 50 < length last /\ trim last = last).
  { rewrite Forall_forall in Hall. apply Hall. rewrite Hlast.
    apply in_or_app. right. now left. }
  destruct (join_head [LF; LF] p ps) as [rest Hhead].
  destruct (join_last [LF; LF] front last) as [rest' Htail].
  rewrite <- Hlast in Htail.
  split.
  - rewrite Hhead, length_app. lia.
  - apply trim_fixed.
    + intros c Hc. rewrite Hhead in Hc.
      destruct Hp as [Hlen Htrim].
      apply (@trim_starts_clean p). rewrite Htrim.
      destruct p; [simpl in Hlen; lia | exact Hc].
    + intros c Hc. rewrite Htail, rev_app_distr in Hc.
      destruct Hl as [Hlen Htrim].
      apply (@trim_ends_clean last). rewrite Htrim.
      destruct (rev last) eqn:Hrev; [|exact Hc].
      apply (f_equal (@length N)) in Hrev. rewrite length_rev in Hrev.
      simpl in Hrev. lia.
Qed.

Lemma getArticleBody_is_join (d : Document) (b : jsstring) :
  getArticleBody d = Some b ->
  exists p ps, articleText d = p :: ps /\ b = join [LF; LF] (p :: ps).
Proof.
  unfold getArticleBody.
  destruct (articleText d) as [|p ps]; [discriminate|].
  intros H. exists p, ps. split; [reflexivity|].
  change (Some (join [LF; LF] (p :: ps)) = Some b) in H. congruence.
Qed.

(** The body handed to the caller is never the empty string: it has more
    than 50 characters, and it neither starts nor ends with a blank. *)
Theorem extracted_body_is_substantial :
  forall (d : Document) (b : jsstring),
    getArticleBody d = Some b ->
    50 < length b /\ trim b = b.
Proof.
  intros d b H.
  destruct (getArticleBody_is_join _ H) as (p & ps & Htexts & ->).
  apply join_fragments. rewrite <- Htexts.
  apply articleText_fragments.
Qed.

Lemma extracted_body_is_substantial_witness :
  getArticleBody news_page = Some dog_story
  /\ 50 < length dog_story /\ trim dog_story = dog_story.
Proof.
  assert (H : getArticleBody news_page = Some dog_story)
    by (vm_compute; reflexivity).
  split; [exact H|].
  exact (@extracted_body_is_substantial news_page dog_story H).
Defined.

Lemma page_paragraph_ok_spaces (text : jsstring) :
  page_paragraph_ok text
  = (100 <? length text) && (10 <=? length (filter (N.eqb SPACE) text)).
Proof.
  unfold page_paragraph_ok, split. rewrite length_split_where. reflexivity.
Qed.

(** Without a container the fragments are the trimmed texts of all [p]
    and [div.Normal] elements of the page; the ones kept have more than 100
    characters and at least 10 spaces, and the body is [null] when none is
    kept. *)
Theorem page_paragraphs_without_container :
  forall (d : Document),
    mainArticleElement d = None ->
    let fragments :=
      map (fun p => trimmed_text (snd p))
        (querySelectorAll paragraphSelector d) in
    let kept :=
      filter
        (fun text =>
           (100 <? length text)
           && (10 <=? length (filter (N.eqb SPACE) text)))
        fragments in
    getArticleBody d
    = match kept with
      | [] => None
      | _ :: _ => Some (join [LF; LF] kept)
      end.
Proof.
  intros d Hnone fragments kept.
  assert (Hkept : filter page_paragraph_ok fragments = kept)
    by apply filter_ext, page_paragraph_ok_spaces.
  unfold getArticleBody, articleText. rewrite Hnone. fold fragments.
  rewrite Hkept. now destruct kept.
Qed.

End ExtractionExtras.

(* ================================================================= *)
(** ** More on rendering *)

Section RenderingExtras.

Context {browser : Browser}.

Lemma length_update_nth {A : Type} (g : A -> A) (l : list A) :
  forall i, length (update_nth i g l) = length l.
Proof.
  induction l as [|x l IH]; intros [|i]; simpl; auto.
Qed.

Lemma nth_error_update_nth_other {A : Type} (g : A -> A) (l : list A) :
  forall i j, i <> j -> nth_error (update_nth i g l) j = nth_error l j.
Proof.
  induction l as [|x l IH]; intros [|i] [|j] Hij; simpl; auto.
  congruence.
Qed.

(** A change at one path leaves the nodes at the paths that part from it. *)
Lemma get_modify_forest_other (g : Node -> Node) (p : Path) :
  forall q f,
    diverge p q = true ->
    get_forest (modify_forest g p f) q = get_forest f q.
Proof.
  induction p as [|i p IH]; intros q f Hd; [reflexivity|].
  destruct q as [|j q]; [discriminate|].
  simpl in Hd. simpl.
  destruct (Nat.eqb_spec i j) as [<- | Hij].
  - rewrite nth_error_update_nth.
    destruct (nth_error f i) as [c|]; [|reflexivity]. simpl.
    destruct p as [|i' p]; [discriminate|].
    destruct q as [|j' q]; [discriminate|].
    destruct c as [data | e cs]; [reflexivity|].
    now apply IH.
  - now rewrite nth_error_update_nth_other.
Qed.

(** [updateArticleBody] works in place: when the container lies in
    [body], every node of [body] whose path parts from the path of the
    container is left as it was, [body] keeps its number of children, and
    [head] gains the link to the font and nothing else. *)
Theorem updateArticleBody_in_place :
  forall (songLyrics : jsstring) (d : Document) (p : Path) (container : Node),
    container_loop articleBodyContainerSelectors d
    = Some (InBody p, container) ->
    let d' := fst (updateArticleBody (Some songLyrics) d) in
    head d' = head d ++ [fontLink]
    /\ length (body d') = length (body d)
    /\ forall q,
         diverge p q = true -> deref d' (InBody q) = deref d (InBody q).
Proof.
  intros songLyrics d p container Hloop d'. subst d'.
  unfold updateArticleBody. rewrite Hloop. simpl.
  repeat split.
  - destruct p as [|i p]; simpl; [reflexivity|].
    now rewrite !length_update_nth.
  - intros q Hq. now rewrite !get_modify_forest_other.
Qed.

(** A successful response without lyrics, on a page where the container
    loop finds a container once the title is rewritten: the container is
    left empty, the promise of [transformArticle] is rejected with the
    TypeError of the read of [split], the flag is not set and no
    notification replaces the one on display. *)
Theorem success_without_lyrics_is_half_rendered :
  forall (p : Page) (r : TransformResponse) (ref : Ref) (container : Node),
    success r = true ->
    songLyrics r = None ->
    container_loop articleBodyContainerSelectors
      (updateArticleTitle (movieTitle r) (document p))
    = Some (ref, container) ->
    let p' := fst (transformArticle_resume (Some r) p) in
    snd (transformArticle_resume (Some r) p)
    = Some (cannot_read "undefined" "split")
    /\ isTransformed p' = isTransformed p
    /\ messageBox p' = messageBox p
    /\ deref (document p') ref = Some (set_children [] container).
Proof.
  intros p r ref container Hs Hl Hloop p'. subst p'.
  unfold transformArticle_resume. rewrite Hs, Hl.
  unfold updateArticleBody, with_document, record.
  cbn [document messageBox isTransformed awaiting calls].
  rewrite Hloop.
  cbn [fst snd document messageBox isTransformed awaiting calls].
  repeat split.
  apply deref_modify. eapply container_loop_deref; eassumption.
Qed.

(** Each paragraph of the block holds one line of the lyrics: its text has
    no line feed and is not blank, the signature included; and there are at
    most as many paragraphs as line feeds in the lyrics, plus two. *)
Theorem lyrics_block_paragraphs :
  forall (songLyrics : jsstring),
    Forall
      (fun n =>
         filter (N.eqb LF) (textContent n) = []
         /\ trim (textContent n) <> [])
      (children (lyricsContainer songLyrics))
    /\ length (children (lyricsContainer songLyrics))
       <= length (filter (N.eqb LF) songLyrics) + 2.
Proof.
  intros songLyrics.
  change (children (lyricsContainer songLyrics))
    with (map paragraph (lyric_lines songLyrics) ++ [signature]).
  split.
  - apply Forall_app. split.
    + apply Forall_forall. intros n Hin.
      apply in_map_iff in Hin. destruct Hin as [line [<- Hin]].
      rewrite textContent_paragraph.
      unfold lyric_lines in Hin. apply filter_In in Hin.
      destruct Hin as [Hin Hne]. split.
      * pose proof (split_where_pieces (N.eqb LF) songLyrics) as Hall.
        rewrite Forall_forall in Hall. now apply Hall.
      * now apply nonempty_true.
    + constructor; [|constructor]. split; [reflexivity|].
      vm_compute. discriminate.
  - rewrite length_app, length_map. simpl.
    unfold lyric_lines.
    pose proof (filter_length_le (fun line => nonempty (trim line))
                  (split LF songLyrics)) as Hle.
    unfold split in *. rewrite length_split_where in Hle. lia.
Qed.

End RenderingExtras.

Section RenderingExamples.

#[local] Existing Instance example_browser.

Lemma page_paragraphs_without_container_witness :
  mainArticleElement loose_page = None
  /\ getArticleBody loose_page = Some dog_story.
Proof.
  assert (H : mainArticleElement loose_page = None)
    by (vm_compute; reflexivity).
  split; [exact H|].
  exact (@page_paragraphs_without_container loose_page H).
Defined.

Lemma updateArticleBody_in_place_witness :
  container_loop articleBodyContainerSelectors news_page
  = Some (InBody [1], news_article)
  /\ diverge [1] [0] = true
  /\ head (fst (updateArticleBody (Some lyrics) news_page))
     = head news_page ++ [fontLink]
  /\ length (body (fst (updateArticleBody (Some lyrics) news_page))) = 2
  /\ deref (fst (updateArticleBody (Some lyrics) news_page)) (InBody [0])
     = Some (tag "h1" [] [Text headline]).
Proof.
  assert (H : container_loop articleBodyContainerSelectors news_page
              = Some (InBody [1], news_article))
    by (vm_compute; reflexivity).
  pose proof (@updateArticleBody_in_place example_browser lyrics news_page [1]
                news_article H)
    as (Hhead & Hlen & Hrest).
  split; [exact H|].
  split; [reflexivity|].
  split; [exact Hhead|].
  split; [exact Hlen|].
  exact (Hrest [0] eq_refl).
Defined.

Lemma success_without_lyrics_is_half_rendered_witness :
  success lyricless_response = true
  /\ songLyrics lyricless_response = None
  /\ container_loop articleBodyContainerSelectors
       (updateArticleTitle (movieTitle lyricless_response)
          (document (loaded news_page)))
     = Some (InBody [1], news_article)
  /\ (let p' :=
        fst (transformArticle_resume (Some lyricless_response)
               (loaded news_page)) in
      snd (transformArticle_resume (Some lyricless_response)
             (loaded news_page))
      = Some (cannot_read "undefined" "split")
      /\ isTransformed p' = isTransformed (loaded news_page)
      /\ messageBox p' = messageBox (loaded news_page)
      /\ deref (document p') (InBody [1])
         = Some (set_children [] news_article)).
Proof.
  assert (H : container_loop articleBodyContainerSelectors
                (updateArticleTitle (movieTitle lyricless_response)
                   (document (loaded news_page)))
              = Some (InBody [1], news_article))
    by (vm_compute; reflexivity).
  split; [reflexivity|].
  split; [reflexivity|].
  split; [exact H|].
  exact (@success_without_lyrics_is_half_rendered example_browser
           (loaded news_page)
           lyricless_response (InBody [1]) news_article
           eq_refl eq_refl H).
Defined.

End RenderingExamples.

(* ================================================================= *)
(** ** Selectors after a change of the document *)

Section SelectorsAfterChange.

(** A test on elements that looks at the name, the namespace and the
    attributes only. *)
Variable m : Node -> bool.

Hypothesis m_data :
  forall e e' cs cs',
    localName e' = localName e ->
    namespace e' = namespace e ->
    attributes e' = attributes e ->
    m (Elem e' cs') = m (Elem e cs).

Variable g : Node -> Node.

(** The change keeps a text a text, and leaves an element its name, its
    namespace and its attributes and no element below it. *)
Hypothesis g_text : forall data, exists data', g (Text data) = Text data'.
Hypothesis g_element :
  forall e cs,
    exists e' cs',
      g (Elem e cs) = Elem e' cs'
      /\ walk_from 0 cs' = []
      /\ localName e' = localName e
      /\ namespace e' = namespace e
      /\ attributes e' = attributes e.

Let found (pe : Path * Node) : bool := m (snd pe).

(** The first element of the document that passes the test. *)
Let first (d : Document) : option (Ref * Node) :=
  hd_error (filter (fun rn => m (snd rn)) (elements d)).

Lemma find_walk_from_path (k : nat) (f : list Node) (p : Path) (n : Node) :
  find found (walk_from k f) = Some (p, n) ->
  exists j q, p = (k + j) :: q.
Proof.
  intros H. apply find_some in H. destruct H as [Hin _].
  apply walk_from_In in Hin. destruct Hin as (j & q & c & -> & _). eauto.
Qed.

Lemma none_in_tree_forest (q : Path) :
  (forall c, find found (walk c) = None ->
             find found (walk (modify_node g q c)) = None) ->
  forall f j k,
    find found (walk_from k f) = None ->
    find found (walk_from k (update_nth j (modify_node g q) f)) = None.
Proof.
  intros Htree. induction f as [|c f IH]; intros j k H; [now destruct j|].
  rewrite walk_from_cons, find_app in H.
  unfold found in H at 1. rewrite find_map_snd in H by reflexivity.
  fold found in H.
  destruct (find found (walk c)) as [x|] eqn:Hc; [discriminate|].
  simpl in H.
  destruct j as [|j]; simpl; rewrite walk_from_cons, find_app;
    unfold found at 1; rewrite find_map_snd by reflexivity; fold found.
  - rewrite (Htree c Hc). exact H.
  - rewrite Hc. simpl. now apply IH.
Qed.

Lemma find_walk_elem (e : ElementData) (cs : list Node) :
  find found (walk (Elem e cs))
  = if m (Elem e cs) then Some ([], Elem e cs)
    else find found (walk_from 0 cs).
Proof. reflexivity. Qed.

Lemma none_in_tree (q : Path) :
  forall c,
    find found (walk c) = None ->
    find found (walk (modify_node g q c)) = None.
Proof.
  induction q as [|j q IH]; intros [data | e cs] H.
  - simpl. destruct (g_text data) as [data' ->]. reflexivity.
  - rewrite find_walk_elem in H.
    destruct (m (Elem e cs)) eqn:Hm; [discriminate|].
    unfold modify_node.
    destruct (g_element e cs) as (e' & cs' & -> & Hcs & Hn & Hns & Ha).
    rewrite find_walk_elem, Hcs.
    now rewrite (m_data e e' cs cs' Hn Hns Ha), Hm.
  - exact H.
  - rewrite find_walk_elem in H.
    destruct (m (Elem e cs)) eqn:Hm; [discriminate|].
    change (modify_node g (j :: q) (Elem e cs))
      with (Elem e (modify_forest g (j :: q) cs)).
    rewrite find_walk_elem.
    rewrite (m_data e e cs (modify_forest g (j :: q) cs)
               eq_refl eq_refl eq_refl), Hm.
    rewrite modify_forest_cons. now apply none_in_tree_forest.
Qed.

(** A selector that matches nothing matches nothing after the change. *)
Lemma none_after_change (p : Path) (f : list Node) (k : nat) :
  find found (walk_from k f) = None ->
  find found (walk_from k (modify_forest g p f)) = None.
Proof.
  destruct p as [|j q]; [auto|].
  rewrite modify_forest_cons.
  apply none_in_tree_forest, none_in_tree.
Qed.

Lemma first_in_tree_forest (q : Path) :
  (forall c n, find found (walk c) = Some (q, n) ->
               find found (walk (modify_node g q c)) = Some (q, g n)) ->
  forall f j k n,
    find found (walk_from k f) = Some ((k + j) :: q, n) ->
    find found (walk_from k (update_nth j (modify_node g q) f))
    = Some ((k + j) :: q, g n).
Proof.
  intros Htree. induction f as [|c f IH]; intros j k n H; [discriminate|].
  rewrite walk_from_cons, find_app in H.
  unfold found in H at 1. rewrite find_map_snd in H by reflexivity.
  fold found in H.
  destruct (find found (walk c)) as [[q0 n0]|] eqn:Hc.
  - simpl in H. unfold under in H. simpl in H.
    injection H as Hk Hq Hn.
    assert (Hj : j = 0) by lia. subst j q0 n0. clear Hk.
    rewrite Nat.add_0_r.
    simpl. rewrite walk_from_cons, find_app.
    unfold found at 1. rewrite find_map_snd by reflexivity. fold found.
    rewrite (Htree c n Hc). reflexivity.
  - simpl in H.
    destruct (find_walk_from_path _ _ H) as (j' & q' & Hp).
    injection Hp as Hk Hq.
    assert (Hj : j = S j') by lia. subst j. clear Hk Hq.
    simpl. rewrite walk_from_cons, find_app.
    unfold found at 1. rewrite find_map_snd by reflexivity. fold found.
    rewrite Hc. simpl.
    replace (k + S j') with (S k + j') in * by lia.
    now apply IH.
Qed.

Lemma first_in_tree (q : Path) :
  forall c n,
    find found (walk c) = Some (q, n) ->
    find found (walk (modify_node g q c)) = Some (q, g n).
Proof.
  induction q as [|j q IH]; intros [data | e cs] n H; try discriminate.
  - rewrite find_walk_elem in H.
    destruct (m (Elem e cs)) eqn:Hm.
    + inversion H; subst. unfold modify_node.
      destruct (g_element e cs) as (e' & cs' & -> & Hcs & Hn & Hns & Ha).
      rewrite find_walk_elem.
      now rewrite (m_data e e' cs cs' Hn Hns Ha), Hm.
    + destruct (find_walk_from_path _ _ H) as (j & q & Hp). discriminate.
  - rewrite find_walk_elem in H.
    destruct (m (Elem e cs)) eqn:Hm; [discriminate|].
    change (modify_node g (j :: q) (Elem e cs))
      with (Elem e (modify_forest g (j :: q) cs)).
    rewrite find_walk_elem.
    rewrite (m_data e e cs (modify_forest g (j :: q) cs)
               eq_refl eq_refl eq_refl), Hm.
    rewrite modify_forest_cons.
    apply (@first_in_tree_forest q IH cs j 0 n). exact H.
Qed.

(** The first match of a selector, once changed, is still its first
    match. *)
Lemma first_after_change (p : Path) (f : list Node) (n : Node) :
  find found (walk_from 0 f) = Some (p, n) ->
  find found (walk_from 0 (modify_forest g p f)) = Some (p, g n).
Proof.
  intros H. destruct (find_walk_from_path _ _ H) as (j & q & ->).
  rewrite modify_forest_cons.
  now apply first_in_tree_forest; [apply first_in_tree|].
Qed.

Lemma first_find (d : Document) :
  first d
  = match find found (walk_from 0 (head d)) with
    | Some x => Some (at_ref InHead x)
    | None => option_map (at_ref InBody) (find found (walk_from 0 (body d)))
    end.
Proof.
  unfold first, elements.
  rewrite hd_filter_find, find_app.
  rewrite !(@find_map_snd _ _ m) by reflexivity.
  fold found. unfold walk_forest, walk_from.
  now destruct (find found _).
Qed.

(** The first element that passes the test, once changed, is still the
    first one: the same reference, to the changed element. *)
Lemma first_after_change_of (d : Document) (r : Ref) (n : Node) :
  first d = Some (r, n) -> first (modify g r d) = Some (r, g n).
Proof.
  rewrite !first_find.
  destruct (find found (walk_from 0 (head d))) as [[p x]|] eqn:Hh.
  - intros H. inversion H; subst. simpl.
    now rewrite (first_after_change _ Hh).
  - destruct (find found (walk_from 0 (body d))) as [[p x]|] eqn:Hb;
      [|discriminate].
    intros H. inversion H; subst. simpl.
    now rewrite Hh, (first_after_change _ Hb).
Qed.

(** No element passes the test after a change if none did before. *)
Lemma first_none_after_change (d : Document) (r : Ref) :
  first d = None -> first (modify g r d) = None.
Proof.
  rewrite !first_find.
  destruct (find found (walk_from 0 (head d))) as [x|] eqn:Hh;
    [discriminate|].
  destruct (find found (walk_from 0 (body d))) as [x|] eqn:Hb;
    [discriminate|].
  intros _. destruct r as [p | p]; simpl.
  - now rewrite (none_after_change p _ _ Hh), Hb.
  - now rewrite Hh, (none_after_change p _ _ Hb).
Qed.

(** An element appended to [head] is the first to pass the test when none
    did before and it does. *)
Lemma first_appended (d : Document) (e : ElementData) (cs : list Node) :
  first d = None ->
  m (Elem e cs) = true ->
  first (mkDocument (head d ++ [Elem e cs]) (body d))
  = Some (InHead [length (head d)], Elem e cs).
Proof.
  intros Hq Hm. rewrite first_find in Hq. rewrite first_find. cbn [head body].
  destruct (find found (walk_from 0 (head d))) as [x|] eqn:Hh;
    [discriminate|].
  rewrite walk_from_app, find_app, Hh.
  rewrite walk_from_cons, find_app.
  unfold found at 1. rewrite (@find_map_snd _ _ m) by reflexivity.
  rewrite walk_elem. cbn [find snd]. now rewrite Hm.
Qed.

End SelectorsAfterChange.

Section SelectorsAndTitle.

Variable g : Node -> Node.
Hypothesis g_text : forall data, exists data', g (Text data) = Text data'.
Hypothesis g_element :
  forall e cs,
    exists e' cs',
      g (Elem e cs) = Elem e' cs'
      /\ walk_from 0 cs' = []
      /\ localName e' = localName e
      /\ namespace e' = namespace e
      /\ attributes e' = attributes e.

Lemma matches_any_looks_at_data (s : Selector) :
  forall e e' cs cs',
    localName e' = localName e ->
    namespace e' = namespace e ->
    attributes e' = attributes e ->
    matches_any s (Elem e' cs') = matches_any s (Elem e cs).
Proof. intros e e' cs cs' Hn _ Ha. now apply matches_any_data. Qed.

Lemma is_html_title_looks_at_data :
  forall e e' cs cs',
    localName e' = localName e ->
    namespace e' = namespace e ->
    attributes e' = attributes e ->
    is_html_title (Elem e' cs') = is_html_title (Elem e cs).
Proof. intros e e' cs cs' Hn Hns _. simpl. now rewrite Hn, Hns. Qed.

(** [querySelector] after the element it returned was changed: the same
    reference, to the changed element. *)
Lemma querySelector_after_change (s : Selector) (d : Document) (r : Ref)
  (n : Node) :
  querySelector s d = Some (r, n) ->
  querySelector s (modify g r d) = Some (r, g n).
Proof.
  exact (@first_after_change_of (matches_any s)
           (matches_any_looks_at_data s) g g_element d r n).
Qed.

(** [querySelector] finds nothing after a change if it found nothing
    before. *)
Lemma querySelector_none_after_change (s : Selector) (d : Document)
  (r : Ref) :
  querySelector s d = None ->
  querySelector s (modify g r d) = None.
Proof.
  exact (@first_none_after_change (matches_any s)
           (matches_any_looks_at_data s) g g_text g_element d r).
Qed.

(** The [title] element after it was changed. *)
Lemma title_element_after_change (d : Document) (r : Ref) (n : Node) :
  title_element d = Some (r, n) ->
  title_element (modify g r d) = Some (r, g n).
Proof.
  exact (@first_after_change_of is_html_title is_html_title_looks_at_data
           g g_element d r n).
Qed.

End SelectorsAndTitle.

Section SelectorsAppended.

Lemma querySelector_find (s : Selector) (d : Document) :
  querySelector s d
  = match
      find (fun pe : Path * Node => matches_any s (snd pe))
        (walk_from 0 (head d))
    with
    | Some x => Some (at_ref InHead x)
    | None =>
        option_map (at_ref InBody)
          (find (fun pe : Path * Node => matches_any s (snd pe))
             (walk_from 0 (body d)))
    end.
Proof. exact (first_find (matches_any s) d). Qed.

Lemma title_element_appended (d : Document) (e : ElementData)
  (cs : list Node) :
  title_element d = None ->
  is_html_title (Elem e cs) = true ->
  title_element (mkDocument (head d ++ [Elem e cs]) (body d))
  = Some (InHead [length (head d)], Elem e cs).
Proof. exact (@first_appended is_html_title d e cs). Qed.

Lemma title_element_is_element (d : Document) (r : Ref) (n : Node) :
  title_element d = Some (r, n) -> exists e cs, n = Elem e cs.
Proof.
  unfold title_element. intros H.
  apply hd_error_In, filter_In in H. destruct H as [_ H].
  destruct n as [data | e cs]; [discriminate | eauto].
Qed.

End SelectorsAppended.

(* ================================================================= *)
(** ** The title after it was rewritten *)

Section TitleRoundTrip.

Lemma heading_is_h1 (n : Node) :
  matches_any headingSelector n = matches_any [ByTag "h1"] n.
Proof.
  unfold matches_any, headingSelector. simpl.
  destruct (has_tag "h1" n); simpl; [|reflexivity].
  now rewrite !orb_true_r.
Qed.

Lemma querySelector_heading (d : Document) :
  querySelector headingSelector d = querySelector [ByTag "h1"] d.
Proof.
  unfold querySelector, querySelectorAll. f_equal.
  apply filter_ext. intros rn. apply heading_is_h1.
Qed.

Lemma heading_change_text (v : jsstring) :
  forall data, exists data',
    restyle_heading (set_textContent v (Text data)) = Text data'.
Proof. intros data. now exists v. Qed.

Lemma heading_change_element (v : jsstring) :
  forall e cs,
    exists e' cs',
      restyle_heading (set_textContent v (Elem e cs)) = Elem e' cs'
      /\ walk_from 0 cs' = []
      /\ localName e' = localName e
      /\ namespace e' = namespace e
      /\ attributes e' = attributes e.
Proof.
  intros e cs. do 2 eexists. split; [reflexivity|].
  split; [now destruct (nonempty v) | repeat split].
Qed.

Lemma set_textContent_text (v : jsstring) :
  forall data, exists data', set_textContent v (Text data) = Text data'.
Proof. intros data. now exists v. Qed.

Lemma set_textContent_element (v : jsstring) :
  forall e cs,
    exists e' cs',
      set_textContent v (Elem e cs) = Elem e' cs'
      /\ walk_from 0 cs' = []
      /\ localName e' = localName e
      /\ namespace e' = namespace e
      /\ attributes e' = attributes e.
Proof.
  intros e cs. do 2 eexists. split; [reflexivity|].
  split; [now destruct (nonempty v) | repeat split].
Qed.

Lemma textContent_set (v : jsstring) (e : ElementData) (cs : list Node) :
  textContent (set_textContent v (Elem e cs)) = v.
Proof.
  simpl. destruct v; simpl; [reflexivity|]. now rewrite app_nil_r.
Qed.

Lemma child_text_set (v : jsstring) (e : ElementData) (cs : list Node) :
  child_text (set_textContent v (Elem e cs)) = v.
Proof.
  unfold child_text. simpl. destruct v; simpl; [reflexivity|].
  now rewrite app_nil_r.
Qed.

Lemma movie_heading_trimmed (t : option jsstring) :
  trim (movie_heading t) = movie_heading t /\ movie_heading t <> [].
Proof.
  split; [|discriminate].
  apply trim_fixed.
  - intros c H. unfold movie_heading in H. simpl in H.
    inversion H. reflexivity.
  - intros c H. unfold movie_heading, notes in H.
    rewrite !app_assoc in H.
    change [0xD83C%N; 0xDFB6%N] with ([0xD83C%N] ++ [0xDFB6%N]) in H.
    rewrite app_assoc, rev_app_distr in H. simpl in H.
    inversion H. reflexivity.
Qed.

(** The steps of the loop of [getArticleTitle] on a document whose
    heading was rewritten. *)
Lemma title_loop_rewritten (v : jsstring) (d : Document) (r : Ref)
  (n : Node) (before : list Compound) (selector : Compound)
  (after : list Compound) :
  (forall s, In s before -> querySelector [s] d = None) ->
  querySelector [selector] d = Some (r, n) ->
  String.prefix "h1" (css selector) = true ->
  v <> [] ->
  title_loop (before ++ selector :: after)
    (modify (fun n => restyle_heading (set_textContent v n)) r d)
  = Some (trim v).
Proof.
  intros Hbefore Hq Hh1 Hv.
  induction before as [|s before IH]; simpl.
  - rewrite (@querySelector_after_change
               (fun n => restyle_heading (set_textContent v n))
               (heading_change_element v) [selector] d r n Hq).
    destruct (querySelector_element _ _ Hq) as (e & cs & ->).
    change (textContent (restyle_heading (set_textContent v (Elem e cs))))
      with (textContent (set_textContent v (Elem e cs))).
    rewrite textContent_set, Hh1.
    apply nonempty_true in Hv. now rewrite Hv.
  - rewrite (@querySelector_none_after_change
               (fun n => restyle_heading (set_textContent v n))
               (heading_change_text v) (heading_change_element v) [s] d r
               (Hbefore s (or_introl eq_refl))).
    apply IH. intros s' Hin. apply Hbefore. now right.
Qed.

(** Closes the case where [selector], coming after the selectors
    [before] that match nothing, is the one whose match was rewritten. *)
Ltac rewritten_at t d r n before selector after Hq Hne Htrim :=
  change titleSelectors with (before ++ selector :: after);
  rewrite (@title_loop_rewritten (movie_heading t) d r n before selector
             after);
  [ now rewrite Htrim
  | let s := fresh "s" in
    let Hin := fresh "Hin" in
    intros s Hin; simpl in Hin;
    repeat (destruct Hin as [<- | Hin]; [assumption|]);
    contradiction
  | exact Hq
  | reflexivity
  | exact Hne ].

(** After [updateArticleTitle] rewrote a heading, [getArticleTitle] reads
    the new heading: the movie title between its two emojis. *)
Theorem rewritten_title_is_extracted :
  forall (d : Document) (t : option jsstring),
    querySelectorAll headingSelector d <> [] ->
    getArticleTitle (updateArticleTitle t d) = Some (movie_heading t).
Proof.
  intros d t Hsome.
  destruct (movie_heading_trimmed t) as [Htrim Hne].
  unfold updateArticleTitle.
  destruct (querySelectorAll headingSelector d) as [|[r0 n0] rest] eqn:Hall;
    [contradiction|].
  cbn [length Nat.ltb Nat.leb].
  assert (H5 : querySelector [ByTag "h1"] d = Some (r0, n0)).
  { rewrite <- querySelector_heading. unfold querySelector.
    now rewrite Hall. }
  cbn [hd_error].
  unfold getArticleTitle.
  destruct (querySelector [ByClass "h1" "artTitle"] d)
    as [[r1 n1]|] eqn:H1; cbn [or_ref].
  { rewritten_at t d r1 n1 (@nil Compound) (ByClass "h1" "artTitle")
      [ByAttrValue "h1" "itemprop" "headline"; ByClass "h1" "story-title";
       ByClass "h1" "headline"; ByTag "h1";
       ByAttrValue "meta" "property" "og:title"; ByTag "title"]
      H1 Hne Htrim. }
  destruct (querySelector [ByAttrValue "h1" "itemprop" "headline"] d)
    as [[r2 n2]|] eqn:H2; cbn [or_ref].
  { rewritten_at t d r2 n2 [ByClass "h1" "artTitle"]
      (ByAttrValue "h1" "itemprop" "headline")
      [ByClass "h1" "story-title"; ByClass "h1" "headline"; ByTag "h1";
       ByAttrValue "meta" "property" "og:title"; ByTag "title"]
      H2 Hne Htrim. }
  destruct (querySelector [ByClass "h1" "story-title"] d)
    as [[r3 n3]|] eqn:H3; cbn [or_ref].
  { rewritten_at t d r3 n3
      [ByClass "h1" "artTitle"; ByAttrValue "h1" "itemprop" "headline"]
      (ByClass "h1" "story-title")
      [ByClass "h1" "headline"; ByTag "h1";
       ByAttrValue "meta" "property" "og:title"; ByTag "title"]
      H3 Hne Htrim. }
  destruct (querySelector [ByClass "h1" "headline"] d)
    as [[r4 n4]|] eqn:H4; cbn [or_ref].
  { rewritten_at t d r4 n4
      [ByClass "h1" "artTitle"; ByAttrValue "h1" "itemprop" "headline";
       ByClass "h1" "story-title"]
      (ByClass "h1" "headline")
      [ByTag "h1"; ByAttrValue "meta" "property" "og:title"; ByTag "title"]
      H4 Hne Htrim. }
  rewritten_at t d r0 n0
    [ByClass "h1" "artTitle"; ByAttrValue "h1" "itemprop" "headline";
     ByClass "h1" "story-title"; ByClass "h1" "headline"]
    (ByTag "h1")
    [ByAttrValue "meta" "property" "og:title"; ByTag "title"]
    H5 Hne Htrim.
Qed.

Lemma rewritten_title_is_extracted_witness :
  querySelectorAll headingSelector news_page <> []
  /\ getArticleTitle
       (updateArticleTitle (Some (lit "Buddy: The Golden Heart")) news_page)
     = Some (movie_heading (Some (lit "Buddy: The Golden Heart"))).
Proof.
  assert (H : querySelectorAll headingSelector news_page <> [])
    by (vm_compute; discriminate).
  split; [exact H|].
  exact (@rewritten_title_is_extracted news_page
           (Some (lit "Buddy: The Golden Heart")) H).
Defined.

(** On a page without any [h1], [updateArticleTitle] sets the title of
    the document: [document.title] then reads the new title with its
    whitespace stripped and collapsed; [body] is as it was unless the
    [title] element of the page lies in it; and on a page without a
    [title] element, one of inline SVG not being one, an HTML [title]
    holding the new title is added at the end of [head]. *)
Theorem title_fallback_sets_document_title :
  forall (d : Document) (t : option jsstring),
    querySelectorAll headingSelector d = [] ->
    title (updateArticleTitle t d) = strip_and_collapse (interpolate t)
    /\ match title_element d with
       | Some (InBody _, _) => True
       | _ => body (updateArticleTitle t d) = body d
       end
    /\ (title_element d = None ->
        head (updateArticleTitle t d)
        = head d
          ++ [Elem (createElement "title" [])
                (if nonempty (interpolate t) then [Text (interpolate t)]
                 else [])]).
Proof.
  intros d t Hnone. unfold updateArticleTitle. rewrite Hnone.
  cbn [length Nat.ltb Nat.leb]. unfold set_title.
  destruct (title_element d) as [[r n]|] eqn:Hq.
  - split; [|split; [now destruct r | discriminate]].
    unfold title.
    rewrite (@title_element_after_change (set_textContent (interpolate t))
               (set_textContent_element (interpolate t)) d r n Hq).
    destruct (title_element_is_element _ Hq) as (e & cs & ->).
    now rewrite child_text_set.
  - split; [|split; [reflexivity | intros _; reflexivity]].
    unfold title.
    change (set_textContent (interpolate t)
              (Elem (createElement "title" []) []))
      with (Elem (createElement "title" [])
              (if nonempty (interpolate t) then [Text (interpolate t)]
               else [])).
    rewrite (@title_element_appended d (createElement "title" [])
               (if nonempty (interpolate t) then [Text (interpolate t)]
                else []) Hq eq_refl).
    f_equal.
    apply (child_text_set (interpolate t) (createElement "title" []) []).
Qed.

Lemma title_fallback_sets_document_title_witness :
  querySelectorAll headingSelector untitled_page = []
  /\ title (updateArticleTitle (Some (lit "  Buddy:  The Golden Heart "))
              untitled_page)
     = lit "Buddy: The Golden Heart"
  /\ body (updateArticleTitle (Some (lit "  Buddy:  The Golden Heart "))
             untitled_page)
     = body untitled_page.
Proof.
  assert (H : querySelectorAll headingSelector untitled_page = [])
    by (vm_compute; reflexivity).
  pose proof (@title_fallback_sets_document_title untitled_page
                (Some (lit "  Buddy:  The Golden Heart ")) H)
    as (Htitle & Hbody & _).
  split; [exact H|].
  split; [exact Htitle | exact Hbody].
Defined.

(** On the page whose only [title] lies in an inline SVG drawing:
    [document.title] is empty, the title is not extracted from it, and
    [updateArticleTitle] adds an HTML [title] to [head], leaving the
    drawing as it is. *)
Example drawing_title_is_not_the_title :
  title drawing_page = []
  /\ getArticleTitle drawing_page = None
  /\ updateArticleTitle (Some (lit "Buddy")) drawing_page
     = mkDocument [tag "title" [] [Text (lit "Buddy")]] (body drawing_page).
Proof. vm_compute. repeat split. Qed.

End TitleRoundTrip.

(* ================================================================= *)
(** ** More on transformArticle *)

Section RunExtras.

Context {browser : Browser}.

Lemma accounted_begin (d : Document) (p : Page) :
  accounted d p -> accounted d (fst (transformArticle_begin p)).
Proof.
  unfold accounted. intros (Hd & Hb & Hs & He & Hf).
  destruct (begin_keeps p) as (Hd1 & Hf1 & Ht1 & Hb1).
  pose proof (begin_sends p) as Hsends.
  rewrite Hd1, Hf1, Ht1, Hb1.
  destruct (isTransformed p) eqn:Hflag.
  - rewrite (begin_when_transformed _ Hflag) in *. cbn [fst] in *. auto.
  - pose proof (begin_extracts p Hflag) as Hextracts.
    destruct (snd (transformArticle_begin p)) as [request|];
      cbn zeta in Hsends; repeat split; auto; lia.
Qed.

Lemma accounted_resume (d : Document) (p : Page)
  (response : option TransformResponse) :
  accounted d p ->
  0 < awaiting p ->
  accounted d (fst (transformArticle_resume response (resumed p))).
Proof.
  unfold accounted. intros (Hd & Hb & Hs & He & Hf) Hw.
  destruct (resume_keeps response (resumed p)) as (He1 & Hs1 & Hw1 & Hup).
  assert (Hr : count is_title_rewrite (resumed p) = count is_title_rewrite p
               /\ count is_body_rewrite (resumed p) = count is_body_rewrite p
               /\ count is_send (resumed p) = count is_send p
               /\ count is_extraction (resumed p) = count is_extraction p
               /\ awaiting (resumed p) = pred (awaiting p))
    by (unfold count; cbn; auto).
  destruct Hr as (Rt & Rb & Rs & Re & Rw).
  rewrite He1, Hs1, Hw1, Rs, Re, Rw.
  destruct (resume_counts response (resumed p))
    as [(Hf2 & Hd2 & Ht2 & Hb2) | (Ht2 & Hb2)];
    rewrite ?Hf2, ?Hd2, ?Ht2, ?Hb2, ?Rt, ?Rb; cbn [resumed document isTransformed];
    repeat split; auto; lia.
Qed.

Lemma accounted_step (d : Document) (p : Page) (e : Event) :
  accounted d p -> accounted d (step p e).
Proof.
  intros H. destruct e as [|response]; simpl.
  - now apply accounted_begin.
  - destruct (awaiting p) eqn:Hw; [assumption|].
    apply accounted_resume; [assumption | lia].
Qed.

(** Whatever calls and responses follow the loading of a page, in any
    order: apart from the notification box, the document is the one
    loaded as long as no title was rewritten; a body is rewritten only
    after a title was; the rewrites made and the runs still suspended
    never exceed the requests sent; each request comes after its two
    extraction calls; and the flag is set only once a body was
    rewritten. *)
Theorem calls_are_accounted_for :
  forall (d : Document) (events : list Event),
    let p := run (loaded d) events in
    (count is_title_rewrite p = 0 ->
     apart_from_box (document p) = apart_from_box d)
    /\ count is_body_rewrite p <= count is_title_rewrite p
    /\ count is_title_rewrite p + awaiting p <= count is_send p
    /\ 2 * count is_send p <= count is_extraction p
    /\ (isTransformed p = true -> 1 <= count is_body_rewrite p).
Proof.
  intros d events.
  assert (H : forall p, accounted d p -> accounted d (run p events)).
  { induction events as [|e events IH]; intros p Hp; [assumption|].
    simpl. apply IH. now apply accounted_step. }
  apply H. unfold accounted, count. simpl.
  repeat split; auto; discriminate.
Qed.

Lemma sent_request_parts (p : Page) (request : TransformRequest) :
  snd (transformArticle_begin p) = Some request ->
  isTransformed p = false
  /\ action request = lit "transformArticle"
  /\ getArticleTitle (document p) = Some (articleTitle request)
  /\ getArticleBody (document p) = Some (articleBody request)
  /\ articleTitle request <> [].
Proof.
  intros H.
  destruct (isTransformed p) eqn:Hflag.
  - rewrite (begin_when_transformed _ Hflag) in H. discriminate.
  - destruct (begin_fields p Hflag) as (_ & _ & Hfields).
    rewrite H in Hfields.
    destruct Hfields as (Ha & Ht & Hb & Hne & _). auto.
Qed.

(** A request is sent only with the flag down, and it carries the action
    of the listener, the title and the body just extracted; the title is
    not empty, the body has more than 50 characters, and neither starts or
    ends with a blank. *)
Theorem sent_request_is_well_formed :
  forall (p : Page) (request : TransformRequest),
    snd (transformArticle_begin p) = Some request ->
    isTransformed p = false
    /\ action request = lit "transformArticle"
    /\ getArticleTitle (document p) = Some (articleTitle request)
    /\ getArticleBody (document p) = Some (articleBody request)
    /\ articleTitle request <> []
    /\ trim (articleTitle request) = articleTitle request
    /\ 50 < length (articleBody request)
    /\ trim (articleBody request) = articleBody request.
Proof.
  intros p request H.
  destruct (sent_request_parts _ H) as (Hflag & Haction & Ht & Hb & Hne).
  destruct (getArticleTitle_is_trim _ Ht) as [x Hx].
  destruct (getArticleBody_is_join _ Hb) as (f & fs & Htexts & Hjoin).
  assert (Hbody : 50 < length (articleBody request)
                  /\ trim (articleBody request) = articleBody request).
  { rewrite Hjoin. apply join_fragments. rewrite <- Htexts.
    apply articleText_fragments. }
  repeat split; try assumption; try apply Hbody.
  rewrite Hx. apply trim_trim.
Qed.

End RunExtras.

Section RunExamples.

#[local] Existing Instance example_browser.

Lemma calls_are_accounted_for_witness :
  let p :=
    run (loaded news_page)
      [Invoke; Invoke; Reply (Some failure_response);
       Reply (Some ok_response); Invoke] in
  (count is_title_rewrite p = 0 ->
   apart_from_box (document p) = apart_from_box news_page)
  /\ count is_body_rewrite p <= count is_title_rewrite p
  /\ count is_title_rewrite p + awaiting p <= count is_send p
  /\ 2 * count is_send p <= count is_extraction p
  /\ (isTransformed p = true -> 1 <= count is_body_rewrite p).
Proof.
  exact (@calls_are_accounted_for example_browser news_page
           [Invoke; Invoke; Reply (Some failure_response);
            Reply (Some ok_response); Invoke]).
Defined.

Lemma sent_request_is_well_formed_witness :
  snd (transformArticle_begin (loaded news_page)) = Some request
  /\ isTransformed (loaded news_page) = false
  /\ action request = lit "transformArticle"
  /\ getArticleTitle (document (loaded news_page))
     = Some (articleTitle request)
  /\ getArticleBody (document (loaded news_page))
     = Some (articleBody request)
  /\ articleTitle request <> []
  /\ trim (articleTitle request) = articleTitle request
  /\ 50 < length (articleBody request)
  /\ trim (articleBody request) = articleBody request.
Proof.
  assert (H : snd (transformArticle_begin (loaded news_page)) = Some request)
    by (vm_compute; reflexivity).
  split; [exact H|].
  exact (@sent_request_is_well_formed example_browser (loaded news_page)
           request H).
Defined.

End RunExamples.

(* ================================================================= *)
(** ** The two scripts together *)

Section ExchangeExtras.

Context {browser : Browser}.
Variable conv : Json -> bool.

Lemma answer_of_run (net : Network) (request : TransformRequest) :
  action request = lit "transformArticle" ->
  exists response,
    answer conv net request = Some response
    /\ snd (transformArticleWithGemini conv net (articleTitle request)
              (articleBody request)) = Fulfilled response.
Proof.
  intros Haction. unfold answer, listener. rewrite Haction, eqb_refl.
  destruct (run_is_fulfilled conv net (articleTitle request)
              (articleBody request)) as [response Hr].
  destruct (transformArticleWithGemini conv net _ _) as [posted settled].
  simpl in Hr. subst settled. simpl. eauto.
Qed.

(** A call that sends its request, then answered by the worker. *)
Lemma transform_sent (net : Network) (p : Page) (request : TransformRequest) :
  snd (transformArticle_begin p) = Some request ->
  transform conv net p
  = transformArticle_resume (answer conv net request)
      (resumed (fst (transformArticle_begin p))).
Proof.
  intros H. unfold transform.
  destruct (transformArticle_begin p) as [p1 sent]. cbn [snd] in H.
  now subst sent.
Qed.

Lemma transform_not_sent (net : Network) (p : Page) :
  snd (transformArticle_begin p) = None ->
  transform conv net p = (fst (transformArticle_begin p), None).
Proof.
  intros H. unfold transform.
  destruct (transformArticle_begin p) as [p1 sent]. cbn [snd] in H.
  now subst sent.
Qed.

(** One call of [transformArticle] on a page whose flag is down, answered
    by the background worker over any network. The promise of the call is
    rejected in one case only: by the [TypeError] of [showMessageBox],
    when the response is a failure whose notification is neither
    character data nor cut by a doctype, the flag being left down. No run
    is left suspended; [showMessageBox] was called; the document is
    untouched apart from the notification box unless the flag was set,
    and the flag is set only under the notification of success. *)
Theorem transform_settles :
  forall (net : Network) (p : Page),
    isTransformed p = false ->
    let p' := fst (transform conv net p) in
    (snd (transform conv net p) = None
     \/ snd (transform conv net p)
        = Some (cannot_read "null" "addEventListener")
        /\ isTransformed p' = false
        /\ exists message,
             messageBox p' = Some (message, lit "error")
             /\ match scan message with
                | CharacterData | Doctype _ => False
                | _ => True
                end)
    /\ awaiting p' = awaiting p
    /\ (exists message type, messageBox p' = Some (message, type))
    /\ (isTransformed p' = false ->
        apart_from_box (document p') = apart_from_box (document p))
    /\ (isTransformed p' = true ->
        messageBox p'
        = Some (lit "Article transformed into a Bollywood masterpiece!",
                lit "success")).
Proof.
  intros net p Hflag p'. subst p'.
  destruct (begin_fields p Hflag) as (Hf1 & Hd1 & Hfields).
  destruct (snd (transformArticle_begin p)) as [request|] eqn:Hsent.
  - rewrite (transform_sent net p Hsent).
    destruct Hfields as (Haction & _ & _ & _ & Hw1 & _).
    destruct (@answer_of_run net request Haction)
      as (response & Hanswer & Hrun).
    pose proof (@built_responses_carry_lyrics conv net _ _ response Hrun)
      as Hwf.
    rewrite Hanswer.
    set (p1 := resumed (fst (transformArticle_begin p))).
    assert (Hw : awaiting p1 = awaiting p) by (subst p1; cbn; now rewrite Hw1).
    assert (Hf : isTransformed p1 = false) by (subst p1; cbn; assumption).
    assert (Hd : apart_from_box (document p1) = apart_from_box (document p))
      by (subst p1; cbn; assumption).
    destruct (success response) eqn:Hs.
    + destruct (@resume_success _ response p1 Hs (Hwf Hs))
        as (Hnone & Hup & Hw2 & _ & _ & Hbox).
      rewrite Hnone, Hup, Hw2, Hbox, Hw.
      repeat split; eauto; discriminate.
    + rewrite (resume_failure_fields response p1 Hs).
      set (message := lit "Transformation failed: "
                      ++ or_else (error response) (lit "Unknown error")).
      destruct (showMessageBox_page message (lit "error") p1)
        as (Hbox & Hf2 & Hw2 & _ & Hd2 & _).
      pose proof (@showMessageBox_returns _ message (lit "error") p1) as Hret.
      rewrite Hbox, Hf2, Hw2, Hd2, Hf, Hw, Hd.
      split; [|repeat split; eauto; discriminate].
      destruct (showMessageBox_outcome message (lit "error") p1)
        as [Hnone | Hthrown]; [now left|].
      right. split; [assumption|]. split; [reflexivity|].
      exists message. split; [reflexivity|].
      destruct (scan message); try exact I;
        rewrite (Hret I) in Hthrown; discriminate.
  - rewrite (transform_not_sent net p Hsent). cbn [fst snd].
    destruct Hfields as (Hw1 & Hp & _).
    split; [now left|]. split; [assumption|].
    split.
    + rewrite Hp.
      match goal with
      | |- context [showMessageBox ?m ?t ?q] =>
          destruct (showMessageBox_page m t q) as (Hbox & _)
      end.
      eauto.
    + split; [intros _; assumption | congruence].
Qed.

(** When the [try] block of the background worker raises an exception
    whose notification is character data, the page shows the message of
    that exception after the words Transformation failed, or the fallback
    text of the worker when the message is empty: the words Unknown error
    of content.js are never shown for a response of this worker. The
    call returns, and the document apart from the notification box and
    the flag are left as they were. *)
Theorem failure_notification_names_the_error :
  forall (net : Network) (p : Page) (request : TransformRequest) (e : Exn),
    snd (transformArticle_begin p) = Some request ->
    snd (try_block conv net (articleTitle request) (articleBody request) [])
    = inl e ->
    let text :=
      if nonempty (message e) then message e
      else lit "Network or API response parsing error." in
    scan (lit "Transformation failed: " ++ text) = CharacterData ->
    let p' := fst (transform conv net p) in
    displayed (document p') = Some (lit "Transformation failed: " ++ text)
    /\ snd (transform conv net p) = None
    /\ apart_from_box (document p') = apart_from_box (document p)
    /\ isTransformed p' = false.
Proof.
  intros net p request e Hsent Htry text Hscan p'. subst p'.
  destruct (sent_request_parts _ Hsent) as (Hflag & Haction & _).
  rewrite (transform_sent net p Hsent).
  destruct (begin_keeps p) as (Hd1 & Hf1 & _).
  set (p1 := resumed (fst (transformArticle_begin p))).
  assert (Hanswer : answer conv net request
                    = Some (mkResponse false None None (Some text))).
  { unfold answer, listener, transformArticleWithGemini.
    rewrite Haction, eqb_refl.
    destruct (try_block conv net (articleTitle request) (articleBody request)
                []) as [posted outcome].
    simpl in Htry. subst outcome.
    cbn [responses hd_error]. now rewrite failed_error. }
  rewrite Hanswer.
  assert (Htext : or_else (Some text) (lit "Unknown error") = text).
  { apply or_else_present. subst text.
    destruct (message e); discriminate. }
  rewrite (resume_failure_fields
             (mkResponse false None None (Some text)) p1 eq_refl).
  cbn [error]. rewrite Htext.
  destruct (showMessageBox_page (lit "Transformation failed: " ++ text)
              (lit "error") p1) as (_ & Hf2 & _ & _ & Hd2 & _).
  rewrite Hf2, Hd2.
  split; [now apply displayed_shown|].
  split; [apply showMessageBox_returns; now rewrite Hscan|].
  subst p1. cbn [resumed document isTransformed].
  split; congruence.
Qed.

End ExchangeExtras.

Section ExchangeExamples.

#[local] Existing Instance example_browser.

Lemma transform_settles_witness :
  isTransformed (loaded news_page) = false
  /\ (let p' :=
        fst (transform no_conversion
               (answers (Parsed (candidate (lit "Buddy: The Golden Heart")))
                  (Parsed (candidate lyrics)))
               (loaded news_page)) in
      snd (transform no_conversion
             (answers (Parsed (candidate (lit "Buddy: The Golden Heart")))
                (Parsed (candidate lyrics)))
             (loaded news_page)) = None
      /\ awaiting p' = awaiting (loaded news_page)
      /\ isTransformed p' = true
      /\ messageBox p'
         = Some (lit "Article transformed into a Bollywood masterpiece!",
                 lit "success")).
Proof.
  assert (Hup : isTransformed
                  (fst (transform no_conversion
                          (answers
                             (Parsed (candidate (lit "Buddy: The Golden Heart")))
                             (Parsed (candidate lyrics)))
                          (loaded news_page))) = true)
    by (vm_compute; reflexivity).
  pose proof (@transform_settles example_browser no_conversion
                (answers (Parsed (candidate (lit "Buddy: The Golden Heart")))
                   (Parsed (candidate lyrics)))
                (loaded news_page) eq_refl)
    as (Hsettled & Hw & _ & _ & Hbox).
  split; [reflexivity|].
  split.
  - destruct Hsettled as [Hnone | (_ & Hdown & _)]; [exact Hnone|].
    exfalso. exact (eq_true_false_abs _ Hup Hdown).
  - split; [exact Hw|]. split; [exact Hup | exact (Hbox Hup)].
Defined.

Lemma failure_notification_names_the_error_witness :
  snd (transformArticle_begin (loaded news_page)) = Some request
  /\ snd (try_block no_conversion
            (answers (NetworkFailure failed_to_fetch) (Parsed api_error))
            (articleTitle request) (articleBody request) [])
     = inl failed_to_fetch
  /\ scan (lit "Transformation failed: Failed to fetch") = CharacterData
  /\ displayed
       (document
          (fst (transform no_conversion
                  (answers (NetworkFailure failed_to_fetch) (Parsed api_error))
                  (loaded news_page))))
     = Some (lit "Transformation failed: Failed to fetch")
  /\ snd (transform no_conversion
            (answers (NetworkFailure failed_to_fetch) (Parsed api_error))
            (loaded news_page)) = None
  /\ apart_from_box
       (document
          (fst (transform no_conversion
                  (answers (NetworkFailure failed_to_fetch) (Parsed api_error))
                  (loaded news_page))))
     = apart_from_box (document (loaded news_page))
  /\ isTransformed
       (fst (transform no_conversion
               (answers (NetworkFailure failed_to_fetch) (Parsed api_error))
               (loaded news_page)))
     = false.
Proof.
  assert (H : snd (transformArticle_begin (loaded news_page)) = Some request)
    by (vm_compute; reflexivity).
  assert (Ht : snd (try_block no_conversion
                      (answers (NetworkFailure failed_to_fetch)
                         (Parsed api_error))
                      (articleTitle request) (articleBody request) [])
               = inl failed_to_fetch)
    by (vm_compute; reflexivity).
  assert (Hs : scan (lit "Transformation failed: Failed to fetch")
               = CharacterData)
    by (vm_compute; reflexivity).
  split; [exact H|].
  split; [exact Ht|].
  split; [exact Hs|].
  exact (@failure_notification_names_the_error example_browser no_conversion
           (answers (NetworkFailure failed_to_fetch) (Parsed api_error))
           (loaded news_page) request failed_to_fetch H Ht Hs).
Defined.

End ExchangeExamples.

(* ================================================================= *)
(** ** More on background.js *)

Section BackgroundExtras.

Variable conv : Json -> bool.

Lemma eqb_neq (a b : jsstring) : a <> b -> eqb a b = false.
Proof.
  intros H. destruct (eqb a b) eqn:E; [|reflexivity].
  apply eqb_eq in E. contradiction.
Qed.

(** The listener does nothing for a message of another action: it posts
    nothing, hands no response and does not return true. For the action
    transformArticle it posts the movie payload, then at most the song
    payload, and hands one response of one of two shapes: a success with
    both texts and no error, or a failure with neither text and an error
    text that is not empty. *)
Theorem listener_posts_and_shapes :
  forall (net : Network) (request : TransformRequest),
    let handled := listener conv net request in
    let movie :=
      moviePayload (articleTitle request) (articleBody request) in
    let song := songPayload (articleTitle request) (articleBody request) in
    (action request <> lit "transformArticle" ->
     handled = mkHandled false [] [])
    /\ (action request = lit "transformArticle" ->
        posted handled = [movie] \/ posted handled = [movie; song])
    /\ (forall r,
          In r (responses handled) ->
          (success r = true
           /\ (exists t l, movieTitle r = Some t /\ songLyrics r = Some l)
           /\ error r = None)
          \/ (success r = false
              /\ movieTitle r = None
              /\ songLyrics r = None
              /\ exists text, error r = Some text /\ text <> [])).
Proof.
  intros net request handled movie song. subst handled movie song.
  unfold listener. split; [|split].
  - intros Hother. now rewrite (eqb_neq Hother).
  - intros ->. rewrite eqb_refl, run_by_generations.
    destruct (generation conv movie_path default_title (net 0));
      [now left|].
    destruct (generation conv song_path default_lyrics (net 1));
      now right.
  - intros r. destruct (eqb (action request) (lit "transformArticle"));
      [|intros []].
    rewrite run_by_generations.
    assert (Hfail : forall e,
               success (failed e (lit "Network or API response parsing error."))
               = false
               /\ movieTitle (failed e (lit "Network or API response parsing error."))
                  = None
               /\ songLyrics (failed e (lit "Network or API response parsing error."))
                  = None
               /\ exists text,
                    error (failed e (lit "Network or API response parsing error."))
                    = Some text /\ text <> []).
    { intros e. rewrite failed_error. simpl. repeat split.
      eexists. split; [reflexivity|].
      destruct (message e); discriminate. }
    destruct (generation conv movie_path default_title (net 0)) as [e | t].
    + intros [<- | []]. right. apply Hfail.
    + destruct (generation conv song_path default_lyrics (net 1))
        as [e | l]; intros [<- | []].
      * right. apply Hfail.
      * left. simpl. split; [reflexivity|]. split; [|reflexivity].
        now exists t, l.
Qed.

(** Only the first part of the first candidate is read: when it holds a
    text, that text is the generated one, trimmed, whatever else the body
    holds. *)
Theorem first_candidate_text :
  forall (path : string) (default : jsstring)
         (fields cfields pfields tfields : list (jsstring * Json))
         (candidates parts : list Json) (text : jsstring),
    field (lit "candidates") fields
    = Some (JArray (JObject cfields :: candidates)) ->
    field (lit "content") cfields = Some (JObject pfields) ->
    field (lit "parts") pfields = Some (JArray (JObject tfields :: parts)) ->
    field (lit "text") tfields = Some (JString text) ->
    generated conv path default (JObject fields) = inr (trim text).
Proof.
  intros path default fields cfields pfields tfields candidates parts text
    Hc Hcontent Hparts Htext.
  unfold generated. simpl.
  rewrite Hc. simpl. rewrite Hcontent. simpl. rewrite Hparts. simpl.
  now rewrite Htext.
Qed.

(** A first candidate without content, or whose content has no parts,
    does not fail the call: the default text is used. *)
Theorem candidate_without_parts_gives_default :
  forall (path : string) (default : jsstring)
         (fields cfields : list (jsstring * Json)) (candidates : list Json),
    field (lit "candidates") fields
    = Some (JArray (JObject cfields :: candidates)) ->
    field (lit "content") cfields = None
    \/ field (lit "content") cfields = Some JNull
    \/ (exists pfields,
          field (lit "content") cfields = Some (JObject pfields)
          /\ (field (lit "parts") pfields = None
              \/ field (lit "parts") pfields = Some JNull
              \/ field (lit "parts") pfields = Some (JArray []))) ->
    generated conv path default (JObject fields) = inr default.
Proof.
  intros path default fields cfields candidates Hc H.
  unfold generated. simpl. rewrite Hc. simpl.
  destruct H as [H | [H | (pfields & H & Hp)]]; rewrite H; simpl;
    try reflexivity.
  destruct Hp as [-> | [-> | ->]]; reflexivity.
Qed.

(** A first candidate that is [null], a first part that is [null], and a
    first part without text do fail the call: the read throws a
    TypeError. *)
Theorem null_candidate_throws :
  forall (path : string) (default : jsstring)
         (fields : list (jsstring * Json)) (first : Json)
         (candidates : list Json),
    field (lit "candidates") fields = Some (JArray (first :: candidates)) ->
    first = JNull
    \/ (exists cfields pfields part parts,
          first = JObject cfields
          /\ field (lit "content") cfields = Some (JObject pfields)
          /\ field (lit "parts") pfields = Some (JArray (part :: parts))
          /\ (part = JNull
              \/ exists tfields,
                   part = JObject tfields
                   /\ field (lit "text") tfields = None)) ->
    exists e,
      generated conv path default (JObject fields) = inl e
      /\ name e = "TypeError"
      /\ message e <> [].
Proof.
  intros path default fields first candidates Hc H.
  unfold generated. simpl. rewrite Hc. simpl.
  destruct H as [-> | (cfields & pfields & part & parts & -> & Hcontent
                        & Hparts & Hpart)].
  - eexists. split; [reflexivity|]. split; [reflexivity | discriminate].
  - simpl. rewrite Hcontent. simpl. rewrite Hparts. simpl.
    destruct Hpart as [-> | (tfields & -> & Htext)].
    + eexists. split; [reflexivity|]. split; [reflexivity | discriminate].
    + simpl. rewrite Htext. simpl.
      eexists. split; [reflexivity|]. split; [reflexivity | discriminate].
Qed.




End BackgroundExtras.

Section BackgroundExtraExamples.

Lemma listener_posts_and_shapes_witness :
  action other_request <> lit "transformArticle"
  /\ listener no_conversion (answers (Parsed api_error) (Parsed api_error))
       other_request
     = mkHandled false [] []
  /\ action request = lit "transformArticle"
  /\ (posted
        (listener no_conversion
           (answers (Parsed api_error) (Parsed api_error)) request)
      = [moviePayload (articleTitle request) (articleBody request)]
      \/ posted
           (listener no_conversion
              (answers (Parsed api_error) (Parsed api_error)) request)
         = [moviePayload (articleTitle request) (articleBody request);
            songPayload (articleTitle request) (articleBody request)]).
Proof.
  assert (H : action other_request <> lit "transformArticle")
    by (vm_compute; discriminate).
  split; [exact H|].
  split.
  - exact (proj1 (listener_posts_and_shapes no_conversion
                    (answers (Parsed api_error) (Parsed api_error))
                    other_request) H).
  - split; [reflexivity|].
    exact (proj1 (proj2 (listener_posts_and_shapes no_conversion
                           (answers (Parsed api_error) (Parsed api_error))
                           request)) eq_refl).
Defined.


Lemma first_candidate_text_witness :
  field (lit "candidates") rich_fields
  = Some (JArray [JObject rich_candidate; JObject [(lit "content", JNull)]])
  /\ field (lit "content") rich_candidate = Some (JObject rich_content)
  /\ field (lit "parts") rich_content
     = Some (JArray
               [JObject rich_part;
                JObject [(lit "text", JString (lit "second part"))]])
  /\ field (lit "text") rich_part
     = Some (JString (lit " Buddy: The Golden Heart "))
  /\ generated no_conversion movie_path default_title (JObject rich_fields)
     = inr (lit "Buddy: The Golden Heart").
Proof.
  assert (H1 : field (lit "candidates") rich_fields
               = Some (JArray [JObject rich_candidate;
                               JObject [(lit "content", JNull)]]))
    by (vm_compute; reflexivity).
  assert (H2 : field (lit "content") rich_candidate
               = Some (JObject rich_content))
    by (vm_compute; reflexivity).
  assert (H3 : field (lit "parts") rich_content
               = Some (JArray
                         [JObject rich_part;
                          JObject [(lit "text", JString (lit "second part"))]]))
    by (vm_compute; reflexivity).
  assert (H4 : field (lit "text") rich_part
               = Some (JString (lit " Buddy: The Golden Heart ")))
    by (vm_compute; reflexivity).
  split; [exact H1|].
  split; [exact H2|].
  split; [exact H3|].
  split; [exact H4|].
  exact (@first_candidate_text no_conversion movie_path default_title
           rich_fields rich_candidate rich_content rich_part _ _ _
           H1 H2 H3 H4).
Defined.

Lemma candidate_without_parts_gives_default_witness :
  field (lit "candidates") blocked_fields
  = Some (JArray [JObject blocked_candidate])
  /\ field (lit "content") blocked_candidate = None
  /\ generated no_conversion movie_path default_title
       (JObject blocked_fields)
     = inr default_title.
Proof.
  assert (H : field (lit "candidates") blocked_fields
              = Some (JArray [JObject blocked_candidate]))
    by (vm_compute; reflexivity).
  assert (Hc : field (lit "content") blocked_candidate = None)
    by (vm_compute; reflexivity).
  split; [exact H|].
  split; [exact Hc|].
  exact (@candidate_without_parts_gives_default no_conversion movie_path
           default_title blocked_fields blocked_candidate [] H
           (or_introl Hc)).
Defined.

Lemma null_candidate_throws_witness :
  field (lit "candidates") [(lit "candidates", JArray [JNull])]
  = Some (JArray [JNull])
  /\ exists e,
       generated no_conversion movie_path default_title
         (JObject [(lit "candidates", JArray [JNull])]) = inl e
       /\ name e = "TypeError"
       /\ message e <> [].
Proof.
  assert (H : field (lit "candidates") [(lit "candidates", JArray [JNull])]
              = Some (JArray [JNull]))
    by (vm_compute; reflexivity).
  split; [exact H|].
  exact (@null_candidate_throws no_conversion movie_path default_title
           [(lit "candidates", JArray [JNull])] JNull [] H
           (or_introl eq_refl)).
Defined.

End BackgroundExtraExamples.

(* ================================================================= *)
(** ** The container that is rewritten, and runs with the worker *)

Section ContainerExtras.

Lemma is_some_true {A : Type} (a : option A) :
  is_some a = true -> a <> None.
Proof. destruct a; simpl; [discriminate | discriminate]. Qed.

(** The container [updateArticleBody] rewrites is the first match of one
    of its selectors; it is laid out, and it holds a [p], a [div.Normal]
    or more than 50 characters of text: a hidden or empty element is never
    rewritten. *)
Theorem rewritten_container_is_visible :
  forall (d : Document) (r : Ref) (container : Node),
    container_loop articleBodyContainerSelectors d = Some (r, container) ->
    (exists s,
        In s articleBodyContainerSelectors
        /\ querySelector [s] d = Some (r, container))
    /\ laid_out container = true
    /\ (querySelector_in [ByTag "p"] container <> None
        \/ querySelector_in [ByClass "div" "Normal"] container <> None
        \/ 50 < length (trimmed_text container)).
Proof.
  intros d r container H.
  destruct (container_loop_found _ _ H) as (s & Hin & Hq & Hok).
  split; [eauto|].
  unfold qualifies in Hok. apply andb_prop in Hok.
  destruct Hok as [Hlaid Hok]. split; [assumption|].
  apply orb_prop in Hok. destruct Hok as [Hok | Hok].
  - apply orb_prop in Hok. destruct Hok as [Hok | Hok].
    + apply orb_prop in Hok. destruct Hok as [Hok | Hok].
      * left. apply is_some_true. exact Hok.
      * right. left. apply is_some_true. exact Hok.
    + right. right. apply Nat.ltb_lt in Hok. lia.
  - right. right. apply andb_prop in Hok. destruct Hok as [_ Hok].
    now apply Nat.ltb_lt in Hok.
Qed.

Lemma rewritten_container_is_visible_witness :
  container_loop articleBodyContainerSelectors news_page
  = Some (InBody [1], news_article)
  /\ (exists s,
         In s articleBodyContainerSelectors
         /\ querySelector [s] news_page = Some (InBody [1], news_article))
  /\ laid_out news_article = true
  /\ (querySelector_in [ByTag "p"] news_article <> None
      \/ querySelector_in [ByClass "div" "Normal"] news_article <> None
      \/ 50 < length (trimmed_text news_article)).
Proof.
  assert (H : container_loop articleBodyContainerSelectors news_page
              = Some (InBody [1], news_article))
    by (vm_compute; reflexivity).
  split; [exact H|].
  exact (@rewritten_container_is_visible news_page (InBody [1])
           news_article H).
Defined.

End ContainerExtras.

Section WorkerRuns.

Context {browser : Browser}.
Variable conv : Json -> bool.

(** A call answered by the worker is a call followed by the arrival of a
    response that carries its lyrics. *)
Lemma transform_as_steps (net : Network) (p : Page) :
  awaiting p = 0 ->
  exists response,
    carries_lyrics response
    /\ fst (transform conv net p) = step (step p Invoke) (Reply response).
Proof.
  intros Hw. pose proof (begin_sends p) as Hsends.
  change (step p Invoke) with (fst (transformArticle_begin p)).
  destruct (snd (transformArticle_begin p)) as [request|] eqn:Hsent.
  - destruct (sent_request_parts _ Hsent) as (Hflag & Haction & _).
    destruct (@answer_of_run conv net request Haction)
      as (response & Hanswer & Hrun).
    exists (Some response). split.
    + eapply built_responses_carry_lyrics; eassumption.
    + rewrite (@transform_sent _ conv net p request Hsent), Hanswer.
      cbn [step]. destruct Hsends as (_ & _ & Hw1).
      now rewrite Hw1.
  - exists None. split; [exact I|].
    rewrite (@transform_not_sent _ conv net p Hsent).
    cbn [fst step]. destruct Hsends as (_ & Hw1).
    now rewrite Hw1, Hw.
Qed.

Lemma settled_transforms (d : Document) (nets : list Network) :
  forall p, settled d p -> settled d (transforms conv nets p).
Proof.
  induction nets as [|net nets IH]; intros p Hp; [assumption|].
  simpl. apply IH.
  destruct (@transform_as_steps net p (proj1 Hp)) as (response & Hwf & ->).
  now apply settled_run_once.
Qed.

(** With the worker of this extension answering, calls of
    [transformArticle] made one after the other rewrite the title at most
    once and the body at most once, whatever the network does at each
    call; the flag is set exactly when they were rewritten, and until then
    the document is the one that was loaded, apart from the notification
    box. *)
Theorem worker_runs_rewrite_once :
  forall (d : Document) (nets : list Network),
    let p := transforms conv nets (loaded d) in
    count is_title_rewrite p <= 1
    /\ count is_body_rewrite p <= 1
    /\ awaiting p = 0
    /\ (isTransformed p = true <->
        count is_title_rewrite p = 1 /\ count is_body_rewrite p = 1)
    /\ (isTransformed p = false ->
        apart_from_box (document p) = apart_from_box d).
Proof.
  intros d nets p.
  assert (Hs : settled d p).
  { apply settled_transforms. split; [reflexivity|]. left. repeat split. }
  destruct Hs as [Hw [(Hf & Ht & Hb & Hd) | (Hf & Ht & Hb)]].
  - rewrite Ht, Hb, Hf. repeat split; try lia; congruence.
  - rewrite Ht, Hb, Hf. repeat split; try lia; congruence.
Qed.

End WorkerRuns.

Section WorkerRunsExamples.

#[local] Existing Instance example_browser.

Lemma worker_runs_rewrite_once_witness :
  let good :=
    answers (Parsed (candidate (lit "Buddy: The Golden Heart")))
      (Parsed (candidate lyrics)) in
  let bad := answers (NetworkFailure failed_to_fetch) (Parsed api_error) in
  let p := transforms no_conversion [bad; good; good] (loaded news_page) in
  count is_title_rewrite p <= 1
  /\ count is_body_rewrite p <= 1
  /\ awaiting p = 0
  /\ (isTransformed p = true <->
      count is_title_rewrite p = 1 /\ count is_body_rewrite p = 1)
  /\ (isTransformed p = false ->
      apart_from_box (document p) = apart_from_box news_page).
Proof.
  exact (@worker_runs_rewrite_once example_browser no_conversion news_page
           [answers (NetworkFailure failed_to_fetch) (Parsed api_error);
            answers (Parsed (candidate (lit "Buddy: The Golden Heart")))
              (Parsed (candidate lyrics));
            answers (Parsed (candidate (lit "Buddy: The Golden Heart")))
              (Parsed (candidate lyrics))]).
Defined.

End WorkerRunsExamples.
